(* ===== verification/_CoqProject ===== *)
-Q . S2P
Prelude.v
PyStr.v
Frame.v
AgeGroup.v
TopN.v
Views.v
Dashboard.v
Spec.v
Charts.v
Page.v
