(* ===== verification/Prelude.v ===== *)
(** * Verification of the cancer-incidence dashboard (src/main.py)

    ** The program

    [src/main.py] is a single Streamlit script.  It loads one table
    ([df_all], columns Year, Gender, Age, Name, Count), reads two selectors
    (gender, age group), builds the tables of its charts with pandas, the
    charts with Altair, and draws the page with Streamlit:

      - lines 7-12    [extract_lower_bound]: the numeric lower bound of an
                      age-group label, the only function the script defines;
      - lines 21-22   the two base views [df_after_2003] and [df_latest];
      - lines 30-33   the options of the age selector;
      - lines 35-39   the selector filter [df_latest_gender_age];
      - lines 41-62   the "top 10" pie: group by Name, sort descending, keep
                      nine groups, fold the rest into "Other", add the Sort
                      and Percentage columns;
      - lines 66-119  the views by year, by year and gender, by gender and
                      by age group;
      - lines 130-133 the "by type" bar chart: top twenty plus "Other";
      - lines 17-143  in between, the Streamlit calls (title, headers,
                      columns, select boxes, [st.altair_chart]) and the
                      seven Altair chart expressions; line 143, the last
                      one, draws the chart by type.

    Every table is recomputed from [df_all] on each run; nothing is mutated
    after it has been built, so the tables are pure functions of [df_all].
    The failures of the script are Python exceptions; they are values of
    [result].  The one effect of the script is the page: each Streamlit call
    appends an element to it, and an exception leaves on the page what was
    drawn before it.

    ** The files

      - [Prelude]   (this file) the exception monad [result] with its
                    notations (scope [py_scope]), the relation [result_rel]
                    between two runs, the column sum [zsum], the tactics and
                    the hint databases [frame] and [frame_simpl].
      - [PyStr]     the Python string primitives the script calls: [in]
                    ([str_contains]), [str.split] ([str_split]) and [int]
                    ([py_int]).
      - [Frame]     the pandas primitives: rows, [groupby(...).sum()]
                    ([groupby_sum], class [KeyOrd] for the group keys),
                    [transform('sum')], [unique], [sort_values] (class
                    [Sorter]), [max] ([py_max]), true division into floats
                    ([fval], [true_div]).
      - [AgeGroup]  [extract_lower_bound] (lines 7-12) and the options of the
                    two selectors (lines 28-33).
      - [TopN]      the selector filter [latest_gender_age] (lines 35-39),
                    the "top 10" pie ([cancer_type] ... [pie_order], lines
                    41-62) and the "by type" bar chart ([top_types] ...
                    [df_type], lines 130-133).
      - [Views]     [df_after_2003], [df_latest] (lines 21-22) and the tables
                    by year, by year and gender, by gender and by age group
                    ([df_year], [df_year_gender], [df_gender], [df_age]).
      - [Dashboard] [run]: one execution of the script from line 21 to line
                    133, the fallible statements bound in script order, as a
                    function of the loaded table and the selected values.
      - [Spec]      the three operations the specification names
                    ([lowerBound], [topNWithOther], [filterLatestYear]),
                    written from its words, and their comparison with the
                    code.
      - [Charts]    the tables as Altair receives them ([frame]: named
                    columns with a dtype, rows of cells; one conversion
                    [frame_of_...] per table) and the seven chart
                    expressions as data ([pie_chart] ... [type_chart]: mark,
                    mark options, encodings with their shorthand and
                    keyword arguments, configuration); [tolist] is
                    [df_age['Age'].tolist()] of line 123.
      - [Page]      [main]: the script from line 17 to line 143 as a writer
                    over [result] ([script]), statement by statement; the
                    six sections of the source are six definitions
                    ([most_frequent_cancers] ... [data_by_type]) that [main]
                    runs in order.  The option chosen in a select box is
                    given by its index.

    Components meet through two interfaces of [Frame]: [KeyOrd] (a decidable
    total order on group keys, with instances for integers, strings and
    pairs) and [Sorter] (what the script may assume of [sort_values]).  The
    files of the tables are written against the interfaces; [merge_sorter]
    discharges [Sorter] and makes every table computable.

    In each file the definitions come first, then the lemmas of the
    component, then its properties.  A property carries an identifier C<n>
    in its comment; it is proved from the lemmas and no other proof depends
    on it.

    ** What is proved

      - [PyStr]:    [str_split] and [String.concat] are inverse and no part
                    [str_split] returns holds the separator; [py_int] reads
                    back what [pretty] prints.
      - [Frame]:    [groupby_sum] refines the reference [groupby_spec]; its
                    keys are strictly increasing, each with the sum of its
                    rows; it conserves the column total, is bounded by it,
                    and does not depend on the order of the rows (a [Proper]
                    instance, as for [py_max] and every table built on
                    them).
      - [AgeGroup]: the behaviour of [extract_lower_bound] on every branch,
                    the [ValueError] included; the options of the age
                    selector are the distinct labels, sorted by bound.
      - [TopN]:     conservation of the total through the fold into "Other",
                    the number of rows, domination of the folded groups by
                    the kept ones, "Other" last in the drawing order, the
                    percentages (and when they are NaN), the equivalence of
                    the two ways the script computes an "Other" count, and
                    what the selector filter really selects: with an age
                    group chosen the gender is ignored (line 39).
      - [Views]:    what [df_latest] holds; the table by year and its order;
                    agreement of the Total column with the table by year;
                    the percentages of the tables by year and gender and by
                    gender; the order of the table by age group.
      - [Dashboard]: a run ends without exception exactly when the table has
                    a row and every age label has a bound, and otherwise
                    which exception ends it and where; the charts of the
                    latest year agree on its total; the selectors change the
                    pie and nothing else; two files with the same rows in
                    another order give the same dashboard, up to the order
                    of age choices with the same bound; every Percentage
                    is a share of its total (between 0 and 1, or NaN); the
                    chart by age group lists the age groups in the order
                    of the selector when no two labels share a bound.
      - [Spec]:     the code meets the contracts of the specification up to
                    three differences, each stated as an equation: the row
                    "Other" is present even when nothing is folded into it,
                    the gender is dropped when an age group is chosen, and a
                    malformed label raises where the specification asks for
                    the bound 85.
      - [Charts]:   the sort list of the chart by age group holds each age
                    label of the latest year once, by increasing lower
                    bound.
      - [Page]:     the page of a run that reaches the last line, element by
                    element (eighteen elements, seven charts); the page a
                    failing run leaves behind; and that the select boxes
                    change the two boxes and the pie and no other element
                    of the page.

    Each property with a hypothesis comes with a witness on a concrete table
    ([Frame.sample_rows], [TopN.scenario], [TopN.eleven_types]), and each
    file ends with examples evaluated by the kernel.

    ** Modelling choices and their limits

      - Integers are [Z].  pandas stores Count as int64; the theorem
        [Frame.groupby_sum_bounds] shows that every derived count lies between
        0 and the table's total when the counts are non-negative, so no sum
        wraps as long as the total of the table fits 63 bits.
      - Strings are [string] (bytes).  Python compares code points, and the
        byte order of UTF-8 text is its code-point order, so [groupby]
        orders labels as pandas does.  [py_int] reads ASCII digits and
        blanks; the digits and blanks of other scripts, which [int] also
        accepts, are not modelled.
      - Every cell of the table holds a value: a missing value (NaN after
        [read_csv]) is not modelled, so the rows [groupby] would drop for a
        missing key do not occur.
      - A float is an [fval]: an exact rational, an infinity or NaN.  Rounding
        to binary64 is not modelled; [Fin q] stands for the float nearest [q].
      - [sort_values] uses an unstable sort, so the order of ties is not
        fixed by pandas.  The script's sorts go through the class [Sorter]
        (any function returning a sorted permutation); theorems about them
        hold for every instance, and [merge_sorter] makes them executable.
      - The selected values are inputs of [run] and [main]: Streamlit runs
        the script again whenever one changes, so one run sees one pair of
        values.  [main] takes the index of the chosen option; the session
        state that remembers it between runs is Streamlit's.
      - A chart is the expression the script writes, not the picture: what
        Vega-Lite draws from it is outside the repository.  The column
        names and dtypes of a [frame] are those the table has at the line
        its chart is built; they are written per table and do not depend
        on the rows.
      - The message of an exception is a fixed label: CPython's text names
        the offending literal and varies with the version.  [py_int] has
        no limit on the number of digits.

    ** Not modelled

      - Reading the CSV file (line 15, [pd.read_csv]): the parser is pandas'
        and the file is not part of the sources; the table is an input of
        every definition.
      - The rendering of the page by Streamlit and of the charts by
        Vega-Lite: library code the script only calls.
      - Rounding of floats and missing values, as said above.

    ** Termination and fuel

    No recursion in the development needs fuel: every function is structural
    on a list or a string, so each is total by construction and the script
    always ends, with a page and a value or an exception ([Page.main] is a
    function).  There is for that reason no separate termination theorem.
*)

From stdpp Require Export numbers strings sorting list.

#[global] Open Scope Z_scope.

(** * Python exceptions as values *)

(** The exceptions of the primitives the script calls: [ValueError] ([int],
    [max], [str.split]) and [IndexError] (list indexing).  The message names
    the cause, as Python's does. *)
Inductive exn : Type :=
| ValueError (msg : string)
| IndexError (msg : string).

Inductive result (A : Type) : Type :=
| Ok (a : A)
| Raise (e : exn).
Arguments Ok {A} a.
Arguments Raise {A} e.

#[global] Instance exn_eq_dec : EqDecision exn.
Proof. solve_decision. Defined.

#[global] Instance result_eq_dec `{EqDecision A} : EqDecision (result A).
Proof. solve_decision. Defined.

#[global] Instance result_ret : MRet result := @Ok.

#[global] Instance result_bind : MBind result := λ A B f m,
  match m with Ok a => f a | Raise e => Raise e end.

#[global] Instance result_fmap : FMap result := λ A B f m,
  match m with Ok a => Ok (f a) | Raise e => Raise e end.

Definition is_Ok {A} (m : result A) : Prop := ∃ a, m = Ok a.

Definition is_Raise {A} (m : result A) : Prop := ∃ e, m = Raise e.

(** Two runs agree up to [R]: both return, with related values, or both
    raise.  The exceptions themselves are not compared: which of several
    offending rows is reported first depends on the order of the rows. *)
Definition result_rel {A B} (R : A → B → Prop) (m : result A) (m' : result B) : Prop :=
  match m, m' with
  | Ok a, Ok b => R a b
  | Raise _, Raise _ => True
  | _, _ => False
  end.

Declare Scope py_scope.
Delimit Scope py_scope with py.
Notation "'raise' 'ValueError' ( msg )" := (Raise (ValueError msg))
  (at level 0, msg at level 200, format "'raise'  'ValueError' ( msg )") : py_scope.
Notation "'raise' 'IndexError' ( msg )" := (Raise (IndexError msg))
  (at level 0, msg at level 200, format "'raise'  'IndexError' ( msg )") : py_scope.
#[global] Open Scope py_scope.

(** * The sum of an integer column *)

Definition zsum (l : list Z) : Z := foldr Z.add 0 l.

(** [col_min d l] is the least entry of the non-empty column [l ++ [d]]. *)
Definition col_min (d : Z) (l : list Z) : Z := foldr Z.min d l.

(** * Tactics *)

(** [inv_result] splits the hypotheses that say a monadic computation
    succeeded into one equation per step. *)
Ltac inv_result :=
  repeat match goal with
  | H : Ok _ = Ok _ |- _ => injection H as H; try subst
  | H : Raise _ = Ok _ |- _ => discriminate H
  | H : Ok _ = Raise _ |- _ => discriminate H
  | H : Raise _ = Raise _ |- _ => injection H as H; try subst
  | H : mret _ = Ok _ |- _ => unfold mret, result_ret in H
  | H : mbind _ ?m = _ |- _ =>
      let E := fresh "E" in destruct m eqn:E; simpl in H
  | H : fmap _ ?m = _ :> result _ |- _ =>
      let E := fresh "E" in destruct m eqn:E; simpl in H
  end.

(** [case_dec] splits on the first [decide] or [bool_decide] of the goal. *)
Ltac case_dec :=
  first [ case_decide | case_bool_decide ]; simplify_eq/=; try done.

Create HintDb frame discriminated.
Create Rewrite HintDb frame_simpl.

(** * Lemmas on [result] *)

Section result.
Context {A B : Type}.
Implicit Types (m : result A) (f : A → result B).

Lemma bind_Ok m f b :
  m ≫= f = Ok b ↔ ∃ a, m = Ok a ∧ f a = Ok b.
Proof.
  destruct m as [a|e]; simpl; split.
  - by exists a.
  - by intros (? & [= <-] & ?).
  - done.
  - by intros (? & ? & ?).
Qed.

Lemma bind_Raise m f e :
  m ≫= f = Raise e ↔ m = Raise e ∨ ∃ a, m = Ok a ∧ f a = Raise e.
Proof.
  destruct m as [a|e']; simpl; split.
  - right. by exists a.
  - by intros [?|(? & [= <-] & ?)].
  - intros [= ->]. by left.
  - by intros [[= ->]|(? & ? & ?)].
Qed.

Lemma fmap_Ok (g : A → B) m b :
  g <$> m = Ok b ↔ ∃ a, m = Ok a ∧ b = g a.
Proof.
  destruct m as [a|e]; simpl; split.
  - intros [= <-]. by exists a.
  - by intros (? & [= <-] & ->).
  - done.
  - by intros (? & ? & ?).
Qed.

Lemma is_Ok_or_Raise m : is_Ok m ∨ is_Raise m.
Proof. destruct m; [left|right]; eexists; done. Qed.

Lemma is_Ok_not_Raise m : is_Ok m → ¬ is_Raise m.
Proof. intros [a ->] [e ?]; done. Qed.

(** [Series.apply(f)]: the first exception aborts the whole column. *)
Lemma mapM_Ok f (l : list A) (k : list B) :
  mapM f l = Ok k ↔ Forall2 (λ x y, f x = Ok y) l k.
Proof.
  split.
  - revert k. induction l as [|x l IH]; intros k Hk; simpl in Hk.
    + by inv_result.
    + inv_result. constructor; auto.
  - induction 1 as [|x y l k Hx _ IH]; simpl; [done|]. by rewrite Hx, IH.
Qed.

Lemma mapM_Ok_length f (l : list A) (k : list B) :
  mapM f l = Ok k → length k = length l.
Proof. intros ?%mapM_Ok. symmetry. by eapply Forall2_length. Qed.

Lemma mapM_total f (l : list A) :
  Forall (λ x, is_Ok (f x)) l → is_Ok (mapM f l).
Proof.
  induction 1 as [|x l [y Hy] _ [k Hk]]; simpl; [by eexists|].
  rewrite Hy, Hk. by eexists.
Qed.

Lemma mapM_Raise f (l : list A) e :
  mapM f l = Raise e → ∃ x, x ∈ l ∧ f x = Raise e.
Proof.
  induction l as [|x l IH]; simpl; [done|].
  destruct (f x) eqn:Hx; simpl.
  - destruct (mapM f l); simpl; [done|]. intros [= ->].
    destruct IH as (y & ? & ?); [done|]. exists y. split; [by right|done].
  - intros [= ->]. exists x. split; [by left|done].
Qed.

End result.

(** * Runs related by [result_rel] *)

Section result_rel.
Context {A A' B B' : Type} (R : A → A' → Prop) (S : B → B' → Prop).

Lemma result_rel_bind (m : result A) (m' : result A') f f' :
  result_rel R m m' →
  (∀ a a', R a a' → result_rel S (f a) (f' a')) →
  result_rel S (m ≫= f) (m' ≫= f').
Proof. destruct m, m'; simpl; [intros ? Hf; by apply Hf|done..]. Qed.

Lemma result_rel_is_Ok (m : result A) (m' : result A') :
  result_rel R m m' → is_Ok m ↔ is_Ok m'.
Proof.
  destruct m, m'; simpl; try done; intros _; split; intros [? ?];
    first [done|by eexists].
Qed.

(** [Series.apply] over a reordered column: the same pairs of argument and
    value, or an exception on both sides. *)
Lemma mapM_Permutation (f : A → result B) l l' :
  l ≡ₚ l' →
  result_rel (λ k k', zip l k ≡ₚ zip l' k') (mapM f l) (mapM f l').
Proof.
  induction 1 as [|x l l' _ IH|x y l|l l' l'' _ IH _ IH']; simpl.
  - done.
  - destruct (f x), (mapM f l), (mapM f l'); simpl in *; try done.
    by constructor.
  - destruct (f x), (f y), (mapM f l); simpl; try done. apply perm_swap.
  - destruct (mapM f l), (mapM f l'), (mapM f l''); simpl in *; try done.
    by etrans.
Qed.

End result_rel.

(** * Lemmas on column sums *)

Lemma zsum_nil : zsum [] = 0.
Proof. done. Qed.

Lemma zsum_cons x l : zsum (x :: l) = x + zsum l.
Proof. done. Qed.

Lemma zsum_app l k : zsum (l ++ k) = zsum l + zsum k.
Proof. induction l; simpl; lia. Qed.

Lemma zsum_singleton x : zsum [x] = x.
Proof. simpl; lia. Qed.

#[global] Instance zsum_Permutation : Proper ((≡ₚ) ==> (=)) zsum.
Proof. induction 1; simpl; lia. Qed.

Lemma zsum_take_drop n l : zsum (take n l) + zsum (drop n l) = zsum l.
Proof. by rewrite <-zsum_app, take_drop. Qed.

Lemma zsum_nonneg l : Forall (λ x, 0 ≤ x) l → 0 ≤ zsum l.
Proof. induction 1; simpl; lia. Qed.

Lemma zsum_elem_of_le x l : Forall (λ y, 0 ≤ y) l → x ∈ l → x ≤ zsum l.
Proof.
  induction 1 as [|y l ? Hl IH]; [by intros ?%elem_of_nil|].
  apply zsum_nonneg in Hl. intros [->|?]%elem_of_cons; simpl; [lia|].
  specialize (IH ltac:(done)). lia.
Qed.

Lemma zsum_zero l : Forall (λ x, x = 0) l → zsum l = 0.
Proof. induction 1; simpl; lia. Qed.

Lemma zsum_nonneg_zero l :
  Forall (λ x, 0 ≤ x) l → zsum l = 0 → Forall (λ x, x = 0) l.
Proof.
  induction 1 as [|x l ? Hl IH]; [done|]. simpl. intros ?.
  pose proof (zsum_nonneg _ Hl). constructor; [lia|apply IH; lia].
Qed.

Section zsum_fmap.
Context {A : Type} (f : A → Z).
Implicit Types (l : list A) (P : A → Prop).

Lemma zsum_fmap_app l k : zsum (f <$> l ++ k) = zsum (f <$> l) + zsum (f <$> k).
Proof. by rewrite fmap_app, zsum_app. Qed.

Lemma zsum_fmap_Permutation l k : l ≡ₚ k → zsum (f <$> l) = zsum (f <$> k).
Proof. by intros ->. Qed.

Lemma zsum_fmap_take_drop n l :
  zsum (f <$> take n l) + zsum (f <$> drop n l) = zsum (f <$> l).
Proof. by rewrite <-zsum_fmap_app, take_drop. Qed.

(** A boolean mask and its complement split the column total. *)
Lemma zsum_filter_split P `{!∀ x, Decision (P x)} l :
  zsum (f <$> filter P l) + zsum (f <$> filter (λ x, ¬ P x) l) = zsum (f <$> l).
Proof. by rewrite <-zsum_fmap_app, filter_app_complement. Qed.

Lemma zsum_filter_le P `{!∀ x, Decision (P x)} l :
  Forall (λ x, 0 ≤ f x) l → 0 ≤ zsum (f <$> filter P l) ≤ zsum (f <$> l).
Proof.
  intros Hl. pose proof (zsum_filter_split P l).
  assert (∀ Q `{!∀ x, Decision (Q x)}, 0 ≤ zsum (f <$> filter Q l)) as Hnn.
  { intros Q ?. apply zsum_nonneg, Forall_fmap.
    apply Forall_forall. intros x [_ ?]%list_elem_of_filter.
    by eapply Forall_forall in Hl. }
  pose proof (Hnn P _). pose proof (Hnn (λ x, ¬ P x) _). lia.
Qed.

End zsum_fmap.

(** * Lemmas on masks *)

Section masks.
Context {A : Type} (P : A → Prop) `{!∀ x, Decision (P x)}.
Implicit Types (l : list A).

(** What holds of every row holds of the rows a mask keeps. *)
Lemma Forall_filter (Q : A → Prop) l : Forall Q l → Forall Q (filter P l).
Proof.
  rewrite !Forall_forall. intros HQ x [_ Hx]%list_elem_of_filter. by apply HQ.
Qed.

Lemma filter_all l : Forall P l → filter P l = l.
Proof.
  induction 1 as [|x l Hx _ IH]; [done|].
  by rewrite filter_cons, decide_True, IH.
Qed.

Lemma filter_none l : Forall (λ x, ¬ P x) l → filter P l = [].
Proof.
  induction 1 as [|x l Hx _ IH]; [done|].
  by rewrite filter_cons, decide_False.
Qed.

Lemma StronglySorted_filter (R : relation A) l :
  StronglySorted R l → StronglySorted R (filter P l).
Proof.
  induction 1 as [|x l _ IH Hx]; [constructor|]. rewrite filter_cons.
  case_decide; [|done]. constructor; [done|].
  apply Forall_forall. intros y [_ Hy]%list_elem_of_filter.
  by eapply Forall_forall in Hx.
Qed.

End masks.

(** * Two tables sorted by the same key *)

Section sorted_sublist.
Context {A : Type} (R : relation A).
Implicit Types (l k : list A).

(** A table without repetition, sorted as a larger table is, lists its rows
    in the order of the larger one, provided the order tells the rows of
    the larger table apart. *)
Lemma sorted_sublist l k :
  (∀ x y, x ∈ k → y ∈ k → R x y → R y x → x = y) →
  NoDup l → StronglySorted R l → StronglySorted R k →
  l ⊆ k → l `sublist_of` k.
Proof.
  intros Hanti Hnd Hl Hk. revert l Hnd Hl.
  induction Hk as [|y k Hk IH Hy]; intros l Hnd Hl Hsub.
  { destruct l as [|x l]; [done|]. exfalso. eapply elem_of_nil, Hsub. by left. }
  assert (∀ x z, x ∈ k → z ∈ k → R x z → R z x → x = z) as Hanti'
    by (intros x z ??; apply Hanti; by right).
  destruct l as [|x l]; [apply sublist_nil_l|].
  apply NoDup_cons in Hnd as [Hx Hnd].
  apply StronglySorted_inv in Hl as [Hl Hxl].
  assert (∀ z, z ∈ l → z ∈ y :: k) as Hsub' by (intros z ?; apply Hsub; by right).
  assert (x ∈ y :: k) as [->|Hxk]%elem_of_cons by (apply Hsub; by left).
  - apply sublist_skip, IH; [done..|]. intros z Hz.
    pose proof (Hsub' z Hz) as [->|?]%elem_of_cons; [by destruct Hx|done].
  - apply sublist_cons, IH; [done|by constructor..|].
    intros z [->|Hz]%elem_of_cons; [done|].
    pose proof (Hsub' z Hz) as [->|?]%elem_of_cons; [|done].
    destruct Hx. replace x with y; [done|]. symmetry.
    apply Hanti; [by right|by left|..].
    + by eapply Forall_forall in Hxl.
    + by eapply Forall_forall in Hy.
Qed.

(** Sortedness passes to a column when the order does, on rows that satisfy
    [P]. *)
Lemma StronglySorted_fmap_impl {B} (S : relation B) (f : A → B) (P : A → Prop) l :
  (∀ x y, P x → P y → R x y → S (f x) (f y)) →
  Forall P l → StronglySorted R l → StronglySorted S (f <$> l).
Proof.
  intros HRS HP Hl. induction Hl as [|x l _ IH Hx]; csimpl; [constructor|].
  apply Forall_cons in HP as [Hpx HP]. constructor; [by apply IH|].
  apply Forall_fmap, Forall_forall. intros y Hy. simpl.
  apply HRS; [done| |]; by eapply Forall_forall in Hy.
Qed.

End sorted_sublist.

(** A mask on a derived column is a mask on the rows it is derived from. *)
Lemma filter_fmap {A B} (f : A → B) (P : B → Prop) `{!∀ y, Decision (P y)}
    (l : list A) :
  filter P (f <$> l) = f <$> filter (λ x, P (f x)) l.
Proof.
  induction l as [|x l IH]; [done|]. csimpl. rewrite !filter_cons, IH.
  by case_decide.
Qed.

(** The rows whose key is not among the keys of the first [n] rows are the
    rows after the first [n], when no key is repeated: [~isin(head(n))] is
    [[n:]]. *)
Lemma filter_not_in_take {A B} `{EqDecision B} (f : A → B) n (l : list A) :
  NoDup (f <$> l) → filter (λ x, f x ∉ f <$> take n l) l = drop n l.
Proof.
  intros Hnd. rewrite <-(take_drop n l), fmap_app in Hnd.
  apply NoDup_app in Hnd as (_ & Hdis & _).
  enough (filter (λ x, f x ∉ f <$> take n l) (take n l ++ drop n l)
          = drop n l) as Hgoal by by rewrite take_drop in Hgoal.
  rewrite filter_app, filter_none, filter_all; [done|..].
  - apply Forall_forall. intros x Hx Hin. apply (Hdis (f x)); [done|].
    by apply list_elem_of_fmap_2.
  - apply Forall_forall. intros x Hx Hn. apply Hn. by apply list_elem_of_fmap_2.
Qed.

(** * Lemmas on the minimum of a column *)

Lemma col_min_le_default d l : col_min d l ≤ d.
Proof. induction l; simpl; lia. Qed.

Lemma col_min_le d l x : x ∈ l → col_min d l ≤ x.
Proof.
  induction l as [|y l IH]; [by intros ?%elem_of_nil|].
  intros [->|?]%elem_of_cons; simpl; [lia|]. specialize (IH ltac:(done)). lia.
Qed.

Lemma col_min_elem_of d l : col_min d l = d ∨ col_min d l ∈ l.
Proof.
  induction l as [|y l [IH|IH]]; simpl; [by left|..].
  - destruct (Z.min_spec y (col_min d l)) as [[_ ->]|[_ ->]];
      [right; by left|by left].
  - right. destruct (Z.min_spec y (col_min d l)) as [[_ ->]|[_ ->]];
      [by left|by right].
Qed.

#[export] Hint Rewrite zsum_nil zsum_cons zsum_app zsum_singleton : frame_simpl.
#[export] Hint Rewrite @fmap_app @fmap_cons @fmap_nil : frame_simpl.
#[export] Hint Resolve zsum_nonneg col_min_le_default col_min_le : frame.
