(* ===== verification/PyStr.v ===== *)
(** * PyStr: the Python string primitives called by [extract_lower_bound]

    [src/main.py] lines 9-10 use three built-in operations on [str]:
    the containment test ['-' in age_group], [age_group.split(' - ')] and
    [int(...)].  This file models them on [string], total and executable,
    with [ValueError] as a value, and proves how they relate to each other
    and to decimal printing ([pretty]). *)

From Stdlib Require Import Ascii.
From stdpp Require Import pretty.
From S2P Require Import Prelude.

#[local] Open Scope string_scope.

(** * Definitions *)

(** [needle in s]: [needle] occurs in [s] as a substring. *)
Fixpoint str_contains (needle s : string) : bool :=
  String.prefix needle s ||
  match s with
  | "" => false
  | String _ s' => str_contains needle s'
  end.

(** The pieces of [s] between the occurrences of [sep], scanning from the
    left; [skip] characters of an occurrence found earlier are still to be
    passed over.  The head of the result is the piece under construction. *)
Fixpoint split_go (sep : string) (skip : nat) (s : string) : list string :=
  match s with
  | "" => [""]
  | String c s' =>
      match skip with
      | S k => split_go sep k s'
      | O =>
          if String.prefix sep s
          then "" :: split_go sep (String.length sep - 1) s'
          else match split_go sep 0 s' with
               | p :: ps => String c p :: ps
               | [] => [String c ""]
               end
      end
  end.

(** [s.split(sep)]; an empty separator is a [ValueError]. *)
Definition str_split (sep s : string) : result (list string) :=
  if decide (sep = "") then raise ValueError("empty separator")
  else Ok (split_go sep 0 s).

(** Characters that [int] strips from both ends (the ASCII ones of
    [str.isspace]). *)
Definition is_py_space (c : ascii) : bool :=
  let n := Z.of_N (N_of_ascii c) in
  bool_decide (9 ≤ n ≤ 13 ∨ 28 ≤ n ≤ 32)%Z.

Fixpoint lstrip (s : string) : string :=
  match s with
  | "" => ""
  | String c s' => if is_py_space c then lstrip s' else s
  end.

Fixpoint rstrip (s : string) : string :=
  match s with
  | "" => ""
  | String c s' =>
      match rstrip s' with
      | "" => if is_py_space c then "" else String c ""
      | r => String c r
      end
  end.

Definition strip (s : string) : string := rstrip (lstrip s).

(** The value of a decimal digit, from its code ("0" is 48). *)
Definition digit_of (c : ascii) : option Z :=
  let n := Z.of_N (N_of_ascii c) in
  if bool_decide (48 ≤ n ≤ 57)%Z then Some (n - 48)%Z else None.

(** Decimal digits, single underscores allowed between two digits.
    [after_digit] says whether the character before was a digit. *)
Fixpoint digits_go (acc : Z) (after_digit : bool) (s : string) : option Z :=
  match s with
  | "" => if after_digit then Some acc else None
  | String c s' =>
      match digit_of c with
      | Some d => digits_go (10 * acc + d) true s'
      | None =>
          if Ascii.eqb c "_" && after_digit then digits_go acc false s'
          else None
      end
  end.

Definition int_literal (s : string) : option Z :=
  match s with
  | String "+" r => digits_go 0 false r
  | String "-" r => Z.opp <$> digits_go 0 false r
  | _ => digits_go 0 false s
  end.

(** [int(s)] in base 10. *)
Definition py_int (s : string) : result Z :=
  match int_literal (strip s) with
  | Some z => Ok z
  | None => raise ValueError("invalid literal for int() with base 10")
  end.

(** All characters of a string satisfy a test. *)
Fixpoint str_all (P : ascii → bool) (s : string) : bool :=
  match s with
  | "" => true
  | String c s' => P c && str_all P s'
  end.

Definition is_digit (c : ascii) : bool := bool_decide (is_Some (digit_of c)).

(** * [str_contains] *)

#[local] Arguments String.prefix : simpl never.

Lemma prefix_cons c c' s t :
  String.prefix (String c s) (String c' t) = true ↔
  c = c' ∧ String.prefix s t = true.
Proof.
  unfold String.prefix at 1; fold String.prefix.
  destruct (Ascii.ascii_dec c c'); intuition congruence.
Qed.

Lemma prefix_nil_r s : String.prefix s "" = true ↔ s = "".
Proof. by destruct s. Qed.

Lemma prefix_app_refl s t : String.prefix s (s +:+ t) = true.
Proof.
  induction s as [|c s IH]; [by destruct t|].
  change (String c s +:+ t) with (String c (s +:+ t)). by apply prefix_cons.
Qed.

Lemma prefix_app_inv s t :
  String.prefix s t = true → ∃ r, t = s +:+ r.
Proof.
  revert t. induction s as [|c s IH]; intros t; [by exists t|].
  destruct t as [|c' t]; [done|].
  intros [-> [r ->]%IH]%prefix_cons. by exists r.
Qed.

Lemma str_contains_prefix needle s :
  String.prefix needle s = true → str_contains needle s = true.
Proof. destruct s; simpl; by intros ->. Qed.

Lemma str_contains_app needle s1 s2 :
  str_contains needle s2 = true → str_contains needle (s1 +:+ s2) = true.
Proof.
  intros H. induction s1 as [|c s1 IH]; [done|].
  change (String c s1 +:+ s2) with (String c (s1 +:+ s2)). simpl.
  rewrite IH. apply orb_true_r.
Qed.

(** A string containing [needle] is [needle] with something on both sides. *)
Lemma str_contains_spec needle s :
  str_contains needle s = true ↔ ∃ l r, s = l +:+ needle +:+ r.
Proof.
  split.
  - induction s as [|c s IH]; simpl.
    + rewrite orb_false_r. intros [r ->]%prefix_app_inv. by exists "", r.
    + intros [[r Hr]%prefix_app_inv|Hs]%orb_true_iff.
      * exists "", r. by rewrite Hr.
      * destruct (IH Hs) as (l & r & ->). by exists (String c l), r.
  - intros (l & r & ->). apply str_contains_app, str_contains_prefix,
      prefix_app_refl.
Qed.

(** A one-character needle is absent exactly when no character equals it. *)
Lemma str_contains_char_false c s :
  str_contains (String c "") s = false ↔
  str_all (λ c', negb (Ascii.eqb c c')) s = true.
Proof.
  induction s as [|c' s IH]; simpl; [done|].
  rewrite orb_false_iff, andb_true_iff, IH, negb_true_iff.
  rewrite <-not_true_iff_false, prefix_cons, Ascii.eqb_neq.
  intuition. by destruct s.
Qed.

(** * [str_split] *)

(** [str_drop n s] is [s[n:]]. *)
Fixpoint str_drop (n : nat) (s : string) : string :=
  match n, s with
  | O, _ => s
  | S n', String _ s' => str_drop n' s'
  | S _, "" => ""
  end.

Lemma str_app_cons c s t : String c s +:+ t = String c (s +:+ t).
Proof. done. Qed.

Lemma str_drop_app s t : str_drop (String.length s) (s +:+ t) = t.
Proof. induction s; simpl; auto. Qed.

Lemma split_go_nonempty sep skip s : split_go sep skip s ≠ [].
Proof.
  revert skip. induction s as [|c s IH]; intros [|k]; simpl; try done.
  destruct (String.prefix sep _); [done|].
  by destruct (split_go sep 0 s).
Qed.

Lemma concat_cons_nonempty sep p ps :
  ps ≠ [] → String.concat sep (p :: ps) = p +:+ sep +:+ String.concat sep ps.
Proof. by destruct ps. Qed.

Lemma concat_cons_head sep c p ps :
  String.concat sep (String c p :: ps) = String c (String.concat sep (p :: ps)).
Proof. by destruct ps. Qed.

(** Joining the pieces with the separator gives the string back, from the
    point the scan has reached. *)
Lemma concat_split_go sep skip s :
  sep ≠ "" → String.concat sep (split_go sep skip s) = str_drop skip s.
Proof.
  intros Hsep. revert skip.
  induction s as [|c s IH]; intros [|k]; simpl; try done.
  destruct (String.prefix sep (String c s)) eqn:Hp.
  - rewrite concat_cons_nonempty, IH by apply split_go_nonempty.
    destruct sep as [|c' sep']; [done|].
    apply prefix_cons in Hp as [-> [r ->]%prefix_app_inv].
    simpl. by rewrite Nat.sub_0_r, str_drop_app.
  - specialize (IH 0%nat). pose proof (split_go_nonempty sep 0 s).
    destruct (split_go sep 0 s) as [|p ps]; [done|].
    by rewrite concat_cons_head, IH.
Qed.

Lemma split_go_skip sep t r :
  split_go sep (String.length t) (t +:+ r) = split_go sep 0 r.
Proof. induction t; simpl; [by destruct r|done]. Qed.

(** Without an occurrence of the separator there is one piece. *)
Lemma split_go_absent sep s :
  sep ≠ "" → str_contains sep s = false → split_go sep 0 s = [s].
Proof.
  intros Hsep. induction s as [|c s IH]; simpl; [done|].
  intros [-> Hs]%orb_false_iff. by rewrite (IH Hs).
Qed.

(** The piece before the first occurrence: when the separator's first
    character does not occur in [pre], the scan of [pre ++ sep ++ rest]
    yields [pre] first and goes on in [rest]. *)
Lemma split_go_first c0 sep' pre rest :
  str_contains (String c0 "") pre = false →
  split_go (String c0 sep') 0 (pre +:+ String c0 sep' +:+ rest)
  = pre :: split_go (String c0 sep') 0 rest.
Proof.
  induction pre as [|c pre IH]; intros Hpre.
  - change ("" +:+ ?s) with s. rewrite str_app_cons.
    cbn [split_go]. rewrite <-str_app_cons, prefix_app_refl.
    replace (String.length (String c0 sep') - 1)%nat with (String.length sep')
      by (simpl; lia).
    by rewrite split_go_skip.
  - simpl in Hpre. apply orb_false_iff in Hpre as [Hc Hpre].
    rewrite str_app_cons. cbn [split_go].
    assert (String.prefix (String c0 sep')
              (String c (pre +:+ String c0 sep' +:+ rest)) = false) as ->.
    { apply not_true_iff_false. intros [-> _]%prefix_cons.
      rewrite (proj2 (prefix_cons _ _ _ _)) in Hc; [done|by destruct pre]. }
    by rewrite IH.
Qed.

Lemma str_app_nil_r s : s +:+ "" = s.
Proof. induction s as [|c s IH]; [done|]. by rewrite str_app_cons, IH. Qed.

Lemma prefix_app_r s t r :
  String.prefix s t = true → String.prefix s (t +:+ r) = true.
Proof.
  revert t. induction s as [|c s IH]; intros [|c' t]; try done.
  - by destruct r.
  - intros [-> Hp]%prefix_cons. rewrite str_app_cons. apply prefix_cons. auto.
Qed.

(** The first piece is a prefix of the string. *)
Lemma split_go_head sep s :
  sep ≠ "" → ∃ p ps r, split_go sep 0 s = p :: ps ∧ s = p +:+ r.
Proof.
  intros Hsep.
  assert (String.concat sep (split_go sep 0 s) = s) as Hc
    by (rewrite concat_split_go by done; by destruct s).
  destruct (split_go sep 0 s) as [|p [|q ps]] eqn:Hs.
  - by destruct (split_go_nonempty sep 0 s).
  - exists p, [], "". split; [done|]. simpl in Hc. subst p. by rewrite str_app_nil_r.
  - exists p, (q :: ps), (sep +:+ String.concat sep (q :: ps)). split; [done|].
    by rewrite <-Hc, concat_cons_nonempty.
Qed.

(** No piece holds the separator: the scan cuts at every occurrence it
    meets. *)
Lemma split_go_no_sep sep skip s :
  sep ≠ "" → Forall (λ p, str_contains sep p = false) (split_go sep skip s).
Proof.
  intros Hsep. assert (str_contains sep "" = false) as Hnil by by destruct sep.
  revert skip. induction s as [|c s IH]; intros skip; simpl; [by constructor|].
  destruct skip as [|k]; [|apply IH].
  destruct (String.prefix sep (String c s)) eqn:Hp; [by constructor|].
  specialize (IH 0%nat).
  destruct (split_go_head sep s Hsep) as (p & ps & r & Hs & ->).
  rewrite Hs in IH |- *. apply Forall_cons in IH as [Hhd Htl].
  constructor; [|done]. cbn [str_contains]. rewrite Hhd, orb_false_r.
  apply not_true_iff_false. intros Hpre%(prefix_app_r _ _ r).
  by rewrite str_app_cons, Hp in Hpre.
Qed.

(** * [py_int] *)

Lemma lstrip_nonspace c s : is_py_space c = false → lstrip (String c s) = String c s.
Proof. simpl. by intros ->. Qed.

Lemma rstrip_all_nonspace s :
  str_all (λ c, negb (is_py_space c)) s = true → rstrip s = s.
Proof.
  induction s as [|c s IH]; simpl; [done|].
  intros [Hc ->%IH]%andb_true_iff. apply negb_true_iff in Hc.
  rewrite Hc. by destruct s.
Qed.

Lemma strip_all_nonspace s :
  str_all (λ c, negb (is_py_space c)) s = true → strip s = s.
Proof.
  intros Hs. unfold strip. destruct s as [|c s]; [done|].
  rewrite lstrip_nonspace, rstrip_all_nonspace; [done..|].
  simpl in Hs. apply andb_true_iff in Hs as [Hc _]. by apply negb_true_iff.
Qed.

Lemma str_all_impl (P Q : ascii → bool) s :
  (∀ c, P c = true → Q c = true) → str_all P s = true → str_all Q s = true.
Proof.
  intros HPQ. induction s as [|c s IH]; simpl; [done|].
  intros [?%HPQ ?%IH]%andb_true_iff. by apply andb_true_iff.
Qed.

Lemma digit_of_pretty_N_char (x : N) :
  (x < 10)%N → digit_of (pretty_N_char x) = Some (Z.of_N x).
Proof.
  intros Hx.
  assert (x = 0 ∨ x = 1 ∨ x = 2 ∨ x = 3 ∨ x = 4 ∨ x = 5 ∨ x = 6 ∨ x = 7
          ∨ x = 8 ∨ x = 9)%N as Hcases by lia.
  repeat destruct Hcases as [->|Hcases]; try done. by subst.
Qed.

Lemma is_digit_not_space c : is_digit c = true → negb (is_py_space c) = true.
Proof. destruct c as [[] [] [] [] [] [] [] []]; by vm_compute. Qed.

Lemma is_digit_pretty_N_char x : is_digit (pretty_N_char x) = true.
Proof. unfold pretty_N_char. by repeat case_match. Qed.

(** Every character [pretty] prints for a natural number is a digit. *)
Lemma str_all_pretty_N_go (x : N) s :
  str_all is_digit s = true → str_all is_digit (pretty_N_go x s) = true.
Proof.
  revert s. induction (N.lt_wf_0 x) as [x _ IH]; intros s Hs.
  destruct (decide (x = 0)%N) as [->|]; [by rewrite pretty_N_go_0|].
  rewrite pretty_N_go_step by lia. apply IH; [apply N.div_lt; lia|].
  simpl. by rewrite is_digit_pretty_N_char.
Qed.

(** Reading the digits [pretty] printed for [x] in front of [s] shifts the
    accumulator by the number of digits and adds [x]. *)
Lemma digits_go_pretty_N_go (x : N) acc b s :
  ∃ k : Z, (0 ≤ k)%Z ∧
    digits_go acc b (pretty_N_go x s)
    = digits_go (acc * 10 ^ k + Z.of_N x) (b || bool_decide (0 < x)%N) s.
Proof.
  revert acc b s. induction (N.lt_wf_0 x) as [x _ IH]; intros acc b s.
  destruct (decide (x = 0)%N) as [->|Hx].
  { exists 0. rewrite pretty_N_go_0, orb_false_r. split; [done|]. f_equal; lia. }
  rewrite pretty_N_go_step by lia.
  destruct (IH (x `div` 10)%N ltac:(apply N.div_lt; lia) acc b
    (String (pretty_N_char (x `mod` 10)) s)) as (k & Hk & ->).
  exists (k + 1). split; [lia|]. cbn [digits_go].
  rewrite digit_of_pretty_N_char by (apply N.mod_lt; lia).
  rewrite bool_decide_eq_true_2, orb_true_r by lia. f_equal.
  rewrite Z.pow_add_r by lia.
  pose proof (N.div_mod x 10 ltac:(done)). lia.
Qed.

Lemma int_literal_no_sign c s :
  c ≠ "+"%char → c ≠ "-"%char →
  int_literal (String c s) = digits_go 0 false (String c s).
Proof.
  intros Hp Hm. destruct c as [[] [] [] [] [] [] [] []];
    first [by destruct Hp|by destruct Hm|reflexivity].
Qed.

Lemma int_literal_digits s :
  str_all is_digit s = true → int_literal s = digits_go 0 false s.
Proof.
  destruct s as [|c s]; [done|]. cbn [str_all]. intros [Hc _]%andb_true_iff.
  apply int_literal_no_sign; by intros ->.
Qed.

Lemma int_literal_pretty_N (x : N) : int_literal (pretty x) = Some (Z.of_N x).
Proof.
  unfold pretty, pretty_N. case_decide as Hx; [by subst|].
  rewrite int_literal_digits by by apply str_all_pretty_N_go.
  destruct (digits_go_pretty_N_go x 0 false "") as (k & _ & ->).
  simpl. by rewrite bool_decide_eq_true_2 by lia.
Qed.

Lemma str_all_pretty_N (x : N) : str_all is_digit (pretty x) = true.
Proof.
  unfold pretty, pretty_N. case_decide; [done|]. by apply str_all_pretty_N_go.
Qed.

Lemma str_all_nonspace_pretty_Z (z : Z) :
  str_all (λ c, negb (is_py_space c)) (pretty z) = true.
Proof.
  destruct z as [|p|p]; [done|..]; unfold pretty, pretty_Z, pretty_positive;
    [|rewrite str_app_cons; simpl];
    eapply str_all_impl, (str_all_pretty_N (N.pos p)); apply is_digit_not_space.
Qed.

Lemma int_literal_pretty_Z (z : Z) : int_literal (pretty z) = Some z.
Proof.
  destruct z as [|p|p]; [done|..]; unfold pretty, pretty_Z, pretty_positive.
  - apply int_literal_pretty_N.
  - change (Z.opp <$> digits_go 0 false (pretty (N.pos p)) = Some (Z.neg p)).
    pose proof (int_literal_pretty_N (N.pos p)) as Hp.
    rewrite int_literal_digits in Hp by apply str_all_pretty_N.
    by rewrite Hp.
Qed.

Lemma pretty_N_nonempty (x : N) : ∃ c t, pretty x = String c t.
Proof.
  pose proof (int_literal_pretty_N x) as Hx.
  destruct (pretty x) as [|c t]; [done|by exists c, t].
Qed.

(** A minus sign stops the digits. *)
Lemma digits_go_dash acc b s :
  str_contains "-" s = true → digits_go acc b s = None.
Proof.
  revert acc b. induction s as [|c s IH]; intros acc b; [done|].
  cbn [str_contains digits_go]. destruct (Ascii.ascii_dec c "-") as [->|Hc].
  - done.
  - assert (String.prefix "-" (String c s) = false) as ->.
    { apply not_true_iff_false. by intros [<- _]%prefix_cons. }
    simpl. intros Hs. destruct (digit_of c); [by apply IH|].
    destruct (_ && _); [by apply IH|done].
Qed.

Lemma int_literal_cases c t :
  int_literal (String c t) = digits_go 0 false t
  ∨ int_literal (String c t) = Z.opp <$> digits_go 0 false t
  ∨ int_literal (String c t) = digits_go 0 false (String c t).
Proof. destruct c as [[] [] [] [] [] [] [] []]; auto. Qed.

(** A literal with a minus sign after its first character is refused. *)
Lemma int_literal_dash_inside c t :
  str_contains "-" t = true → int_literal (String c t) = None.
Proof.
  intros Ht. destruct (int_literal_cases c t) as [->|[->| ->]].
  - by apply digits_go_dash.
  - by rewrite digits_go_dash.
  - apply digits_go_dash. simpl. rewrite Ht. apply orb_true_r.
Qed.

(** A literal without blanks is read as it stands. *)
Lemma py_int_nonspace s z :
  str_all (λ c, negb (is_py_space c)) s = true → int_literal s = Some z →
  py_int s = Ok z.
Proof. intros Hs Hz. unfold py_int. by rewrite strip_all_nonspace, Hz. Qed.

(** * Properties *)

(** C38 (round trip): [int] reads back the decimal text of any integer:
    [int(str(z)) == z]. *)
Theorem py_int_pretty (z : Z) : py_int (pretty z) = Ok z.
Proof.
  apply py_int_nonspace;
    [apply str_all_nonspace_pretty_Z|apply int_literal_pretty_Z].
Qed.

(** C40 (round trip): joining what [split] returned with the separator gives
    the string back: [sep.join(s.split(sep)) == s]. *)
Theorem str_split_concat sep s ps :
  str_split sep s = Ok ps → String.concat sep ps = s.
Proof.
  unfold str_split. case_decide; [done|]. intros [= <-].
  by rewrite concat_split_go.
Qed.

(** C39 (functional): no part [split] returns holds the separator: every
    occurrence the scan meets is cut out, so a separator that occurs in the
    string does split it. *)
Theorem str_split_no_sep sep s ps :
  str_split sep s = Ok ps → Forall (λ p, str_contains sep p = false) ps.
Proof.
  unfold str_split. case_decide; [done|]. intros [= <-].
  by apply split_go_no_sep.
Qed.

Lemma str_split_concat_witness :
  String.concat " - " ["40"; "44"] = "40 - 44".
Proof. by apply (str_split_concat " - " "40 - 44"). Defined.

(** [split] fails only on the empty separator. *)
Lemma str_split_Ok sep s : sep ≠ "" → str_split sep s = Ok (split_go sep 0 s).
Proof. intros ?. unfold str_split. by case_decide. Qed.

Lemma str_split_no_sep_witness :
  Forall (λ p, str_contains " - " p = false) ["40"; "44"; ""].
Proof. by apply (str_split_no_sep " - " "40 - 44 - "). Defined.
