(* ===== verification/Frame.v ===== *)
(** * Frame: the pandas primitives the script is written with

    The table [df_all] is a list of [row]s.  Each pandas call of
    [src/main.py] has one definition here:

      - [df[mask]]                         stdpp's [filter];
      - [max(series)]                      [py_max] (line 22);
      - [series.unique()]                  [unique] (line 30);
      - [groupby(key)['Count'].sum()]      [groupby_sum] (lines 41, 66, 78,
                                           103, 115, 130), keys in increasing
                                           order, as pandas sorts them;
      - [groupby(key)[...].transform('sum')]  [transform_sum] (line 91);
      - [sort_values]                      the class [Sorter]
                                           (lines 32, 43, 117, 130, 132);
      - [a / b] on columns                 [true_div] into [fval]
                                           (lines 55, 92, 104).

    The group keys are ordered by the class [KeyOrd], with instances for
    integers, strings and pairs (the key of [groupby(['Year', 'Gender'])]). *)

From Stdlib Require Import QArith.
From S2P Require Import Prelude.

(** * Rows *)

Record row : Type := Row {
  Year : Z;
  Gender : string;
  Age : string;
  Name : string;
  Count : Z;
}.

#[global] Instance row_eq_dec : EqDecision row.
Proof. solve_decision. Defined.

(** * Group keys *)

Class KeyOrd (K : Type) : Type := {
  key_eq_dec :: EqDecision K;
  key_le : relation K;
  key_le_dec :: RelDecision key_le;
  key_le_po :: PartialOrder key_le;
  key_le_total :: Total key_le;
}.

Definition key_lt `{KeyOrd K} : relation K := strict key_le.

#[global, refine] Instance Z_key : KeyOrd Z := {| key_le := Z.le |}.
Proof. all: apply _. Defined.

#[global, refine] Instance string_key : KeyOrd string := {| key_le := String.le |}.
Proof. all: apply _. Defined.

(** Tuples compare lexicographically. *)
Definition pair_le `{KeyOrd K1, KeyOrd K2} : relation (K1 * K2) :=
  λ p q, key_lt p.1 q.1 ∨ (p.1 = q.1 ∧ key_le p.2 q.2).

(** * [groupby(key)[val].sum()] *)

(** One row enters the sorted table of partial sums. *)
Fixpoint agg_insert `{KeyOrd K} (k : K) (v : Z) (acc : list (K * Z)) : list (K * Z) :=
  match acc with
  | [] => [(k, v)]
  | (k', v') :: rest =>
      if decide (k = k') then (k', v' + v) :: rest
      else if decide (key_le k k') then (k, v) :: acc
      else (k', v') :: agg_insert k v rest
  end.

Definition groupby_sum `{KeyOrd K} {A} (key : A → K) (val : A → Z)
    (rows : list A) : list (K * Z) :=
  foldl (λ acc r, agg_insert (key r) (val r) acc) [] rows.

(** [groupby(key)[val].transform('sum')]: each row gets its group's sum. *)
Definition transform_sum `{EqDecision K} {A} (key : A → K) (val : A → Z)
    (rows : list A) : list Z :=
  (λ r, zsum (val <$> filter (λ r', key r' = key r) rows)) <$> rows.

(** What [groupby(key)[val].sum()] promises: one row per distinct key, in
    increasing key order, holding the sum of [val] over the rows with that
    key.  This is the reference [groupby_sum] is proved equal to. *)
Definition groupby_spec `{KeyOrd K} {A} (key : A → K) (val : A → Z)
    (rows : list A) : list (K * Z) :=
  (λ k, (k, zsum (val <$> filter (λ r, key r = k) rows)))
  <$> merge_sort key_le (remove_dups (key <$> rows)).

(** * [unique], [max] *)

Fixpoint unique_from `{EqDecision A} (seen : list A) (l : list A) : list A :=
  match l with
  | [] => []
  | x :: l' =>
      if decide (x ∈ seen) then unique_from seen l'
      else x :: unique_from (x :: seen) l'
  end.

(** [series.unique()]: the distinct values in order of first appearance. *)
Definition unique `{EqDecision A} (l : list A) : list A := unique_from [] l.

(** Python's built-in [max] over a column. *)
Definition py_max (l : list Z) : result Z :=
  match l with
  | [] => raise ValueError("max() arg is an empty sequence")
  | x :: l' => Ok (foldl Z.max x l')
  end.

(** * [sort_values] *)

(** The order [sort_values(ascending=asc)] sorts by. *)
Definition key_ord {A} (key : A → Z) (asc : bool) : relation A :=
  λ x y, if asc then key x ≤ key y else key y ≤ key x.

#[global] Instance key_ord_dec {A} (key : A → Z) asc : RelDecision (key_ord key asc).
Proof. intros x y. unfold key_ord. destruct asc; apply _. Defined.

(** What the script relies on: the result is the input reordered, sorted by
    the key.  pandas' default sort is not stable, so nothing is promised on
    the order of rows with equal keys. *)
Class Sorter : Type := {
  sort_values : ∀ {A : Type}, (A → Z) → bool → list A → list A;
  sort_values_perm : ∀ {A} (key : A → Z) asc l,
    sort_values key asc l ≡ₚ l;
  sort_values_sorted : ∀ {A} (key : A → Z) asc l,
    StronglySorted (key_ord key asc) (sort_values key asc l);
}.

(** * Floats *)

(** A float: an exact rational (rounding is not modelled), an infinity
    ([true] for the negative one) or NaN. *)
Inductive fval : Type :=
| Fin (q : Q)
| Inf (negative : bool)
| NaN.

(** True division of two integers, as numpy does it on int64 columns:
    division by zero gives an infinity, and NaN for [0 / 0]. *)
Definition true_div (a b : Z) : fval :=
  if decide (b = 0) then
    if decide (a = 0) then NaN else Inf (bool_decide (a < 0))
  else Fin (inject_Z a / inject_Z b).

Definition fadd (x y : fval) : fval :=
  match x, y with
  | NaN, _ | _, NaN => NaN
  | Fin p, Fin q => Fin (p + q)
  | Inf s, Fin _ | Fin _, Inf s => Inf s
  | Inf s, Inf t => if bool_decide (s = t) then Inf s else NaN
  end.

Definition fsum (l : list fval) : fval := foldr fadd (Fin 0) l.

(** Floats up to the equality of rationals. *)
Definition fval_equiv (x y : fval) : Prop :=
  match x, y with
  | Fin p, Fin q => Qeq p q
  | Inf s, Inf t => s = t
  | NaN, NaN => True
  | _, _ => False
  end.

#[global] Instance fval_equiv_inst : Equiv fval := fval_equiv.

(** A share of a total: a number between 0 and 1, or NaN when the total is
    zero; never an infinity. *)
Definition is_share (x : fval) : Prop :=
  match x with
  | Fin q => (0 <= q <= 1)%Q
  | NaN => True
  | Inf _ => False
  end.

(** * A table for the examples *)

Definition sample_rows : list row :=
  [ Row 2020 "Male" "40 - 44" "Lung" 10;
    Row 2019 "Female" "85+" "Skin" 7;
    Row 2020 "Female" "40 - 44" "Lung" 5;
    Row 2020 "Male" "0 - 4" "Skin" 3 ].

(** * The order of keys *)

Section key_ord_facts.
Context `{KeyOrd K}.
Implicit Types (k : K).

Lemma key_lt_le k1 k2 : key_lt k1 k2 → key_le k1 k2.
Proof. by intros [? _]. Qed.

Lemma key_lt_irrefl k : ¬ key_lt k k.
Proof. by intros [? []]. Qed.

Lemma key_lt_ne k1 k2 : key_lt k1 k2 → k1 ≠ k2.
Proof. intros Hlt ->. by apply key_lt_irrefl in Hlt. Qed.

Lemma key_le_ne_lt k1 k2 : key_le k1 k2 → k1 ≠ k2 → key_lt k1 k2.
Proof.
  intros Hle Hne. split; [done|]. intros Hge. apply Hne.
  by apply (anti_symm key_le).
Qed.

Lemma key_not_le_lt k1 k2 : ¬ key_le k1 k2 → key_lt k2 k1.
Proof. intros Hn. destruct (total key_le k1 k2); [done|]. by split. Qed.

#[global] Instance key_lt_trans : Transitive (key_lt (K:=K)).
Proof. unfold key_lt. apply _. Qed.

Lemma key_lt_trichotomy k1 k2 : key_lt k1 k2 ∨ k1 = k2 ∨ key_lt k2 k1.
Proof.
  destruct (decide (k1 = k2)); [by auto|].
  destruct (total key_le k1 k2); [left|right; right]; by apply key_le_ne_lt.
Qed.

End key_ord_facts.

#[global] Instance pair_le_dec `{KeyOrd K1, KeyOrd K2} :
  RelDecision (pair_le (K1:=K1) (K2:=K2)).
Proof. intros p q. unfold pair_le, key_lt, strict. apply _. Defined.

#[global] Instance pair_le_po `{KeyOrd K1, KeyOrd K2} :
  PartialOrder (pair_le (K1:=K1) (K2:=K2)).
Proof.
  split; [split|].
  - intros [a b]. right. by split.
  - intros [a1 b1] [a2 b2] [a3 b3] [Hl|[Ha Hb]] [Hl'|[Ha' Hb']];
      simpl in *; subst; [left; by etrans|by left|by left|right].
    split; [done|by etrans].
  - intros [a1 b1] [a2 b2] [Hl|[Ha Hb]] [Hl'|[Ha' Hb']]; simpl in *; subst.
    + destruct Hl as [? []]. by apply key_lt_le.
    + by apply key_lt_irrefl in Hl.
    + by apply key_lt_irrefl in Hl'.
    + f_equal. by apply (anti_symm key_le).
Qed.

#[global] Instance pair_le_total `{KeyOrd K1, KeyOrd K2} :
  Total (pair_le (K1:=K1) (K2:=K2)).
Proof.
  intros [a1 b1] [a2 b2]. unfold pair_le; simpl.
  destruct (key_lt_trichotomy a1 a2) as [?|[->|?]]; [by auto| |by auto].
  destruct (total key_le b1 b2); auto.
Qed.

#[global, refine] Instance pair_key `{KeyOrd K1, KeyOrd K2} : KeyOrd (K1 * K2) :=
  {| key_le := pair_le |}.
Proof. all: apply _. Defined.

(** * [groupby_sum] *)

(** [table_get k t] is the value stored under [k] in the table [t]
    (0 when the key is absent). *)
Definition table_get `{EqDecision K} (k : K) (t : list (K * Z)) : Z :=
  zsum ((filter (λ p, p.1 = k) t).*2).

(** The invariant of the table of partial sums: keys strictly increasing. *)
Definition keys_sorted `{KeyOrd K} (t : list (K * Z)) : Prop :=
  StronglySorted key_lt t.*1.

Lemma table_get_cons `{EqDecision K} (k k' : K) v (t : list (K * Z)) :
  table_get k ((k', v) :: t) = (if decide (k' = k) then v else 0) + table_get k t.
Proof. unfold table_get. rewrite filter_cons. simpl. by case_decide. Qed.

Lemma table_get_absent `{EqDecision K} (k : K) (t : list (K * Z)) :
  k ∉ t.*1 → table_get k t = 0.
Proof.
  induction t as [|[k' v] t IH]; [done|]. rewrite table_get_cons. simpl.
  intros [? ?]%not_elem_of_cons. rewrite IH by done. by case_decide.
Qed.

Section groupby.
Context `{KeyOrd K} {A : Type} (key : A → K) (val : A → Z).
Implicit Types (k : K) (v : Z) (t : list (K * Z)) (rows : list A).

Lemma agg_insert_keys k v t k' :
  k' ∈ (agg_insert k v t).*1 ↔ k' = k ∨ k' ∈ t.*1.
Proof.
  induction t as [|[k1 v1] t IH]; simpl.
  - rewrite list_elem_of_singleton, elem_of_nil. tauto.
  - repeat case_decide; subst; simpl; rewrite !elem_of_cons, ?IH; tauto.
Qed.

Lemma agg_insert_get k v t k' :
  table_get k' (agg_insert k v t)
  = table_get k' t + (if decide (k = k') then v else 0).
Proof.
  induction t as [|[k1 v1] t IH]; simpl.
  - rewrite table_get_cons. unfold table_get. simpl. lia.
  - repeat case_decide; subst; rewrite ?table_get_cons, ?IH;
      repeat case_decide; subst; try done; lia.
Qed.

Lemma agg_insert_total k v t : zsum (agg_insert k v t).*2 = zsum t.*2 + v.
Proof.
  induction t as [|[k1 v1] t IH]; cbn [agg_insert]; [simpl; lia|].
  repeat case_decide; autorewrite with frame_simpl; rewrite ?IH; simpl; lia.
Qed.

Lemma agg_insert_sorted k v t : keys_sorted t → keys_sorted (agg_insert k v t).
Proof.
  unfold keys_sorted.
  induction t as [|[k1 v1] t IH]; simpl; [by repeat constructor|].
  intros [Ht Hk1]%StronglySorted_inv. repeat case_decide; subst; simpl.
  - by constructor.
  - assert (key_lt k k1) by by apply key_le_ne_lt.
    constructor; [by constructor|]. constructor; [done|].
    eapply Forall_impl; [done|]. intros k2 ?. by etrans.
  - constructor; [by apply IH|]. apply Forall_forall.
    intros k2 [->|?]%agg_insert_keys; [by apply key_not_le_lt|].
    by eapply Forall_forall in Hk1.
Qed.

Lemma keys_sorted_NoDup t : keys_sorted t → NoDup t.*1.
Proof.
  unfold keys_sorted. induction 1 as [|k ks _ IH Hk]; constructor; [|done].
  intros Hin. eapply Forall_forall in Hk; [|done]. by apply key_lt_irrefl in Hk.
Qed.

Lemma table_get_elem_of k v t : keys_sorted t → (k, v) ∈ t → table_get k t = v.
Proof.
  intros Hs%keys_sorted_NoDup. induction t as [|[k1 v1] t IH]; simpl in *.
  { by intros ?%elem_of_nil. }
  apply NoDup_cons in Hs as [Hk1 Hs]. rewrite table_get_cons.
  intros [[= -> ->]|Hin]%elem_of_cons.
  - rewrite decide_True, table_get_absent by done. lia.
  - rewrite decide_False, IH by (try done; intros ->; apply Hk1;
      by apply (list_elem_of_fmap_2 fst _ (k, v))). lia.
Qed.

(** The fold of [agg_insert] over the rows, from any sorted table. *)
Definition agg_rows t rows : list (K * Z) :=
  foldl (λ acc r, agg_insert (key r) (val r) acc) t rows.

Lemma agg_rows_sorted t rows : keys_sorted t → keys_sorted (agg_rows t rows).
Proof.
  revert t. induction rows as [|r rows IH]; intros t Ht; [done|].
  apply IH. by apply agg_insert_sorted.
Qed.

Lemma agg_rows_keys t rows k :
  k ∈ (agg_rows t rows).*1 ↔ k ∈ t.*1 ∨ k ∈ key <$> rows.
Proof.
  revert t. induction rows as [|r rows IH]; intros t; simpl.
  - rewrite elem_of_nil. tauto.
  - unfold agg_rows in IH. rewrite IH, agg_insert_keys, elem_of_cons. tauto.
Qed.

Lemma agg_rows_get t rows k :
  table_get k (agg_rows t rows)
  = table_get k t + zsum (val <$> filter (λ r, key r = k) rows).
Proof.
  revert t. induction rows as [|r rows IH]; intros t; simpl.
  { lia. }
  unfold agg_rows in IH. rewrite IH, agg_insert_get, filter_cons. simpl.
  repeat case_decide; rewrite ?fmap_cons, ?zsum_cons; try done; lia.
Qed.

Lemma agg_rows_total t rows :
  zsum (agg_rows t rows).*2 = zsum t.*2 + zsum (val <$> rows).
Proof.
  revert t. induction rows as [|r rows IH]; intros t; csimpl; [lia|].
  unfold agg_rows in IH. rewrite IH, agg_insert_total. lia.
Qed.

Lemma groupby_sum_agg_rows rows : groupby_sum key val rows = agg_rows [] rows.
Proof. done. Qed.

End groupby.

(** * [sort_values] *)

#[global] Instance key_ord_trans {A} (key : A → Z) asc : Transitive (key_ord key asc).
Proof. intros x y z. unfold key_ord. destruct asc; lia. Qed.

#[global] Instance key_ord_total {A} (key : A → Z) asc : Total (key_ord key asc).
Proof. intros x y. unfold key_ord. destruct asc; lia. Qed.

(** The merge sort of stdpp is a [Sorter]; it makes the models executable. *)
#[global, refine] Instance merge_sorter : Sorter :=
  {| sort_values A key asc := merge_sort (key_ord key asc) |}.
Proof.
  - intros A key asc l. apply merge_sort_Permutation.
  - intros A key asc l. apply StronglySorted_merge_sort; apply _.
Defined.

Section sorter.
Context `{Sorter} {A : Type} (key : A → Z) (asc : bool).
Implicit Types (l : list A) (x y : A).

Lemma sort_values_elem_of l x : x ∈ sort_values key asc l ↔ x ∈ l.
Proof. by rewrite sort_values_perm. Qed.

Lemma sort_values_length l : length (sort_values key asc l) = length l.
Proof. by rewrite sort_values_perm. Qed.

Lemma sort_values_zsum (f : A → Z) l :
  zsum (f <$> sort_values key asc l) = zsum (f <$> l).
Proof. by rewrite sort_values_perm. Qed.

Lemma sort_values_NoDup {B} (f : A → B) l :
  NoDup (f <$> l) → NoDup (f <$> sort_values key asc l).
Proof. by rewrite sort_values_perm. Qed.

(** Whatever [head(n)] keeps is ordered before whatever it leaves. *)
Lemma sort_values_take_drop n l x y :
  x ∈ take n (sort_values key asc l) → y ∈ drop n (sort_values key asc l) →
  key_ord key asc x y.
Proof.
  intros Hx Hy. eapply (StronglySorted_app_1_elem_of _ _ _ _ _ _ Hx Hy).
  Unshelve. rewrite take_drop. apply sort_values_sorted.
Qed.

(** Positions follow the order: a row strictly before another in the order
    cannot come after it in the sorted table. *)
Lemma sort_values_lookup_lt l i j x y :
  sort_values key asc l !! i = Some x → sort_values key asc l !! j = Some y →
  ¬ key_ord key asc y x → (i < j)%nat.
Proof.
  intros Hi Hj Hyx. destruct (decide (i < j)%nat) as [|Hij]; [done|].
  destruct Hyx. destruct (decide (i = j)) as [->|].
  { simplify_eq. unfold key_ord. destruct asc; lia. }
  pose proof (sort_values_sorted key asc l) as Hs.
  rewrite <-(take_drop_middle _ _ _ Hj) in Hs, Hi.
  apply StronglySorted_app_1_r, StronglySorted_inv in Hs as [_ Hs].
  eapply Forall_forall; [exact Hs|].
  rewrite lookup_app_r in Hi by (rewrite length_take; lia).
  rewrite length_take_le in Hi by (apply lookup_lt_Some in Hj; lia).
  destruct (i - j)%nat as [|d] eqn:?; [lia|].
  by eapply list_elem_of_lookup_2.
Qed.

(** The last row of a sorted table comes after every row in the order. *)
Lemma sort_values_last l x y :
  last (sort_values key asc l) = Some y → x ∈ l → key_ord key asc x y.
Proof.
  intros Hlast [j Hj]%sort_values_elem_of%list_elem_of_lookup.
  rewrite last_lookup in Hlast.
  destruct (decide (key_ord key asc x y)) as [|Hn]; [done|].
  pose proof (sort_values_lookup_lt _ _ _ _ _ Hlast Hj Hn).
  apply lookup_lt_Some in Hj. lia.
Qed.

End sorter.

(** * Floats *)

#[global] Instance fval_equivalence : Equivalence (≡@{fval}).
Proof.
  split.
  - intros [q|s|]; unfold equiv, fval_equiv_inst; simpl;
      [apply Qeq_refl|done..].
  - by intros [q|s|] [q'|s'|]; unfold equiv, fval_equiv_inst; simpl.
  - intros [q|s|] [q'|s'|] [q''|s''|]; unfold equiv, fval_equiv_inst; simpl;
      try done; [apply Qeq_trans|congruence].
Qed.

#[global] Instance Fin_proper : Proper (Qeq ==> (≡)) Fin.
Proof. by intros p q Hpq. Qed.

#[global] Instance fadd_proper : Proper ((≡) ==> (≡) ==> (≡)) fadd.
Proof.
  intros [p|s|] [p'|s'|] Hx [q|t|] [q'|t'|] Hy;
    unfold equiv, fval_equiv_inst in *; simpl in *; subst; try done.
  by apply Qplus_comp.
Qed.

Lemma true_div_Fin a b : b ≠ 0 → true_div a b = Fin (inject_Z a / inject_Z b).
Proof. intros ?. unfold true_div. by case_decide. Qed.

Lemma true_div_zero a : true_div a 0 = if decide (a = 0) then NaN else Inf (bool_decide (a < 0)).
Proof. done. Qed.

Lemma inject_Z_nonzero b : b ≠ 0 → ¬ Qeq (inject_Z b) 0%Q.
Proof. intros Hb Heq. apply Hb. unfold Qeq in Heq. simpl in Heq. lia. Qed.

(** A part of a total divided by the total is a share. *)
Lemma true_div_share a t : 0 ≤ a ≤ t → is_share (true_div a t).
Proof.
  intros [Ha Hat]. unfold true_div. case_decide as Ht.
  - by rewrite decide_True by lia.
  - assert (0 < inject_Z t)%Q by (rewrite <-(Zlt_Qlt 0); lia). split.
    + apply Qle_shift_div_l; [done|]. rewrite Qmult_0_l. by rewrite <-(Zle_Qle 0).
    + apply Qle_shift_div_r; [done|]. rewrite Qmult_1_l. by rewrite <-Zle_Qle.
Qed.

(** The shares of the entries of a column of non-negative counts in the
    column's total. *)
Lemma true_div_share_zsum (l : list Z) c :
  Forall (λ x, 0 ≤ x) l → c ∈ l → is_share (true_div c (zsum l)).
Proof.
  intros Hl Hc. apply true_div_share. split.
  - by eapply Forall_forall in Hl.
  - by apply zsum_elem_of_le.
Qed.

(** The shares of a column in a non-zero total add up to the share of the
    column's sum. *)
Lemma fsum_true_div l t :
  t ≠ 0 → fsum ((λ c, true_div c t) <$> l) ≡ Fin (inject_Z (zsum l) / inject_Z t).
Proof.
  intros Ht. pose proof (inject_Z_nonzero t Ht).
  induction l as [|c l IH]; csimpl.
  - change (Qeq 0 (0 / inject_Z t))%Q. by field.
  - rewrite IH, (true_div_Fin c t Ht). change (fadd (Fin ?p) (Fin ?q)) with (Fin (p + q)).
    apply Fin_proper. rewrite ?zsum_cons, inject_Z_plus. by field.
Qed.

Lemma fsum_true_div_total l :
  zsum l ≠ 0 → fsum ((λ c, true_div c (zsum l)) <$> l) ≡ Fin 1.
Proof.
  intros Ht. rewrite fsum_true_div by done. apply Fin_proper.
  field. by apply inject_Z_nonzero.
Qed.

(** * [unique] *)

Section unique.
Context `{EqDecision A}.
Implicit Types (x : A) (l seen : list A).

Lemma unique_from_elem_of seen l x :
  x ∈ unique_from seen l ↔ x ∈ l ∧ x ∉ seen.
Proof.
  revert seen. induction l as [|y l IH]; intros seen; simpl.
  - rewrite elem_of_nil. tauto.
  - case_decide; rewrite ?elem_of_cons, IH, ?elem_of_cons; [|split].
    + split; [tauto|]. intros [[->|?] ?]; tauto.
    + intros [->|[? ?]]; [tauto|]. apply Decidable.not_or in H1. tauto.
    + intros [[->|?] ?]; [tauto|]. destruct (decide (x = y)); [tauto|].
      right. split; [done|]. intros [?|?]; tauto.
Qed.

Lemma unique_from_NoDup seen l : NoDup (unique_from seen l).
Proof.
  revert seen. induction l as [|y l IH]; intros seen; simpl; [constructor|].
  case_decide; [done|]. constructor; [|done].
  rewrite unique_from_elem_of, elem_of_cons. tauto.
Qed.

Lemma unique_elem_of l x : x ∈ unique l ↔ x ∈ l.
Proof.
  unfold unique. rewrite unique_from_elem_of, elem_of_nil. tauto.
Qed.

Lemma unique_NoDup l : NoDup (unique l).
Proof. apply unique_from_NoDup. Qed.

Lemma unique_from_sublist seen l : unique_from seen l `sublist_of` l.
Proof.
  revert seen. induction l as [|y l IH]; intros seen; simpl; [done|].
  case_decide; [by apply sublist_cons|by apply sublist_skip].
Qed.

(** A table without repetition is left as it is. *)
Lemma unique_from_id seen l :
  NoDup l → Forall (λ x, x ∉ seen) l → unique_from seen l = l.
Proof.
  revert seen. induction l as [|y l IH]; intros seen; [done|].
  intros [Hy Hl]%NoDup_cons [Hys Hls]%Forall_cons. simpl.
  rewrite decide_False by done. f_equal. apply IH; [done|].
  apply Forall_forall. intros x Hx [->|?]%elem_of_cons; [done|].
  by eapply Forall_forall in Hls.
Qed.

End unique.

(** * Properties of [groupby_sum] *)

Section groupby_facts.
Context `{KeyOrd K} {A : Type} (key : A → K) (val : A → Z).
Implicit Types (k : K) (v : Z) (t : list (K * Z)) (rows : list A).

Lemma groupby_sum_keys rows k :
  k ∈ (groupby_sum key val rows).*1 ↔ k ∈ key <$> rows.
Proof.
  rewrite groupby_sum_agg_rows, agg_rows_keys. csimpl.
  rewrite elem_of_nil. tauto.
Qed.

Lemma groupby_sum_get rows k :
  table_get k (groupby_sum key val rows)
  = zsum (val <$> filter (λ r, key r = k) rows).
Proof. by rewrite groupby_sum_agg_rows, agg_rows_get. Qed.

Lemma groupby_sum_keys_sorted rows : keys_sorted (groupby_sum key val rows).
Proof. apply agg_rows_sorted. constructor. Qed.

Lemma groupby_sum_NoDup rows : NoDup (groupby_sum key val rows).*1.
Proof. apply keys_sorted_NoDup, groupby_sum_keys_sorted. Qed.

(** The groups are the distinct keys of the rows. *)
Lemma groupby_sum_keys_unique rows :
  (groupby_sum key val rows).*1 ≡ₚ unique (key <$> rows).
Proof.
  apply NoDup_Permutation; [apply groupby_sum_NoDup|apply unique_NoDup|].
  intros k. by rewrite groupby_sum_keys, unique_elem_of.
Qed.

Lemma groupby_sum_length rows :
  length (groupby_sum key val rows) = length (unique (key <$> rows)).
Proof.
  rewrite <-(length_fmap fst). by rewrite groupby_sum_keys_unique.
Qed.

End groupby_facts.

(** * [groupby_sum] against masks and row order *)

Section groupby_ext.
Context `{KeyOrd K}.
Implicit Types (k : K) (v : Z) (t : list (K * Z)).

Lemma agg_insert_below k v t :
  Forall (key_lt k) t.*1 → agg_insert k v t = (k, v) :: t.
Proof.
  destruct t as [|[k1 v1] t]; [done|]. intros [Hk _]%Forall_cons. simpl.
  rewrite decide_False by by apply key_lt_ne.
  by rewrite decide_True by by apply key_lt_le.
Qed.

Lemma keys_sorted_cons k v t :
  keys_sorted ((k, v) :: t) ↔ keys_sorted t ∧ Forall (key_lt k) t.*1.
Proof.
  unfold keys_sorted. csimpl. split; [apply StronglySorted_inv|].
  intros [??]. by constructor.
Qed.

Lemma Forall_keys_filter (P : K → Prop) (Q : K * Z → Prop)
    `{!∀ p, Decision (Q p)} t :
  Forall P t.*1 → Forall P (filter Q t).*1.
Proof.
  rewrite !Forall_fmap. intros Ht. apply Forall_forall.
  intros p [_ Hp]%list_elem_of_filter. by eapply Forall_forall in Ht.
Qed.

Lemma keys_sorted_filter (Q : K * Z → Prop) `{!∀ p, Decision (Q p)} t :
  keys_sorted t → keys_sorted (filter Q t).
Proof.
  induction t as [|[k v] t IH]; [done|].
  intros [Ht Hk]%keys_sorted_cons. rewrite filter_cons.
  case_decide; [|by apply IH]. apply keys_sorted_cons.
  split; [by apply IH|by apply Forall_keys_filter].
Qed.

(** A strictly sorted table is determined by its keys and their values. *)
Lemma keys_sorted_ext t1 t2 :
  keys_sorted t1 → keys_sorted t2 →
  (∀ k, k ∈ t1.*1 ↔ k ∈ t2.*1) →
  (∀ k, table_get k t1 = table_get k t2) →
  t1 = t2.
Proof.
  revert t2. induction t1 as [|[k1 v1] t1 IH]; intros [|[k2 v2] t2] Hs1 Hs2 Hk Hg.
  - done.
  - specialize (Hk k2). csimpl in Hk. rewrite elem_of_nil, elem_of_cons in Hk. tauto.
  - specialize (Hk k1). csimpl in Hk. rewrite elem_of_nil, elem_of_cons in Hk. tauto.
  - pose proof (keys_sorted_NoDup _ Hs1) as [Hn1 _]%NoDup_cons.
    pose proof (keys_sorted_NoDup _ Hs2) as [Hn2 _]%NoDup_cons.
    apply keys_sorted_cons in Hs1 as [Hs1 Hlt1], Hs2 as [Hs2 Hlt2].
    assert (k1 = k2) as <-.
    { pose proof (proj1 (Hk k1)) as H1. pose proof (proj2 (Hk k2)) as H2.
      csimpl in *. rewrite !elem_of_cons in H1, H2.
      destruct H1 as [?|H1]; [by left|done|]. destruct H2 as [?|H2]; [by left|done|].
      eapply Forall_forall in Hlt1, Hlt2; [|done..].
      destruct (key_lt_irrefl k1). by etrans. }
    assert (∀ k, table_get k t1 = table_get k t2 ∧ (k = k1 → v1 = v2)) as Hg'.
    { intros k. specialize (Hg k). rewrite !table_get_cons in Hg.
      case_decide; subst; [|split; [lia|done]].
      rewrite !table_get_absent in * by done. split; [done|]. lia. }
    rewrite <-(proj2 (Hg' k1)) by done. f_equal. apply IH; [done..| |apply Hg'].
    intros k. specialize (Hk k). csimpl in Hk. rewrite !elem_of_cons in Hk.
    split; intros Hin; [destruct (proj1 Hk)|destruct (proj2 Hk)]; by subst; auto.
Qed.

End groupby_ext.

Section groupby_refinement.
Context `{KeyOrd K} {A : Type} (key : A → K) (val : A → Z).
Implicit Types (k : K) (rows : list A).

Lemma groupby_spec_keys rows :
  (groupby_spec key val rows).*1 = merge_sort key_le (remove_dups (key <$> rows)).
Proof.
  unfold groupby_spec. rewrite <-list_fmap_compose. apply list_fmap_id.
Qed.

Lemma groupby_spec_keys_sorted rows : keys_sorted (groupby_spec key val rows).
Proof.
  unfold keys_sorted. rewrite groupby_spec_keys.
  pose proof (StronglySorted_merge_sort key_le (remove_dups (key <$> rows))) as Hs.
  assert (NoDup (merge_sort key_le (remove_dups (key <$> rows)))) as Hn.
  { rewrite merge_sort_Permutation. apply NoDup_remove_dups. }
  induction Hs as [|k ks Hs IH Hk]; [constructor|].
  apply NoDup_cons in Hn as [Hk' Hn]. constructor; [by apply IH|].
  apply Forall_forall. intros k' Hin. apply key_le_ne_lt.
  - by eapply Forall_forall in Hk.
  - by intros ->.
Qed.

Lemma groupby_spec_elem_of rows k v :
  (k, v) ∈ groupby_spec key val rows ↔
  k ∈ key <$> rows ∧ v = zsum (val <$> filter (λ r, key r = k) rows).
Proof.
  unfold groupby_spec. rewrite list_elem_of_fmap.
  setoid_rewrite merge_sort_Permutation. setoid_rewrite elem_of_remove_dups.
  split; [intros (k' & [= -> ->] & ?)|intros [? ->]; exists k]; done.
Qed.

End groupby_refinement.

Lemma table_get_filter `{EqDecision K} (Q : K → Prop) `{!∀ k, Decision (Q k)}
    (k : K) (t : list (K * Z)) :
  table_get k (filter (λ p, Q p.1) t) = if decide (Q k) then table_get k t else 0.
Proof.
  induction t as [|[k1 v1] t IH]; [by case_decide|].
  rewrite filter_cons. cbn [fst]. destruct (decide (Q k1));
    rewrite ?table_get_cons, IH; repeat case_decide; subst; done.
Qed.

Lemma filter_key_mask `{EqDecision K} {A} (key : A → K) (Q : K → Prop)
    `{!∀ k, Decision (Q k)} (k : K) (rows : list A) :
  filter (λ r, key r = k) (filter (λ r, Q (key r)) rows)
  = if decide (Q k) then filter (λ r, key r = k) rows else [].
Proof.
  induction rows as [|r rows IH]; [by case_decide|].
  rewrite !filter_cons. destruct (decide (Q (key r)));
    rewrite ?filter_cons, IH; repeat case_decide; subst; done.
Qed.

(** * Properties *)

Section groupby_elem_of.
Context `{KeyOrd K} {A : Type} (key : A → K) (val : A → Z).
Implicit Types (k : K) (v : Z) (rows : list A).

Lemma groupby_sum_elem_of rows k v :
  (k, v) ∈ groupby_sum key val rows ↔
  k ∈ key <$> rows ∧ v = zsum (val <$> filter (λ r, key r = k) rows).
Proof.
  pose proof (groupby_sum_keys_sorted key val rows) as Hs.
  rewrite <-(groupby_sum_keys key val), <-(groupby_sum_get key val). split.
  - intros Hin. split; [by apply (list_elem_of_fmap_2 fst) in Hin|].
    symmetry. by apply table_get_elem_of.
  - intros [([k' v'] & -> & Hin)%list_elem_of_fmap ->]. simpl.
    by rewrite (table_get_elem_of _ _ _ Hs Hin).
Qed.

Lemma groupby_sum_zsum rows :
  zsum (groupby_sum key val rows).*2 = zsum (val <$> rows).
Proof. rewrite groupby_sum_agg_rows, agg_rows_total. csimpl. lia. Qed.

Lemma groupby_sum_nonneg rows :
  Forall (λ r, 0 ≤ val r) rows → Forall (λ p, 0 ≤ p.2) (groupby_sum key val rows).
Proof.
  intros Hrows. apply Forall_forall. intros [k v] [_ ->]%groupby_sum_elem_of.
  apply zsum_nonneg, Forall_fmap, Forall_forall.
  intros r [_ Hr]%list_elem_of_filter. by eapply Forall_forall in Hrows.
Qed.

(** Grouping the rows a mask on the key selects gives the selected rows of
    the grouped table. *)
Lemma groupby_sum_filter (Q : K → Prop) `{!∀ k, Decision (Q k)} rows :
  groupby_sum key val (filter (λ r, Q (key r)) rows)
  = filter (λ p, Q p.1) (groupby_sum key val rows).
Proof.
  apply keys_sorted_ext.
  - apply groupby_sum_keys_sorted.
  - apply keys_sorted_filter, groupby_sum_keys_sorted.
  - intros k. rewrite groupby_sum_keys, !list_elem_of_fmap. split.
    + intros (r & -> & [? ?]%list_elem_of_filter).
      assert (key r ∈ (groupby_sum key val rows).*1) as Hk
        by by apply groupby_sum_keys, list_elem_of_fmap_2.
      apply list_elem_of_fmap in Hk as ([k v] & Hk & ?). simpl in Hk.
      exists (k, v). split; [done|]. apply list_elem_of_filter. by subst.
    + intros ([k' v] & -> & [HQ Hin]%list_elem_of_filter).
      apply groupby_sum_elem_of in Hin as [(r & ? & ?)%list_elem_of_fmap _].
      exists r. split; [done|]. apply list_elem_of_filter. by subst.
  - intros k. rewrite groupby_sum_get, table_get_filter, filter_key_mask.
    case_decide; [by rewrite groupby_sum_get|done].
Qed.

End groupby_elem_of.

Section frame_properties.
Context `{KeyOrd K} {A : Type} (key : A → K) (val : A → Z).
Implicit Types (k : K) (v : Z) (rows : list A).

(** C4 (refinement): [groupby_sum], which inserts the rows one by one into a
    sorted table, computes exactly the table [groupby_spec] describes: the
    distinct keys in increasing order, each with the sum of its rows. *)
Theorem groupby_sum_refines rows :
  groupby_sum key val rows = groupby_spec key val rows.
Proof.
  apply keys_sorted_ext.
  - apply groupby_sum_keys_sorted.
  - apply groupby_spec_keys_sorted.
  - intros k. rewrite groupby_sum_keys, groupby_spec_keys, merge_sort_Permutation.
    by rewrite elem_of_remove_dups.
  - intros k. rewrite groupby_sum_get.
    destruct (decide (k ∈ key <$> rows)) as [Hk|Hk].
    + symmetry. apply table_get_elem_of; [apply groupby_spec_keys_sorted|].
      by apply groupby_spec_elem_of.
    + rewrite table_get_absent.
      2:{ by rewrite groupby_spec_keys, merge_sort_Permutation, elem_of_remove_dups. }
      apply zsum_zero, Forall_fmap, Forall_forall.
      intros r [<- Hr]%list_elem_of_filter. destruct Hk.
      by apply list_elem_of_fmap_2.
Qed.

(** The keys of a [groupby_sum] table are strictly
    increasing, so no key occurs twice. *)
Theorem groupby_sum_sorted rows :
  keys_sorted (groupby_sum key val rows) ∧ NoDup (groupby_sum key val rows).*1.
Proof. split; [apply groupby_sum_keys_sorted|apply groupby_sum_NoDup]. Qed.

(** C36 (functional): a pair is a row of the [groupby_sum] table exactly when
    its key is the key of some input row and its value is the sum of [val]
    over the input rows with that key; and grouping conserves the column
    total. *)
Theorem groupby_sum_lookup rows :
  (∀ k v, (k, v) ∈ groupby_sum key val rows ↔
          k ∈ key <$> rows ∧ v = zsum (val <$> filter (λ r, key r = k) rows))
  ∧ zsum (groupby_sum key val rows).*2 = zsum (val <$> rows).
Proof. split; [intros k v; apply groupby_sum_elem_of|apply groupby_sum_zsum]. Qed.

(** C37 (bounds): when no count is negative, every group sum lies between 0
    and the total of the table, so no group sum overflows if the total fits
    the machine integer. *)
Theorem groupby_sum_bounds rows :
  Forall (λ r, 0 ≤ val r) rows →
  Forall (λ p, 0 ≤ p.2 ≤ zsum (val <$> rows)) (groupby_sum key val rows).
Proof.
  intros Hrows. apply Forall_forall. intros [k v] [_ ->]%groupby_sum_elem_of.
  by apply zsum_filter_le.
Qed.

End frame_properties.

(** The table does not depend on the order of the rows: every view built
    from a [groupby] inherits this by rewriting. *)
#[global] Instance groupby_sum_Permutation `{KeyOrd K} {A} (key : A → K) (val : A → Z) :
  Proper ((≡ₚ) ==> (=)) (groupby_sum key val).
Proof.
  intros rows rows' Hp. apply keys_sorted_ext; try apply groupby_sum_keys_sorted.
  - intros k. by rewrite !groupby_sum_keys, Hp.
  - intros k. by rewrite !groupby_sum_get, Hp.
Qed.

(** * [py_max] *)

Lemma foldl_max_spec (x : Z) (l : list Z) :
  (foldl Z.max x l = x ∨ foldl Z.max x l ∈ l)
  ∧ x ≤ foldl Z.max x l ∧ Forall (λ y, y ≤ foldl Z.max x l) l.
Proof.
  revert x. induction l as [|y l IH]; intros x; simpl.
  { split_and!; [by left|lia|constructor]. }
  destruct (IH (Z.max x y)) as ([Hm|Hm] & Hle & Hall).
  - split_and!; [|lia|constructor; [lia|done]].
    rewrite Hm, elem_of_cons. destruct (Z.max_spec x y) as [[_ ->]|[_ ->]]; auto.
  - split_and!; [|lia|constructor; [lia|done]].
    rewrite elem_of_cons. auto.
Qed.

(** [max] of a column returns an entry of the column that
    no other entry exceeds, and this determines it. *)
Lemma py_max_spec (l : list Z) (m : Z) :
  py_max l = Ok m ↔ m ∈ l ∧ Forall (λ x, x ≤ m) l.
Proof.
  destruct l as [|x l]; simpl.
  { split; [done|]. by intros [?%elem_of_nil _]. }
  destruct (foldl_max_spec x l) as (Hin & Hle & Hall). split.
  - intros [= <-]. split; [|by constructor].
    rewrite elem_of_cons. destruct Hin as [->|?]; auto.
  - intros [Hm [Hx Hl]%Forall_cons]. f_equal. apply Z.le_antisymm.
    + destruct Hin as [->|Hin]; [done|]. by eapply Forall_forall in Hl.
    + apply elem_of_cons in Hm as [->|Hm]; [done|].
      by eapply Forall_forall in Hall.
Qed.

(** [max] raises on the empty column, and only there. *)
Lemma py_max_empty (l : list Z) :
  py_max l = raise ValueError("max() arg is an empty sequence") ↔ l = [].
Proof. by destruct l. Qed.

#[global] Instance py_max_Permutation : Proper ((≡ₚ) ==> (=)) py_max.
Proof.
  intros l l' Hp. destruct (py_max l) as [m|e] eqn:Hm; symmetry.
  - apply py_max_spec. apply py_max_spec in Hm. by rewrite <-Hp.
  - destruct l; [|done]. by apply Permutation_nil_l in Hp as <-.
Qed.

(** [unique] of a reordered column holds the same values. *)
Lemma unique_Permutation `{EqDecision A} (l l' : list A) :
  l ≡ₚ l' → unique l ≡ₚ unique l'.
Proof.
  intros Hp. apply NoDup_Permutation; try apply unique_NoDup.
  intros x. by rewrite !unique_elem_of, Hp.
Qed.

(** The sum of the groups a mask on the key selects is the sum of the rows
    it selects. *)
Lemma groupby_sum_mask_total `{KeyOrd K} {A} (key : A → K) (val : A → Z)
    (Q : K → Prop) `{!∀ k, Decision (Q k)} (rows : list A) :
  zsum (filter (λ p, Q p.1) (groupby_sum key val rows)).*2
  = zsum (val <$> filter (λ r, Q (key r)) rows).
Proof. by rewrite <-groupby_sum_filter, groupby_sum_zsum. Qed.

(** * Witnesses on a concrete table *)

Example groupby_sum_sample :
  groupby_sum Name Count sample_rows = [("Lung", 15); ("Skin", 10)]
  ∧ groupby_sum (λ r, (Year r, Gender r)) Count sample_rows
    = [((2019, "Female"), 7); ((2020, "Female"), 5); ((2020, "Male"), 13)].
Proof. split; vm_compute; reflexivity. Qed.

Lemma groupby_sum_bounds_witness :
  Forall (λ p : string * Z, 0 ≤ p.2 ≤ zsum (Count <$> sample_rows))
    (groupby_sum Name Count sample_rows).
Proof.
  apply (groupby_sum_bounds Name Count sample_rows).
  repeat constructor; vm_compute; discriminate.
Defined.

Example groupby_sum_reverse :
  groupby_sum Name Count sample_rows = groupby_sum Name Count (reverse sample_rows).
Proof. by rewrite reverse_Permutation. Qed.
