(* ===== verification/AgeGroup.v ===== *)
(** * AgeGroup: the lower bound of an age-group label and the age selector

    - [extract_lower_bound]: [src/main.py] lines 7-12;
    - [agegroups], [age_options]: lines 30-33, the distinct labels of the
      table sorted by lower bound, with "All" in front.

    The only failure is the [ValueError] of [int]: it is raised for a label
    that contains a minus sign but whose text before [" - "] is not an
    integer literal, such as ["40-44"]. *)

From Stdlib Require Import Ascii.
From stdpp Require Import pretty.
From S2P Require Import Prelude PyStr Frame.

#[local] Open Scope string_scope.
#[local] Open Scope list_scope.
#[local] Open Scope Z_scope.

(** * Definitions *)

(** Lines 7-12. *)
Definition extract_lower_bound (age_group : string) : result Z :=
  if str_contains "-" age_group then
    parts ← str_split " - " age_group;
    match parts with
    | part :: _ => py_int part
    | [] => raise IndexError("list index out of range")
    end
  else Ok 85.

Section age_selector.
Context `{Sorter}.

(** Lines 30-32: the table of distinct labels with their bounds, sorted by
    bound.  [apply] stops at the first label [extract_lower_bound] refuses. *)
Definition agegroups (df_all : list row) : result (list (string * Z)) :=
  let ages := unique (Age <$> df_all) in
  bounds ← mapM extract_lower_bound ages;
  Ok (sort_values snd true (zip ages bounds)).

(** Line 33: the options of the age selector. *)
Definition age_options (df_all : list row) : result (list string) :=
  groups ← agegroups df_all;
  Ok ("All" :: groups.*1).

End age_selector.

(** The options of the gender selector (line 28). *)
Definition gender_options : list string := ["All"; "Male"; "Female"].

(** The order both the age selector and the chart by age group are sorted
    by: [a] has a lower bound that is at most the lower bound of [b]. *)
Definition bound_le (a b : string) : Prop :=
  ∃ x y, extract_lower_bound a = Ok x ∧ extract_lower_bound b = Ok y ∧ x ≤ y.

(** * Lemmas *)

Lemma str_contains_dash_app l r : str_contains "-" (l +:+ "-" +:+ r) = true.
Proof. apply str_contains_spec. by exists l, r. Qed.

Lemma pretty_N_no_char (c : ascii) (x : N) :
  is_digit c = false → str_contains (String c "") (pretty x) = false.
Proof.
  intros Hc. apply str_contains_char_false.
  eapply str_all_impl, (str_all_pretty_N x). intros c' Hc'.
  apply negb_true_iff, Ascii.eqb_neq. intros ->. congruence.
Qed.

Lemma pretty_Z_no_space (z : Z) : str_contains " " (pretty z) = false.
Proof.
  destruct z as [|p|p]; [done|..].
  - by apply (pretty_N_no_char " " (N.pos p)).
  - change (str_contains " " (String "-" (pretty (N.pos p))) = false).
    cbn [str_contains]. by rewrite (pretty_N_no_char " " (N.pos p)).
Qed.

(** What [split(' - ')[0]] is for a label with the separator after a
    part without blanks. *)
Lemma str_split_range part rest :
  str_contains " " part = false →
  str_split " - " (part +:+ " - " +:+ rest)
  = Ok (part :: split_go " - " 0 rest).
Proof.
  intros Hpart. rewrite str_split_Ok by done. f_equal.
  by apply (split_go_first " " "- ").
Qed.

Lemma str_all_app P s t : str_all P (s +:+ t) = str_all P s && str_all P t.
Proof.
  induction s as [|c s IH]; [done|].
  rewrite str_app_cons. cbn [str_all]. by rewrite IH, andb_assoc.
Qed.

(** A string in which the first character of [sep] does not occur does not
    contain [sep]. *)
Lemma str_contains_first_char c sep' s :
  str_contains (String c "") s = false → str_contains (String c sep') s = false.
Proof.
  induction s as [|c' s IH]; [done|]. cbn [str_contains].
  intros [Hp Hs]%orb_false_iff. rewrite (IH Hs), orb_false_r.
  apply not_true_iff_false. intros [-> _]%prefix_cons.
  rewrite (proj2 (prefix_cons _ _ _ _)) in Hp; [done|by destruct s].
Qed.

(** The text "a-b" of two numbers and a minus sign: no blank, a minus sign
    after the first character. *)
Lemma dashed_no_space (a b : N) :
  str_all (λ c, negb (is_py_space c)) (pretty a +:+ "-" +:+ pretty b) = true.
Proof.
  rewrite !str_all_app, !andb_true_iff. split_and!; [|done|];
    eapply str_all_impl, str_all_pretty_N; apply is_digit_not_space.
Qed.

Lemma dashed_not_literal (a b : N) :
  int_literal (pretty a +:+ "-" +:+ pretty b) = None.
Proof.
  destruct (pretty_N_nonempty a) as (c & t & ->). rewrite str_app_cons.
  apply int_literal_dash_inside, str_contains_dash_app.
Qed.

(** * Properties *)

(** A label without a minus sign is open-ended: its bound
    is 85. *)
Theorem extract_lower_bound_open s :
  str_contains "-" s = false → extract_lower_bound s = Ok 85.
Proof. unfold extract_lower_bound. by intros ->. Qed.

Lemma extract_lower_bound_open_witness : extract_lower_bound "85+" = Ok 85.
Proof. by apply extract_lower_bound_open. Defined.

(** C9 (functional): the bound of a label "L - U" is the number L, for every
    integer L and whatever follows the separator. *)
Theorem extract_lower_bound_range (z : Z) rest :
  extract_lower_bound (pretty z +:+ " - " +:+ rest) = Ok z.
Proof.
  unfold extract_lower_bound.
  rewrite (str_contains_app "-" (pretty z) (" - " +:+ rest)) by done.
  rewrite str_split_range by apply pretty_Z_no_space. simpl.
  by rewrite (py_int_nonspace (pretty z) z)
    by first [apply str_all_nonspace_pretty_Z|apply int_literal_pretty_Z].
Qed.

(** C10 (error): a label written "a-b", without blanks around the minus sign,
    makes [extract_lower_bound] raise the [ValueError] of [int]: the label
    contains a minus sign, [split] finds no separator, and the whole label
    is not an integer literal. *)
Theorem extract_lower_bound_malformed (a b : N) :
  extract_lower_bound (pretty a +:+ "-" +:+ pretty b)
  = raise ValueError("invalid literal for int() with base 10").
Proof.
  unfold extract_lower_bound. rewrite str_contains_dash_app.
  rewrite str_split_Ok, split_go_absent by
    (try done; apply str_contains_first_char, str_contains_char_false;
     eapply str_all_impl, dashed_no_space; by intros [[] [] [] [] [] [] [] []]).
  simpl. unfold py_int.
  by rewrite strip_all_nonspace, dashed_not_literal by apply dashed_no_space.
Qed.

(** The only exception [extract_lower_bound] raises is the one of [int]. *)
Lemma extract_lower_bound_Raise s e :
  extract_lower_bound s = Raise e →
  e = ValueError "invalid literal for int() with base 10".
Proof.
  unfold extract_lower_bound. destruct (str_contains "-" s); [|done].
  rewrite str_split_Ok by done. simpl.
  pose proof (split_go_nonempty " - " 0 s).
  destruct (split_go " - " 0 s) as [|part parts]; [done|].
  unfold py_int. destruct (int_literal (strip part)); [done|]. by intros [= <-].
Qed.

(** C35 (error): the only exception [extract_lower_bound] can raise is the
    [ValueError] of [int]; it never fails on the separator or the index. *)
Theorem extract_lower_bound_total s :
  is_Ok (extract_lower_bound s)
  ∨ extract_lower_bound s
    = raise ValueError("invalid literal for int() with base 10").
Proof.
  destruct (extract_lower_bound s) as [z|e] eqn:Hs; [left; by eexists|right].
  by apply extract_lower_bound_Raise in Hs as ->.
Qed.

Example extract_lower_bound_examples :
  extract_lower_bound "40 - 44" = Ok 40
  ∧ extract_lower_bound "0 - 4" = Ok 0
  ∧ extract_lower_bound "85+" = Ok 85
  ∧ extract_lower_bound "40-44"
    = raise ValueError("invalid literal for int() with base 10")
  ∧ extract_lower_bound "-5" = Ok (-5).
Proof. repeat split; vm_compute; reflexivity. Qed.

Section age_selector_properties.
Context `{Sorter}.
Implicit Types (df : list row) (groups : list (string * Z)).

Lemma Forall2_zip {A B} (R : A → B → Prop) (l : list A) (k : list B) :
  Forall2 R l k → Forall (λ p, R p.1 p.2) (zip l k) ∧ (zip l k).*1 = l.
Proof.
  induction 1 as [|x y l k Hxy _ [IH1 IH2]]; [done|].
  split; [by constructor|]. csimpl. by rewrite IH2.
Qed.

(** A column zipped with its bounds and sorted by them: each entry still has
    its bound next to it, and the bounds never decrease. *)
Lemma sort_values_zip_bounds {A} (g : A → result Z) (l : list A) (bounds : list Z) :
  Forall2 (λ a b, g a = Ok b) l bounds →
  Forall2 (λ a b, g a = Ok b)
    (sort_values snd true (zip l bounds)).*1 (sort_values snd true (zip l bounds)).*2
  ∧ StronglySorted Z.le (sort_values snd true (zip l bounds)).*2.
Proof.
  intros [Hall _]%Forall2_zip. split.
  - apply Forall2_fmap, Forall2_same_length_lookup_2; [done|].
    intros i x y Hx Hy. assert (x = y) as <- by congruence.
    apply list_elem_of_lookup_2, sort_values_elem_of in Hx.
    by eapply Forall_forall in Hall.
  - apply (StronglySorted_fmap _ (key_ord snd true)); [|apply sort_values_sorted].
    by intros x y.
Qed.

(** Labels whose bounds never decrease are sorted by [bound_le]. *)
Lemma bounds_sorted {A} (label : A → string) (l : list A) (bounds : list Z) :
  Forall2 (λ a b, extract_lower_bound (label a) = Ok b) l bounds →
  StronglySorted Z.le bounds → StronglySorted bound_le (label <$> l).
Proof.
  induction 1 as [|a b l bounds Hab Hl IH]; intros Hs; csimpl; [constructor|].
  apply StronglySorted_inv in Hs as [Hs Hb]. constructor; [by apply IH|].
  clear IH Hs. induction Hl as [|a' b' l bounds Hab' _ IH]; csimpl; [done|].
  apply Forall_cons in Hb as [Hbb' Hb]. constructor; [|by apply IH].
  by exists b, b'.
Qed.

(** The labels of the age selector are sorted by [bound_le]. *)
Lemma agegroups_sorted df groups :
  agegroups df = Ok groups → StronglySorted bound_le groups.*1.
Proof.
  unfold agegroups. intros (bounds & Hb%mapM_Ok & [= <-])%bind_Ok.
  destruct (sort_values_zip_bounds _ _ _ Hb) as [Hf Hs].
  rewrite <-(list_fmap_id (_.*1)). by eapply bounds_sorted.
Qed.

(** Reordering the rows reorders the table at most: the labels come in
    order of first appearance and the sort promises nothing on labels with
    the same bound. *)
Lemma agegroups_Permutation df df' :
  df ≡ₚ df' → result_rel (≡ₚ) (agegroups df) (agegroups df').
Proof.
  intros Hp. unfold agegroups. eapply result_rel_bind.
  - apply mapM_Permutation, unique_Permutation. by rewrite Hp.
  - intros k k' Hk. simpl. by rewrite !sort_values_perm.
Qed.

Lemma age_options_Permutation df df' :
  df ≡ₚ df' → result_rel (≡ₚ) (age_options df) (age_options df').
Proof.
  intros Hp. unfold age_options.
  eapply result_rel_bind; [by apply agegroups_Permutation|].
  intros groups groups' Hg. simpl. by rewrite Hg.
Qed.

(** What [agegroups] returns when it returns: the labels zipped with their
    bounds, sorted. *)
Lemma agegroups_Ok df groups :
  agegroups df = Ok groups ↔
  ∃ bounds,
    Forall2 (λ a b, extract_lower_bound a = Ok b) (unique (Age <$> df)) bounds
    ∧ groups = sort_values snd true (zip (unique (Age <$> df)) bounds).
Proof.
  unfold agegroups. rewrite bind_Ok. setoid_rewrite mapM_Ok.
  split; intros (bounds & ? & ?); exists bounds; split; congruence.
Qed.

(** The labels of the age selector are the distinct labels of the table. *)
Lemma agegroups_labels df groups :
  agegroups df = Ok groups → groups.*1 ≡ₚ unique (Age <$> df).
Proof.
  intros (bounds & [_ Hfst]%Forall2_zip & ->)%agegroups_Ok.
  by rewrite sort_values_perm, Hfst.
Qed.

(** C33 (functional): when the selector's table is built, it holds each
    distinct age label of the data once, with the bound
    [extract_lower_bound] gives it, in increasing order of the bounds. *)
Theorem agegroups_spec df groups :
  agegroups df = Ok groups →
  groups.*1 ≡ₚ unique (Age <$> df)
  ∧ StronglySorted (key_ord snd true) groups
  ∧ Forall (λ p, extract_lower_bound p.1 = Ok p.2) groups.
Proof.
  intros (bounds & [Hb Hfst]%Forall2_zip & ->)%agegroups_Ok. split_and!.
  - by rewrite sort_values_perm, Hfst.
  - apply sort_values_sorted.
  - by rewrite sort_values_perm.
Qed.

(** The selector stops the script only with the exception of [int]. *)
Lemma agegroups_Raise df e :
  agegroups df = Raise e →
  e = ValueError "invalid literal for int() with base 10".
Proof.
  unfold agegroups. intros [Hm|(? & _ & [=])]%bind_Raise.
  apply mapM_Raise in Hm as (a & _ & Ha). by eapply extract_lower_bound_Raise.
Qed.

Lemma age_options_is_Ok df : is_Ok (age_options df) ↔ is_Ok (agegroups df).
Proof.
  unfold age_options. split.
  - intros [o (g & Hg & _)%bind_Ok]. by exists g.
  - intros [g ->]. by eexists.
Qed.

Lemma age_options_Raise df e :
  age_options df = Raise e →
  e = ValueError "invalid literal for int() with base 10".
Proof.
  unfold age_options. intros [Hm|(? & _ & [=])]%bind_Raise.
  by eapply agegroups_Raise.
Qed.

(** The selector's table is built exactly when every age label of the data
    has a bound. *)
Lemma agegroups_Ok_iff df :
  is_Ok (agegroups df) ↔ Forall (λ r, is_Ok (extract_lower_bound (Age r))) df.
Proof.
  unfold agegroups. split.
  - intros [groups (bounds & Hb%mapM_Ok & _)%bind_Ok].
    apply Forall_forall. intros r Hr.
    assert (Age r ∈ unique (Age <$> df)) as [i Hi]%list_elem_of_lookup
      by by apply unique_elem_of, list_elem_of_fmap_2.
    destruct (Forall2_lookup_l _ _ _ _ _ Hb Hi) as (z & _ & Hz). by exists z.
  - intros Hdf.
    destruct (mapM_total extract_lower_bound (unique (Age <$> df))) as [bounds ->].
    + apply Forall_forall. intros a [r [-> Hr]]%unique_elem_of%list_elem_of_fmap.
      by eapply Forall_forall in Hdf.
    + by eexists.
Qed.

(** C34 (functional): the options of the age selector start with "All";
    the others are the distinct age labels of the data, without
    repetition. *)
Theorem age_options_spec df options :
  age_options df = Ok options →
  ∃ labels, options = "All" :: labels
    ∧ NoDup labels ∧ ∀ a, a ∈ labels ↔ a ∈ Age <$> df.
Proof.
  unfold age_options. intros (groups & Hg%agegroups_Ok & [= <-])%bind_Ok.
  destruct Hg as (bounds & [_ Hfst]%Forall2_zip & ->).
  assert ((sort_values snd true (zip (unique (Age <$> df)) bounds)).*1
          ≡ₚ unique (Age <$> df)) as Hperm by by rewrite sort_values_perm, Hfst.
  eexists. split_and!; [done|..].
  - rewrite Hperm. apply unique_NoDup.
  - intros a. by rewrite Hperm, unique_elem_of.
Qed.

End age_selector_properties.

(** The labels of the specification's example come out by increasing
    bound, not in alphabetical order. *)
Example age_options_example :
  age_options [Row 2020 "Male" "10 - 14" "Lung" 1;
               Row 2020 "Male" "0 - 4" "Lung" 1;
               Row 2020 "Male" "85+" "Lung" 1;
               Row 2020 "Female" "10 - 14" "Skin" 1]
  = Ok ["All"; "0 - 4"; "10 - 14"; "85+"].
Proof. vm_compute. reflexivity. Qed.

(** Two labels with the same bound: the selector lists them in the order the
    sort leaves them in, which for a stable sort is the order of the rows. *)
Example age_options_tie :
  age_options (H:=merge_sorter)
    [Row 2020 "Male" "85+" "Lung" 1; Row 2020 "Male" "85 - 89" "Lung" 1]
  = Ok ["All"; "85+"; "85 - 89"]
  ∧ age_options (H:=merge_sorter)
      [Row 2020 "Male" "85 - 89" "Lung" 1; Row 2020 "Male" "85+" "Lung" 1]
    = Ok ["All"; "85 - 89"; "85+"].
Proof. split; vm_compute; reflexivity. Qed.

Lemma agegroups_spec_witness :
  [("0 - 4", 0); ("85+", 85)].*1 ≡ₚ unique (Age <$> [Row 2020 "M" "85+" "L" 1; Row 2020 "M" "0 - 4" "L" 1])
  ∧ StronglySorted (key_ord snd true) [("0 - 4", 0); ("85+", 85)]
  ∧ Forall (λ p, extract_lower_bound p.1 = Ok p.2) [("0 - 4", 0); ("85+", 85)].
Proof. apply (agegroups_spec (H:=merge_sorter)). vm_compute. reflexivity. Defined.

Lemma age_options_spec_witness :
  ∃ labels, ["All"; "0 - 4"; "85+"] = "All" :: labels
    ∧ NoDup labels
    ∧ ∀ a, a ∈ labels
        ↔ a ∈ Age <$> [Row 2020 "M" "85+" "L" 1; Row 2020 "M" "0 - 4" "L" 1].
Proof. apply (age_options_spec (H:=merge_sorter)). vm_compute. reflexivity. Defined.
