(* ===== verification/TopN.v ===== *)
(** * TopN: the selector filter and the two "top n plus Other" charts

    - [latest_gender_age]: [src/main.py] lines 35-39, the table the pie is
      computed from, selected by the two selectors;
    - [cancer_type], [top10], [other_count], [chart_base], [df_chart],
      [pie_order]: lines 41-62, the "top 10" pie;
    - [top_types], [type_other_count], [type_sorted], [df_type]:
      lines 130-133, the "by type" bar chart.

    Everything that sorts is parameterised by a [Sorter]; the theorems hold
    for every instance of it. *)

From Stdlib Require Import QArith.
From S2P Require Import Prelude Frame.

#[local] Open Scope string_scope.
#[local] Open Scope list_scope.
#[local] Open Scope Z_scope.

(** * Definitions *)

(** Lines 35-39.  Both branches select from [df_latest]: the second
    assignment does not start from the result of the first. *)
Definition latest_gender_age (df_latest : list row) (gender age : string) : list row :=
  let df_latest_gender_age := df_latest in
  let df_latest_gender_age :=
    if decide (gender ≠ "All") then filter (λ r, Gender r = gender) df_latest
    else df_latest_gender_age in
  let df_latest_gender_age :=
    if decide (age ≠ "All") then filter (λ r, Age r = age) df_latest
    else df_latest_gender_age in
  df_latest_gender_age.

(** A row of the pie's table: the columns Name, Count, Sort, Percentage. *)
Record chart_row : Type := ChartRow {
  cName : string;
  cCount : Z;
  cSort : Z;
  cPercentage : fval;
}.

Section top_n.
Context `{Sorter}.

(** Lines 41 and 43: counts by cancer type, largest first. *)
Definition cancer_type (df : list row) : list (string * Z) :=
  sort_values snd false (groupby_sum Name Count df).

(** Line 44: [head(9)]. *)
Definition top10 (df : list row) : list (string * Z) := take 9 (cancer_type df).

(** Line 46: the sum of everything after the ninth group. *)
Definition other_count (df : list row) : Z := zsum (drop 9 (cancer_type df)).*2.

(** Lines 48 and 50: the "Other" row is always appended. *)
Definition chart_base (df : list row) : list (string * Z) :=
  top10 df ++ [("Other", other_count df)].

(** Line 52: [Count.min()], over the whole column, "Other" included. *)
Definition chart_min (df : list row) : Z :=
  col_min (other_count df) (top10 df).*2.

(** Line 54. *)
Definition total_count (df : list row) : Z := zsum (chart_base df).*2.

(** Lines 52-55: the Sort and Percentage columns.  A row named "Other" gets
    a sort key below every count of the table. *)
Definition df_chart (df : list row) : list chart_row :=
  (λ p, {| cName := p.1;
           cCount := p.2;
           cSort := if decide (p.1 = "Other") then chart_min df - 1 else p.2;
           cPercentage := true_div p.2 (total_count df) |})
  <$> chart_base df.

(** Lines 57-62: the arcs are drawn by decreasing Sort. *)
Definition pie_order (df : list row) : list chart_row :=
  sort_values cSort false (df_chart df).

(** Line 130: the twenty largest types of the latest year. *)
Definition top_types (df_latest : list row) : list (string * Z) :=
  take 20 (sort_values snd false (groupby_sum Name Count df_latest)).

(** Line 131: the rows whose Name is not among the twenty. *)
Definition type_other_count (df_latest : list row) : Z :=
  zsum (Count <$> filter (λ r, Name r ∉ (top_types df_latest).*1) df_latest).

(** Line 132: "Other" appended, then the table sorted by Count. *)
Definition type_sorted (df_latest : list row) : list (string * Z) :=
  sort_values snd false
    (top_types df_latest ++ [("Other", type_other_count df_latest)]).

(** Line 133: the rows named "Other" are moved behind the others. *)
Definition df_type (df_latest : list row) : list (string * Z) :=
  filter (λ p, p.1 ≠ "Other") (type_sorted df_latest)
  ++ filter (λ p, p.1 = "Other") (type_sorted df_latest).

End top_n.

(** The scenario of the specification: three rows of 2020. *)
Definition scenario : list row :=
  [ Row 2020 "Male" "40 - 44" "Lung" 10;
    Row 2020 "Female" "40 - 44" "Lung" 5;
    Row 2020 "Male" "40 - 44" "Skin" 3 ].

(** Eleven cancer types, so that two groups are folded into "Other". *)
Definition eleven_types : list row :=
  (λ nc : string * Z, Row 2020 "Male" "40 - 44" nc.1 nc.2)
  <$> [("A", 50); ("B", 45); ("C", 40); ("D", 35); ("E", 30); ("F", 25);
       ("G", 20); ("H", 15); ("I", 10); ("J", 3); ("K", 2)].

(** * Lemmas *)

Section top_n_facts.
Context `{Sorter}.
Implicit Types (df : list row) (p q : string * Z) (x y : chart_row).

Lemma cancer_type_perm df : cancer_type df ≡ₚ groupby_sum Name Count df.
Proof. apply sort_values_perm. Qed.

(** The tables are built from groups, so the order of the rows does not
    show in them. *)
#[global] Instance cancer_type_Permutation : Proper ((≡ₚ) ==> (=)) cancer_type.
Proof. intros df df' Hp. unfold cancer_type. by rewrite Hp. Qed.

#[global] Instance pie_order_Permutation : Proper ((≡ₚ) ==> (=)) pie_order.
Proof.
  intros df df' Hp.
  unfold pie_order, df_chart, total_count, chart_min, chart_base, other_count, top10.
  by rewrite (cancer_type_Permutation _ _ Hp).
Qed.

#[global] Instance top_types_Permutation : Proper ((≡ₚ) ==> (=)) top_types.
Proof. intros df df' Hp. unfold top_types. by rewrite Hp. Qed.

#[global] Instance df_type_Permutation : Proper ((≡ₚ) ==> (=)) df_type.
Proof.
  intros df df' Hp. unfold df_type, type_sorted, type_other_count.
  by rewrite (top_types_Permutation _ _ Hp), Hp.
Qed.

Lemma cancer_type_total df : zsum (cancer_type df).*2 = zsum (Count <$> df).
Proof. by rewrite cancer_type_perm, groupby_sum_zsum. Qed.

Lemma cancer_type_take_drop df : top10 df ++ drop 9 (cancer_type df) = cancer_type df.
Proof. apply take_drop. Qed.

Lemma chart_base_total df : zsum (chart_base df).*2 = zsum (Count <$> df).
Proof.
  unfold chart_base, other_count, top10.
  rewrite fmap_app, zsum_app. csimpl.
  rewrite <-cancer_type_total, <-(zsum_fmap_take_drop snd 9 (cancer_type df)). lia.
Qed.

Lemma df_chart_counts df : cCount <$> df_chart df = (chart_base df).*2.
Proof. unfold df_chart. by rewrite <-list_fmap_compose. Qed.

Lemma df_chart_percentages df :
  cPercentage <$> df_chart df
  = (λ c, true_div c (total_count df)) <$> (chart_base df).*2.
Proof. unfold df_chart. by rewrite <-!list_fmap_compose. Qed.

Lemma df_chart_length df : length (df_chart df) = S (length (top10 df)).
Proof.
  unfold df_chart, chart_base. rewrite length_fmap, length_app. simpl. lia.
Qed.

(** [chart_min] is the least entry of the Count column of the chart. *)
Lemma chart_min_le df p : p ∈ chart_base df → chart_min df ≤ p.2.
Proof.
  unfold chart_base, chart_min.
  intros [Hp| ->%list_elem_of_singleton]%elem_of_app.
  - by apply col_min_le, list_elem_of_fmap_2.
  - apply col_min_le_default.
Qed.

Lemma chart_min_elem_of df : chart_min df ∈ (chart_base df).*2.
Proof.
  unfold chart_base, chart_min. rewrite fmap_app, elem_of_app. csimpl.
  destruct (col_min_elem_of (other_count df) (top10 df).*2) as [->| ?];
    [right; apply list_elem_of_here|by left].
Qed.

(** The Sort key of a row named "Other" is below the key of every row with
    another name. *)
Lemma df_chart_sort_lt df x y :
  x ∈ df_chart df → y ∈ df_chart df →
  cName x ≠ "Other" → cName y = "Other" → cSort y < cSort x.
Proof.
  unfold df_chart.
  intros (p & -> & Hp)%list_elem_of_fmap (q & -> & Hq)%list_elem_of_fmap.
  simpl. intros Hx Hy. rewrite (decide_True _ _ Hy), (decide_False _ _ Hx).
  apply chart_min_le in Hp. lia.
Qed.

Lemma df_chart_has_other df :
  ∃ y, y ∈ df_chart df ∧ cName y = "Other" ∧ cCount y = other_count df.
Proof.
  exists (ChartRow "Other" (other_count df) (chart_min df - 1)
            (true_div (other_count df) (total_count df))).
  split; [|done]. unfold df_chart, chart_base.
  apply list_elem_of_fmap. exists ("Other", other_count df). split; [done|].
  apply elem_of_app. right. apply list_elem_of_here.
Qed.

Lemma cancer_type_nonneg df :
  Forall (λ r, 0 ≤ Count r) df → Forall (λ q, 0 ≤ q.2) (cancer_type df).
Proof.
  intros Hdf. unfold cancer_type. rewrite sort_values_perm.
  by apply groupby_sum_nonneg.
Qed.

Lemma chart_base_nonneg df :
  Forall (λ r, 0 ≤ Count r) df → Forall (λ c, 0 ≤ c) (chart_base df).*2.
Proof.
  intros Hdf%cancer_type_nonneg. unfold chart_base, top10, other_count.
  rewrite fmap_app, Forall_app. split.
  - by apply Forall_fmap, Forall_take.
  - repeat constructor. csimpl. by apply zsum_nonneg, Forall_fmap, Forall_drop.
Qed.

(** With non-negative counts every Percentage of the pie table is a share. *)
Lemma df_chart_shares df :
  Forall (λ r, 0 ≤ Count r) df → Forall (λ x, is_share (cPercentage x)) (df_chart df).
Proof.
  intros Hnn%chart_base_nonneg. unfold df_chart.
  apply Forall_fmap, Forall_forall. intros p Hp. simpl.
  by apply true_div_share_zsum, list_elem_of_fmap_2.
Qed.

End top_n_facts.

Section by_type_facts.
Context `{Sorter}.
Implicit Types (df : list row) (p q : string * Z).

Lemma top_types_sorted_perm df :
  sort_values snd false (groupby_sum Name Count df) ≡ₚ groupby_sum Name Count df.
Proof. apply sort_values_perm. Qed.

(** The groups outside the twenty kept are the groups after the twentieth. *)
Lemma top_types_complement df :
  filter (λ p, p.1 ∉ (top_types df).*1) (groupby_sum Name Count df)
  ≡ₚ drop 20 (sort_values snd false (groupby_sum Name Count df)).
Proof.
  unfold top_types. set (s := sort_values snd false (groupby_sum Name Count df)).
  rewrite <-(top_types_sorted_perm df). fold s.
  rewrite filter_not_in_take; [done|].
  apply sort_values_NoDup, groupby_sum_NoDup.
Qed.

(** Line 131 read on the grouped table. *)
Lemma type_other_count_groups df :
  type_other_count df
  = zsum (filter (λ p, p.1 ∉ (top_types df).*1) (groupby_sum Name Count df)).*2.
Proof.
  symmetry.
  exact (groupby_sum_mask_total Name Count (λ k, k ∉ (top_types df).*1) df).
Qed.

Lemma type_sorted_perm df :
  type_sorted df ≡ₚ top_types df ++ [("Other", type_other_count df)].
Proof. apply sort_values_perm. Qed.

Lemma df_type_perm df : df_type df ≡ₚ type_sorted df.
Proof.
  unfold df_type. rewrite Permutation_app_comm.
  apply (filter_app_complement (λ p, p.1 = "Other")).
Qed.

End by_type_facts.

(** * Properties *)

Section top_n_properties.
Context `{Sorter}.
Implicit Types (df : list row) (p q : string * Z) (x y : chart_row).

(** C1 (invariant): folding into "Other" conserves the total: the Count
    column of the pie's table sums to the Count column of the selected
    rows. *)
Theorem chart_conserves df :
  zsum (cCount <$> df_chart df) = zsum (Count <$> df).
Proof. by rewrite df_chart_counts, chart_base_total. Qed.

(** C21 (bounds): the pie has one slice per kept group plus "Other": the
    number of distinct names capped at nine, plus one; at most ten. *)
Theorem chart_length df :
  length (df_chart df) = S (9 `min` length (unique (Name <$> df)))
  ∧ (length (df_chart df) ≤ 10)%nat.
Proof.
  rewrite df_chart_length. unfold top10.
  rewrite length_take, cancer_type_perm, groupby_sum_length. split; [done|lia].
Qed.

(** C20 (safety): every group kept by [head(9)] has at least the count of
    every group folded into "Other". *)
Theorem top_dominates df p q :
  p ∈ top10 df → q ∈ drop 9 (cancer_type df) → q.2 ≤ p.2.
Proof. apply (sort_values_take_drop snd false 9). Qed.

(** C2 (safety): in the drawing order of the pie every row named "Other"
    comes after every row with another name, whatever its count. *)
Theorem pie_other_last df i j x y :
  pie_order df !! i = Some x → pie_order df !! j = Some y →
  cName x ≠ "Other" → cName y = "Other" → (i < j)%nat.
Proof.
  intros Hi Hj Hx Hy. eapply (sort_values_lookup_lt cSort false); [done..|].
  unfold key_ord. apply Z.lt_nge, (df_chart_sort_lt df); [..|done|done];
    eapply sort_values_elem_of, list_elem_of_lookup_2; done.
Qed.

(** The last row drawn is named "Other". *)
Theorem pie_last_is_other df :
  ∃ y, last (pie_order df) = Some y ∧ cName y = "Other".
Proof.
  destruct (df_chart_has_other df) as (o & Ho & Hoo & _).
  destruct (last (pie_order df)) as [y|] eqn:Hlast.
  - exists y. split; [done|]. destruct (decide (cName y = "Other")); [done|].
    pose proof (sort_values_last cSort false _ _ _ Hlast Ho) as Hle.
    apply last_Some_elem_of, sort_values_elem_of in Hlast.
    pose proof (df_chart_sort_lt df y o Hlast Ho ltac:(done) Hoo).
    unfold key_ord in Hle. lia.
  - apply last_None, (f_equal length) in Hlast. unfold pie_order in Hlast.
    rewrite sort_values_length, df_chart_length in Hlast. done.
Qed.

(** C22 (functional): when the total is not zero the Percentage column adds
    up to one. *)
Theorem chart_percentages df :
  zsum (Count <$> df) ≠ 0 → fsum (cPercentage <$> df_chart df) ≡ Fin 1.
Proof.
  intros Ht. rewrite df_chart_percentages. unfold total_count.
  apply fsum_true_div_total. by rewrite chart_base_total.
Qed.

(** C23 (error): when the selected rows have no case at all (the selection is
    empty, or every count is zero) every Percentage is NaN: the script
    divides zero by zero. *)
Theorem chart_percentages_nan df x :
  Forall (λ r, 0 ≤ Count r) df → zsum (Count <$> df) = 0 →
  x ∈ df_chart df → cPercentage x = NaN.
Proof.
  intros Hnn Hz. unfold df_chart.
  intros (p & -> & Hp)%list_elem_of_fmap. simpl.
  unfold total_count. rewrite chart_base_total, Hz.
  assert (Forall (λ c, c = 0) (chart_base df).*2) as Hall.
  { apply zsum_nonneg_zero; [by apply chart_base_nonneg|].
    by rewrite chart_base_total. }
  eapply Forall_forall in Hall; [|by apply list_elem_of_fmap_2]. by rewrite Hall.
Qed.

End top_n_properties.

Section by_type_properties.
Context `{Sorter}.
Implicit Types (df : list row) (p q : string * Z).

(** C19 (equivalence): the two ways the script computes an "Other" count
    agree: summing the rows whose Name is not among the twenty kept (line
    131) gives the sum of the groups after the twentieth, which is how the
    pie does it (line 46). *)
Theorem type_other_count_drop df :
  type_other_count df
  = zsum (drop 20 (sort_values snd false (groupby_sum Name Count df))).*2.
Proof. by rewrite type_other_count_groups, top_types_complement. Qed.

(** The bar chart's table conserves the total of the latest year. *)
Lemma df_type_zsum df : zsum (df_type df).*2 = zsum (Count <$> df).
Proof.
  rewrite df_type_perm, type_sorted_perm, fmap_app, zsum_app. csimpl.
  rewrite type_other_count_groups, top_types_complement. unfold top_types.
  rewrite Z.add_0_r, zsum_fmap_take_drop, top_types_sorted_perm.
  apply groupby_sum_zsum.
Qed.

(** C24 (safety): after line 133 the bar chart's table is the rows with
    another name, still by decreasing count, followed by the rows named
    "Other", of which there is at least one. *)
Theorem df_type_other_last df :
  ∃ real others,
    df_type df = real ++ others
    ∧ Forall (λ p, p.1 ≠ "Other") real
    ∧ StronglySorted (key_ord snd false) real
    ∧ Forall (λ p, p.1 = "Other") others
    ∧ others ≠ [].
Proof.
  exists (filter (λ p, p.1 ≠ "Other") (type_sorted df)),
         (filter (λ p, p.1 = "Other") (type_sorted df)).
  split_and!; [done|..].
  - apply Forall_forall. by intros p [? _]%list_elem_of_filter.
  - apply StronglySorted_filter, sort_values_sorted.
  - apply Forall_forall. by intros p [? _]%list_elem_of_filter.
  - intros Hnil.
    assert (("Other", type_other_count df)
            ∈ filter (λ p, p.1 = "Other") (type_sorted df)) as Hin.
    { apply list_elem_of_filter. split; [done|].
      rewrite type_sorted_perm, elem_of_app. right. apply list_elem_of_here. }
    rewrite Hnil in Hin. by apply elem_of_nil in Hin.
Qed.

End by_type_properties.

(** The selection is made of rows of the latest year. *)
Lemma latest_gender_age_Forall (P : row → Prop) df gender age :
  Forall P df → Forall P (latest_gender_age df gender age).
Proof.
  intros Hdf. unfold latest_gender_age.
  repeat case_decide; by repeat apply Forall_filter.
Qed.

#[global] Instance latest_gender_age_Permutation :
  Proper ((≡ₚ) ==> (=) ==> (=) ==> (≡ₚ)) latest_gender_age.
Proof.
  intros df df' Hp gender ? <- age ? <-. unfold latest_gender_age.
  repeat case_decide; by rewrite Hp.
Qed.

Section selector_properties.
Implicit Types (df : list row) (gender age : string).

(** C3 (functional): the gender selector has no effect once an age group is
    chosen: line 39 filters [df_latest] again and overwrites the result of
    line 37. *)
Theorem latest_gender_age_ignores_gender df gender age :
  age ≠ "All" →
  latest_gender_age df gender age = filter (λ r, Age r = age) df.
Proof. intros Hage. unfold latest_gender_age. by repeat case_decide. Qed.

(** What the selectors select, on every branch: with an
    age group chosen the rows of that age group, whatever the gender; with
    no age group the rows of the chosen gender; with neither, every row. *)
Theorem latest_gender_age_cases df gender age :
  latest_gender_age df gender age =
    if decide (age = "All") then
      if decide (gender = "All") then df else filter (λ r, Gender r = gender) df
    else filter (λ r, Age r = age) df.
Proof. unfold latest_gender_age. by repeat case_decide. Qed.

End selector_properties.

(** * Witnesses on concrete tables *)

Example scenario_chart :
  (λ r, (cName r, cCount r, cSort r))
  <$> df_chart (latest_gender_age scenario "All" "40 - 44")
  = [("Lung", 15, 15); ("Skin", 3, 3); ("Other", 0, -1)].
Proof. vm_compute. reflexivity. Qed.

Example eleven_types_chart :
  (λ r, (cName r, cCount r, cSort r)) <$> pie_order eleven_types
  = [("A", 50, 50); ("B", 45, 45); ("C", 40, 40); ("D", 35, 35);
     ("E", 30, 30); ("F", 25, 25); ("G", 20, 20); ("H", 15, 15);
     ("I", 10, 10); ("Other", 5, 4)].
Proof. vm_compute. reflexivity. Qed.

Lemma top_dominates_witness : 3 ≤ 50.
Proof.
  apply (top_dominates eleven_types ("A", 50) ("J", 3));
    apply (bool_decide_unpack _); vm_compute; exact I.
Defined.

Lemma pie_other_last_witness : (1 < 2)%nat.
Proof.
  apply (pie_other_last scenario 1 2
           (ChartRow "Skin" 3 3 (true_div 3 18))
           (ChartRow "Other" 0 (-1) (true_div 0 18)));
    [reflexivity|reflexivity|discriminate|reflexivity].
Defined.

Lemma chart_percentages_witness :
  fsum (cPercentage <$> df_chart scenario) ≡ Fin 1.
Proof. apply chart_percentages. vm_compute. discriminate. Defined.

Lemma chart_percentages_nan_witness :
  cPercentage (ChartRow "Other" 0 (-1) NaN) = NaN.
Proof.
  apply (chart_percentages_nan []); [constructor|reflexivity|].
  change (df_chart []) with [ChartRow "Other" 0 (-1) NaN].
  apply list_elem_of_here.
Defined.

(** With gender "Male" and age group "40 - 44" the selection of the scenario
    still holds the row of the other gender. *)
Lemma latest_gender_age_ignores_gender_witness :
  latest_gender_age scenario "Male" "40 - 44"
  = filter (λ r, Age r = "40 - 44") scenario
  ∧ Row 2020 "Female" "40 - 44" "Lung" 5
    ∈ latest_gender_age scenario "Male" "40 - 44".
Proof.
  split; [apply latest_gender_age_ignores_gender; discriminate|].
  apply (bool_decide_unpack _). vm_compute. exact I.
Defined.
