(* ===== verification/Views.v ===== *)
(** * Views: the base tables and the charts by year, gender and age group

    - [df_after_2003], [df_latest]: [src/main.py] lines 21-22;
    - [df_year]: line 66;
    - [year_gender_counts], [df_year_gender]: lines 78 and 91-92;
    - [df_gender]: lines 103-104;
    - [categorical], [df_age]: lines 115-119.

    [df_latest] raises on an empty table ([max] of nothing); [df_age] raises
    when [extract_lower_bound] refuses a label. *)

From Stdlib Require Import QArith.
From S2P Require Import Prelude PyStr Frame AgeGroup.

#[local] Open Scope string_scope.
#[local] Open Scope list_scope.
#[local] Open Scope Z_scope.

(** * Definitions *)

(** Line 21. *)
Definition df_after_2003 (df_all : list row) : list row :=
  filter (λ r, 2003 < Year r) df_all.

(** Line 22: the rows of the largest year of the table. *)
Definition df_latest (df_all : list row) : result (list row) :=
  latest ← py_max (Year <$> df_all);
  Ok (filter (λ r, Year r = latest) df_all).

(** Line 66. *)
Definition df_year (df_all : list row) : list (Z * Z) :=
  groupby_sum Year Count (df_after_2003 df_all).

(** Line 78. *)
Definition year_gender_counts (df_all : list row) : list (Z * string * Z) :=
  groupby_sum (λ r, (Year r, Gender r)) Count (df_after_2003 df_all).

(** A row of [df_year_gender] after lines 91-92. *)
Record year_gender_row : Type := YearGenderRow {
  ygYear : Z;
  ygGender : string;
  ygCount : Z;
  ygTotal : Z;
  ygPercentage : fval;
}.

(** Lines 91-92: each row gets the total of its year and its share of it. *)
Definition df_year_gender (df_all : list row) : list year_gender_row :=
  let counts := year_gender_counts df_all in
  let totals := transform_sum (λ p, p.1.1) snd counts in
  zip_with
    (λ p total, {| ygYear := p.1.1; ygGender := p.1.2; ygCount := p.2;
                   ygTotal := total; ygPercentage := true_div p.2 total |})
    counts totals.

(** A row of [df_gender]. *)
Record gender_row : Type := GenderRow {
  gGender : string;
  gCount : Z;
  gPercentage : fval;
}.

(** Lines 103-104. *)
Definition df_gender (df_latest : list row) : list gender_row :=
  let counts := groupby_sum Gender Count df_latest in
  let total := zsum counts.*2 in
  (λ p, {| gGender := p.1; gCount := p.2; gPercentage := true_div p.2 total |})
  <$> counts.

(** Line 118: [pd.Categorical(values, categories=...)] refuses categories
    that are not unique. *)
Definition categorical (values categories : list string) : result (list string) :=
  if decide (NoDup categories) then Ok values
  else raise ValueError("Categorical categories must be unique").

Section by_age.
Context `{Sorter}.

(** Lines 115-119: counts by age group, in increasing order of the bound;
    the bound is dropped at the end. *)
Definition df_age (df_latest : list row) : result (list (string * Z)) :=
  let counts := groupby_sum Age Count df_latest in
  bounds ← mapM extract_lower_bound counts.*1;
  let sorted := (sort_values snd true (zip counts bounds)).*1 in
  ages ← categorical sorted.*1 sorted.*1;
  Ok (zip ages sorted.*2).

End by_age.

(** * Lemmas *)

(** ** The views of a reordered table *)

#[global] Instance df_after_2003_Permutation : Proper ((≡ₚ) ==> (≡ₚ)) df_after_2003.
Proof. intros df df' Hp. unfold df_after_2003. by rewrite Hp. Qed.

#[global] Instance df_year_Permutation : Proper ((≡ₚ) ==> (=)) df_year.
Proof. intros df df' Hp. unfold df_year. by rewrite Hp. Qed.

#[global] Instance year_gender_counts_Permutation :
  Proper ((≡ₚ) ==> (=)) year_gender_counts.
Proof. intros df df' Hp. unfold year_gender_counts. by rewrite Hp. Qed.

#[global] Instance df_year_gender_Permutation : Proper ((≡ₚ) ==> (=)) df_year_gender.
Proof.
  intros df df' Hp. unfold df_year_gender.
  by rewrite (year_gender_counts_Permutation _ _ Hp).
Qed.

#[global] Instance df_gender_Permutation : Proper ((≡ₚ) ==> (=)) df_gender.
Proof.
  intros df df' Hp. unfold df_gender.
  by rewrite (groupby_sum_Permutation Gender Count _ _ Hp).
Qed.

#[global] Instance df_age_Permutation `{Sorter} : Proper ((≡ₚ) ==> (=)) df_age.
Proof.
  intros df df' Hp. unfold df_age.
  by rewrite (groupby_sum_Permutation Age Count _ _ Hp).
Qed.

(** The latest year is the same; its rows come in the order of the table. *)
Lemma df_latest_Permutation df df' :
  df ≡ₚ df' → result_rel (≡ₚ) (df_latest df) (df_latest df').
Proof.
  intros Hp. unfold df_latest.
  rewrite (py_max_Permutation (Year <$> df) (Year <$> df')) by by rewrite Hp.
  destruct (py_max _); simpl; [by rewrite Hp|done].
Qed.

(** ** The views one by one *)

Lemma df_after_2003_year df_all y :
  filter (λ r, Year r = y) (df_after_2003 df_all)
  = if decide (2003 < y) then filter (λ r, Year r = y) df_all else [].
Proof. apply (filter_key_mask Year (λ y, 2003 < y)). Qed.

Lemma year_gender_counts_year df_all y :
  zsum (filter (λ p, p.1.1 = y) (year_gender_counts df_all)).*2
  = zsum (Count <$> filter (λ r, Year r = y) (df_after_2003 df_all)).
Proof.
  unfold year_gender_counts.
  exact (groupby_sum_mask_total (λ r, (Year r, Gender r)) Count
           (λ k, k.1 = y) (df_after_2003 df_all)).
Qed.

Lemma df_year_gender_fmap df_all :
  df_year_gender df_all
  = (λ p, let total := zsum (filter (λ q, q.1.1 = p.1.1)
                               (year_gender_counts df_all)).*2 in
          YearGenderRow p.1.1 p.1.2 p.2 total (true_div p.2 total))
    <$> year_gender_counts df_all.
Proof.
  unfold df_year_gender, transform_sum.
  by rewrite zip_with_fmap_r, zip_with_diag.
Qed.

(** The rows of the latest year are rows of the table. *)
Lemma df_latest_Forall (P : row → Prop) df_all latest_rows :
  df_latest df_all = Ok latest_rows → Forall P df_all → Forall P latest_rows.
Proof.
  unfold df_latest. intros (latest & _ & [= <-])%bind_Ok Hall.
  apply Forall_forall. intros r [_ Hr]%list_elem_of_filter.
  by eapply Forall_forall in Hall.
Qed.

(** The table by gender conserves the total of the latest year. *)
Lemma df_gender_zsum df_latest_rows :
  zsum (gCount <$> df_gender df_latest_rows) = zsum (Count <$> df_latest_rows).
Proof.
  unfold df_gender. rewrite <-list_fmap_compose.
  apply (groupby_sum_zsum Gender Count).
Qed.

(** With non-negative counts the Percentage columns hold shares. *)
Lemma df_gender_shares df_latest_rows :
  Forall (λ r, 0 ≤ Count r) df_latest_rows →
  Forall (λ x, is_share (gPercentage x)) (df_gender df_latest_rows).
Proof.
  intros Hnn%(groupby_sum_nonneg Gender Count). unfold df_gender.
  apply Forall_fmap, Forall_forall. intros p Hp. simpl.
  apply true_div_share_zsum; [by apply Forall_fmap|by apply list_elem_of_fmap_2].
Qed.

Lemma df_year_gender_shares df_all :
  Forall (λ r, 0 ≤ Count r) df_all →
  Forall (λ x, is_share (ygPercentage x)) (df_year_gender df_all).
Proof.
  intros Hnn. rewrite df_year_gender_fmap.
  apply Forall_fmap, Forall_forall. intros p Hp. simpl.
  apply true_div_share_zsum.
  - apply Forall_fmap, Forall_filter.
    apply (groupby_sum_nonneg (λ r, (Year r, Gender r)) Count).
    unfold df_after_2003. by apply Forall_filter.
  - apply list_elem_of_fmap_2. by apply list_elem_of_filter.
Qed.

(** * Properties *)

(** [df_latest] is built exactly when the table has a row; on an empty
    table line 22 raises the [ValueError] of [max]. *)
Lemma df_latest_Ok_iff df_all :
  (is_Ok (df_latest df_all) ↔ df_all ≠ [])
  ∧ (df_all = [] →
     df_latest df_all = raise ValueError("max() arg is an empty sequence")).
Proof.
  unfold df_latest. destruct df_all as [|r df]; simpl.
  - split; [|done]. split; [by intros [? ?]|done].
  - split; [|done]. split; [done|]. intros _. by eexists.
Qed.

(** [df_latest] holds the rows of one year, which is a year
    of the table and the largest one, and it is not empty. *)
Theorem df_latest_spec df_all latest_rows :
  df_latest df_all = Ok latest_rows →
  ∃ latest, latest ∈ Year <$> df_all
    ∧ Forall (λ r, Year r ≤ latest) df_all
    ∧ latest_rows = filter (λ r, Year r = latest) df_all
    ∧ latest_rows ≠ [].
Proof.
  unfold df_latest. intros (latest & [Hin Hmax]%py_max_spec & [= <-])%bind_Ok.
  exists latest. rewrite Forall_fmap in Hmax. split_and!; [done|exact Hmax|done|].
  apply list_elem_of_fmap in Hin as (r & -> & Hr). intros Hnil.
  assert (r ∈ filter (λ r', Year r' = Year r) df_all) as Hin
    by by apply list_elem_of_filter.
  rewrite Hnil in Hin. by apply elem_of_nil in Hin.
Qed.

(** C29 (functional): the table by year has one row for each year after 2003
    that occurs in the data, holding the sum of the counts of that year. *)
Theorem df_year_spec df_all y c :
  (y, c) ∈ df_year df_all ↔
  2003 < y ∧ y ∈ Year <$> df_all
  ∧ c = zsum (Count <$> filter (λ r, Year r = y) df_all).
Proof.
  unfold df_year. rewrite groupby_sum_elem_of, df_after_2003_year.
  unfold df_after_2003. rewrite !list_elem_of_fmap.
  setoid_rewrite list_elem_of_filter. split.
  - intros [(r & -> & Hr & ?) ->]. rewrite decide_True by done. by eauto.
  - intros (Hy & (r & -> & ?) & ->). rewrite decide_True by done. by eauto.
Qed.

(** The years of the table by year are strictly increasing:
    the chart shows them from left to right in order. *)
Theorem df_year_sorted df_all : StronglySorted Z.lt (df_year df_all).*1.
Proof.
  pose proof (groupby_sum_keys_sorted Year Count (df_after_2003 df_all)) as Hs.
  unfold keys_sorted in Hs. fold (df_year df_all) in Hs.
  induction Hs as [|y ys _ IH Hy]; constructor; [done|].
  eapply Forall_impl; [done|]. intros y' [Hle Hne]. simpl in *. lia.
Qed.

(** C30 (invariant): in the table by year and gender, the Total of a row is
    the count of its year in the table by year: the two charts agree. *)
Theorem df_year_gender_total df_all x :
  x ∈ df_year_gender df_all → (ygYear x, ygTotal x) ∈ df_year df_all.
Proof.
  rewrite df_year_gender_fmap. intros ([[y g] c] & -> & Hp)%list_elem_of_fmap.
  simpl. unfold df_year. apply groupby_sum_elem_of.
  rewrite year_gender_counts_year. split; [|done].
  apply groupby_sum_elem_of in Hp as [(r & [= -> ->] & Hr)%list_elem_of_fmap _].
  by apply list_elem_of_fmap_2.
Qed.

(** C31 (functional): for a year with a non-zero total, the Percentage column
    of the rows of that year adds up to one (the normalised stack is full). *)
Theorem df_year_gender_percentages df_all y total :
  (y, total) ∈ df_year df_all → total ≠ 0 →
  fsum (ygPercentage <$> filter (λ x, ygYear x = y) (df_year_gender df_all))
  ≡ Fin 1.
Proof.
  intros [_ ->]%groupby_sum_elem_of Htotal. fold (df_after_2003 df_all) in Htotal.
  rewrite <-year_gender_counts_year in Htotal.
  rewrite df_year_gender_fmap, filter_fmap, <-list_fmap_compose.
  rewrite <-(fsum_true_div_total _ Htotal), <-list_fmap_compose.
  apply reflexive_eq. f_equal. apply Forall_fmap_ext_1, Forall_forall.
  intros p [Hp _]%list_elem_of_filter. simpl in *. by rewrite Hp.
Qed.

(** C32 (functional): when the latest year has a case, the Percentage column
    of the table by gender adds up to one, and its counts add up to the
    total of the latest year. *)
Theorem df_gender_percentages df_latest_rows :
  zsum (Count <$> df_latest_rows) ≠ 0 →
  fsum (gPercentage <$> df_gender df_latest_rows) ≡ Fin 1
  ∧ zsum (gCount <$> df_gender df_latest_rows) = zsum (Count <$> df_latest_rows).
Proof.
  intros Ht. split; [|apply df_gender_zsum].
  unfold df_gender. rewrite <-list_fmap_compose.
  rewrite <-(groupby_sum_zsum Gender Count) in Ht.
  by rewrite <-(fsum_true_div_total _ Ht), <-list_fmap_compose.
Qed.

Section by_age_properties.
Context `{Sorter}.
Implicit Types (df : list row) (l : list (string * Z)).

(** What [df_age] returns when it returns: the sorted table of
    (row, bound) pairs, without the bounds. *)
Lemma df_age_Ok df l :
  df_age df = Ok l ↔
  ∃ bounds,
    Forall2 (λ p b, extract_lower_bound p.1 = Ok b) (groupby_sum Age Count df) bounds
    ∧ l = (sort_values snd true (zip (groupby_sum Age Count df) bounds)).*1.
Proof.
  unfold df_age, categorical. split.
  - intros (bounds & Hb%mapM_Ok & Hl)%bind_Ok. exists bounds.
    apply Forall2_fmap_l in Hb. split; [done|].
    case_decide; simpl in Hl; [|done]. injection Hl as <-. apply zip_fst_snd.
  - intros (bounds & Hb & ->).
    rewrite (proj2 (mapM_Ok _ _ bounds)) by by apply Forall2_fmap_l.
    cbn [mbind result_bind]. rewrite decide_True.
    { cbn [mbind result_bind]. by rewrite zip_fst_snd. }
    rewrite sort_values_perm, (proj2 (Forall2_zip _ _ _ Hb)).
    apply groupby_sum_NoDup.
Qed.

(** C11 (functional): the table by age group holds the groups of
    [groupby('Age')], reordered so that the lower bounds of the labels
    increase from the first row to the last. *)
Theorem df_age_spec df l :
  df_age df = Ok l →
  l ≡ₚ groupby_sum Age Count df
  ∧ ∀ i j p q bp bq,
      l !! i = Some p → l !! j = Some q → (i ≤ j)%nat →
      extract_lower_bound p.1 = Ok bp → extract_lower_bound q.1 = Ok bq →
      bp ≤ bq.
Proof.
  intros (bounds & Hb & ->)%df_age_Ok.
  destruct (Forall2_zip _ _ _ Hb) as [Hall Hfst].
  split; [by rewrite sort_values_perm, Hfst|].
  intros i j p q bp bq Hi Hj Hij Hp Hq.
  apply list_lookup_fmap_Some in Hi as ([p' bp'] & -> & Hi).
  apply list_lookup_fmap_Some in Hj as ([q' bq'] & -> & Hj).
  assert (∀ k x, sort_values snd true (zip (groupby_sum Age Count df) bounds)
                   !! k = Some x → extract_lower_bound x.1.1 = Ok x.2) as Hbound.
  { intros k x Hk%list_elem_of_lookup_2%sort_values_elem_of.
    by eapply Forall_forall in Hall. }
  apply Hbound in Hi as Hi', Hj as Hj'. simpl in *.
  assert (bp' = bp) as -> by congruence. assert (bq' = bq) as -> by congruence.
  destruct (decide (bp ≤ bq)) as [|Hlt]; [done|].
  assert (¬ key_ord snd true (p', bp) (q', bq)) as Hord by done.
  pose proof (sort_values_lookup_lt snd true _ _ _ _ _ Hj Hi Hord). lia.
Qed.

(** The labels of the table by age group are those of the rows, each
    once. *)
Lemma df_age_labels df l :
  df_age df = Ok l → NoDup l.*1 ∧ ∀ a, a ∈ l.*1 ↔ a ∈ Age <$> df.
Proof.
  intros (bounds & Hb & ->)%df_age_Ok.
  assert ((sort_values snd true (zip (groupby_sum Age Count df) bounds)).*1
          ≡ₚ groupby_sum Age Count df) as Hp
    by by rewrite sort_values_perm, (proj2 (Forall2_zip _ _ _ Hb)).
  split; [rewrite Hp; apply groupby_sum_NoDup|].
  intros a. by rewrite Hp, groupby_sum_keys.
Qed.

(** The bounds of its labels, in the order of the table, never decrease. *)
Lemma df_age_bounds df l :
  df_age df = Ok l →
  ∃ bounds, Forall2 (λ p b, extract_lower_bound p.1 = Ok b) l bounds
    ∧ StronglySorted Z.le bounds.
Proof.
  intros (bounds & Hb & ->)%df_age_Ok.
  destruct (sort_values_zip_bounds (λ p, extract_lower_bound p.1) _ _ Hb) as [Hf Hs].
  by eexists.
Qed.

(** The labels of the table by age group are sorted by [bound_le]. *)
Lemma df_age_sorted df l : df_age df = Ok l → StronglySorted bound_le l.*1.
Proof. intros (bounds & Hb & Hs)%df_age_bounds. by eapply bounds_sorted. Qed.

(** The table by age group is built exactly when every age label of its
    rows has a bound; line 118 never raises, because grouping leaves no
    label twice. *)
Lemma df_age_Ok_iff df :
  is_Ok (df_age df) ↔ Forall (λ r, is_Ok (extract_lower_bound (Age r))) df.
Proof.
  split.
  - intros [l (bounds & Hb & _)%df_age_Ok]. apply Forall_forall. intros r Hr.
    assert (Age r ∈ (groupby_sum Age Count df).*1) as ([a c] & Ha & Hin)%list_elem_of_fmap
      by by apply groupby_sum_keys, list_elem_of_fmap_2.
    apply list_elem_of_lookup in Hin as [i Hi].
    destruct (Forall2_lookup_l _ _ _ _ _ Hb Hi) as (b & _ & Hbound).
    simpl in *. subst. by exists b.
  - intros Hdf.
    destruct (mapM_total extract_lower_bound (groupby_sum Age Count df).*1)
      as [bounds Hb].
    { apply Forall_forall. intros a (r & -> & Hr)%groupby_sum_keys%list_elem_of_fmap.
      by eapply Forall_forall in Hdf. }
    eexists. apply df_age_Ok. exists bounds. split; [|done].
    apply mapM_Ok in Hb. by apply Forall2_fmap_l in Hb.
Qed.

(** The table by age group conserves the total of the latest year. *)
Lemma df_age_total df l :
  df_age df = Ok l → zsum l.*2 = zsum (Count <$> df).
Proof.
  intros (bounds & Hb & ->)%df_age_Ok.
  destruct (Forall2_zip _ _ _ Hb) as [_ Hfst].
  rewrite <-(groupby_sum_zsum Age Count df).
  apply zsum_Permutation, fmap_Permutation. by rewrite sort_values_perm, Hfst.
Qed.

End by_age_properties.

Example views_sample :
  df_year sample_rows = [(2019, 7); (2020, 18)]
  ∧ (λ x, (ygYear x, ygGender x, ygCount x, ygTotal x))
    <$> df_year_gender sample_rows
    = [(2019, "Female", 7, 7); (2020, "Female", 5, 18); (2020, "Male", 13, 18)]
  ∧ ((λ x, (gGender x, gCount x)) <$> df_gender sample_rows)
    = [("Female", 12); ("Male", 13)]
  ∧ df_age sample_rows = Ok [("0 - 4", 3); ("40 - 44", 15); ("85+", 7)].
Proof. repeat split; vm_compute; reflexivity. Qed.

Lemma df_latest_spec_witness :
  ∃ latest, latest ∈ Year <$> sample_rows
    ∧ Forall (λ r, Year r ≤ latest) sample_rows
    ∧ [Row 2020 "Male" "40 - 44" "Lung" 10; Row 2020 "Female" "40 - 44" "Lung" 5;
       Row 2020 "Male" "0 - 4" "Skin" 3]
      = filter (λ r, Year r = latest) sample_rows
    ∧ [Row 2020 "Male" "40 - 44" "Lung" 10; Row 2020 "Female" "40 - 44" "Lung" 5;
       Row 2020 "Male" "0 - 4" "Skin" 3] ≠ [].
Proof. apply (df_latest_spec sample_rows). vm_compute. reflexivity. Defined.

Lemma df_year_gender_total_witness : (2019, 7) ∈ df_year sample_rows.
Proof.
  apply (df_year_gender_total sample_rows
           (YearGenderRow 2019 "Female" 7 7 (true_div 7 7))).
  apply (list_elem_of_lookup_2 _ 0%nat). vm_compute. reflexivity.
Defined.

Lemma df_year_gender_percentages_witness :
  fsum (ygPercentage
          <$> filter (λ x, ygYear x = 2020) (df_year_gender sample_rows))
  ≡ Fin 1.
Proof.
  apply (df_year_gender_percentages sample_rows 2020 18); [|done].
  apply (list_elem_of_lookup_2 _ 1%nat). vm_compute. reflexivity.
Defined.

Lemma df_gender_percentages_witness :
  fsum (gPercentage <$> df_gender sample_rows) ≡ Fin 1
  ∧ zsum (gCount <$> df_gender sample_rows) = zsum (Count <$> sample_rows).
Proof. apply (df_gender_percentages sample_rows). by vm_compute. Defined.

Lemma df_age_spec_witness :
  [("0 - 4", 3); ("40 - 44", 15); ("85+", 7)]
    ≡ₚ groupby_sum Age Count sample_rows
  ∧ ∀ i j p q bp bq,
      [("0 - 4", 3); ("40 - 44", 15); ("85+", 7)] !! i = Some p →
      [("0 - 4", 3); ("40 - 44", 15); ("85+", 7)] !! j = Some q → (i ≤ j)%nat →
      extract_lower_bound p.1 = Ok bp → extract_lower_bound q.1 = Ok bq →
      bp ≤ bq.
Proof.
  apply (df_age_spec (H:=merge_sorter) sample_rows). vm_compute. reflexivity.
Defined.
