(* ===== verification/Dashboard.v ===== *)
(** * Dashboard: one run of the script

    Streamlit runs [src/main.py] from its first line to its last each time a
    selector changes.  [run] is that run as a function of the table read at
    line 15 and of the two selected values: the statements that can raise
    (lines 22, 31 and 116-118) are bound in the order of the script, the
    others are the tables of the files [TopN] and [Views].  An exception
    aborts the run at the statement that raises it; the charts before it
    have been drawn, the charts after it are not.

    The theorems here are about the whole run: when it ends without an
    exception and which exception ends it otherwise, that the charts of the
    latest year agree on its total, that the selectors change the pie and
    nothing else, that the order of the rows of the file does not show in
    the tables ([run_Permutation]), that every Percentage is a share of its
    total ([run_shares]), and that the chart by age group follows the order
    of the age selector ([run_age_order]). *)

From Stdlib Require Import QArith.
From S2P Require Import Prelude PyStr Frame AgeGroup TopN Views.

#[local] Open Scope string_scope.
#[local] Open Scope list_scope.
#[local] Open Scope Z_scope.

(** * Definitions *)

(** The tables handed to the selectors and the charts, in the order of the
    script. *)
Record dashboard : Type := Dashboard {
  age_choices : list string;              (* line 33 *)
  pie : list chart_row;                   (* lines 57-63, in drawing order *)
  by_year : list (Z * Z);                 (* line 68 *)
  by_year_gender : list year_gender_row;  (* lines 80 and 94 *)
  by_gender : list gender_row;            (* line 107 *)
  by_age : list (string * Z);             (* line 122 *)
  by_type : list (string * Z);            (* line 136 *)
}.

Section script.
Context `{Sorter}.

(** Lines 21-133 for the selected [gender] and [age]. *)
Definition run (df_all : list row) (gender age : string) : result dashboard :=
  latest ← df_latest df_all;
  options ← age_options df_all;
  let df_latest_gender_age := latest_gender_age latest gender age in
  let df_chart := pie_order df_latest_gender_age in
  let df_year := df_year df_all in
  let df_year_gender := df_year_gender df_all in
  let df_gender := df_gender latest in
  df_age ← df_age latest;
  let df_type := df_type latest in
  Ok {| age_choices := options; pie := df_chart; by_year := df_year;
        by_year_gender := df_year_gender; by_gender := df_gender;
        by_age := df_age; by_type := df_type |}.

End script.

(** Two runs show the same dashboard: the same tables behind the charts and
    the same age choices, possibly in another order. *)
Definition same_dashboard (d d' : dashboard) : Prop :=
  age_choices d ≡ₚ age_choices d'
  ∧ pie d = pie d' ∧ by_year d = by_year d'
  ∧ by_year_gender d = by_year_gender d' ∧ by_gender d = by_gender d'
  ∧ by_age d = by_age d' ∧ by_type d = by_type d'.

(** * Lemmas *)

Section script_lemmas.
Context `{Sorter}.
Implicit Types (df_all : list row) (gender age : string) (d : dashboard).

(** A run that ends is the tables of its three fallible steps. *)
Lemma run_Ok df_all gender age d :
  run df_all gender age = Ok d ↔
  ∃ latest options ages,
    df_latest df_all = Ok latest ∧ age_options df_all = Ok options
    ∧ df_age latest = Ok ages
    ∧ d = Dashboard options (pie_order (latest_gender_age latest gender age))
            (df_year df_all) (df_year_gender df_all) (df_gender latest)
            ages (df_type latest).
Proof.
  unfold run. split.
  - intros (latest & ? & (options & ? & (ages & ? & [= <-])%bind_Ok)%bind_Ok)%bind_Ok.
    by exists latest, options, ages.
  - intros (latest & options & ages & -> & -> & Hages & ->). simpl.
    by rewrite Hages.
Qed.

(** Once the age selector has been built from all rows, the table by age
    group of the latest year cannot fail. *)
Lemma df_age_after_options df_all latest :
  df_latest df_all = Ok latest → is_Ok (age_options df_all) →
  is_Ok (df_age latest).
Proof.
  intros Hlatest Hopt%age_options_is_Ok%agegroups_Ok_iff.
  by eapply df_age_Ok_iff, df_latest_Forall.
Qed.

End script_lemmas.

(** * Properties *)

Section script_properties.
Context `{Sorter}.
Implicit Types (df_all : list row) (gender age : string) (d : dashboard).

(** C5 (safety): the run ends without an exception exactly when the table
    has a row and every age label of the table has a lower bound; the
    selected values play no part. *)
Theorem run_Ok_iff df_all gender age :
  is_Ok (run df_all gender age) ↔
  df_all ≠ [] ∧ Forall (λ r, is_Ok (extract_lower_bound (Age r))) df_all.
Proof.
  split.
  - intros [d (latest & options & ages & Hl & Ho & _)%run_Ok]. split.
    + apply df_latest_Ok_iff. by eexists.
    + apply agegroups_Ok_iff, age_options_is_Ok. by eexists.
  - intros [Hne Hall].
    apply (proj1 (df_latest_Ok_iff df_all)) in Hne as [latest Hl].
    apply agegroups_Ok_iff, age_options_is_Ok in Hall as Ho.
    destruct (df_age_after_options _ _ Hl Ho) as [ages Ha].
    destruct Ho as [options Ho]. eexists. apply run_Ok. by eauto 10.
Qed.

(** The exception that ends a run.  On an empty table it is the
    [ValueError] of [max] at line 22; on a table with a row and an age label
    without a bound it is the [ValueError] of [int] at line 31.  Lines
    116-118 never raise. *)
Theorem run_raises df_all gender age :
  (df_all = [] →
   run df_all gender age = raise ValueError("max() arg is an empty sequence"))
  ∧ (df_all ≠ [] →
     ¬ Forall (λ r, is_Ok (extract_lower_bound (Age r))) df_all →
     run df_all gender age
     = raise ValueError("invalid literal for int() with base 10")).
Proof.
  split; [by intros ->|]. intros Hne Hbad.
  apply (proj1 (df_latest_Ok_iff df_all)) in Hne as [latest Hl].
  unfold run. rewrite Hl. simpl.
  destruct (age_options df_all) as [options|e] eqn:Ho.
  - destruct Hbad. apply agegroups_Ok_iff, age_options_is_Ok. by eexists.
  - by apply age_options_Raise in Ho as ->.
Qed.

(** C7 (invariant): the three charts of the latest year show the same
    number of cases, the total of the latest year; the pie shows the total
    of the selected rows. *)
Theorem run_totals df_all gender age d :
  run df_all gender age = Ok d →
  ∃ latest, df_latest df_all = Ok latest
    ∧ zsum (gCount <$> by_gender d) = zsum (Count <$> latest)
    ∧ zsum (by_age d).*2 = zsum (Count <$> latest)
    ∧ zsum (by_type d).*2 = zsum (Count <$> latest)
    ∧ zsum (cCount <$> pie d)
      = zsum (Count <$> latest_gender_age latest gender age).
Proof.
  intros (latest & options & ages & Hl & _ & Ha & ->)%run_Ok. simpl.
  exists latest. split_and!; [done|..].
  - apply df_gender_zsum.
  - by eapply df_age_total.
  - apply df_type_zsum.
  - unfold pie_order. by rewrite sort_values_perm, df_chart_counts, chart_base_total.
Qed.

(** C27 (functional): the selectors change the pie and nothing else: two runs
    on the same table differ at most in the pie. *)
Theorem run_selectors df_all gender age gender' age' d d' :
  run df_all gender age = Ok d → run df_all gender' age' = Ok d' →
  age_choices d = age_choices d' ∧ by_year d = by_year d'
  ∧ by_year_gender d = by_year_gender d' ∧ by_gender d = by_gender d'
  ∧ by_age d = by_age d' ∧ by_type d = by_type d'.
Proof.
  intros (latest & options & ages & Hl & Ho & Ha & ->)%run_Ok.
  intros (latest' & options' & ages' & Hl' & Ho' & Ha' & ->)%run_Ok.
  rewrite Hl in Hl'. rewrite Ho in Ho'. simplify_eq.
  rewrite Ha in Ha'. by simplify_eq.
Qed.

(** C28 (bounds): with no age group selected and non-negative counts, the pie
    never shows more cases than the latest year has, and shows all of them
    when no gender is selected either. *)
Theorem run_pie_bounds df_all gender d :
  Forall (λ r, 0 ≤ Count r) df_all →
  run df_all gender "All" = Ok d →
  0 ≤ zsum (cCount <$> pie d) ≤ zsum (gCount <$> by_gender d)
  ∧ (gender = "All" → zsum (cCount <$> pie d) = zsum (gCount <$> by_gender d)).
Proof.
  intros Hnn (latest & options & ages & Hl & _ & _ & ->)%run_Ok. simpl.
  apply (df_latest_Forall _ _ _ Hl) in Hnn.
  unfold pie_order.
  rewrite sort_values_perm, df_chart_counts, chart_base_total, df_gender_zsum.
  unfold latest_gender_age.
  destruct (decide ("All" ≠ "All")) as [Hn|_]; [by destruct Hn|].
  destruct (decide (gender ≠ "All")) as [Hg|Hg].
  - split; [by apply zsum_filter_le|]. intros ->. by destruct Hg.
  - split; [|done]. split; [|lia]. by apply zsum_nonneg, Forall_fmap.
Qed.

(** C15 (bounds): with non-negative counts every Percentage a run hands to a
    chart (in the pie, in the table by year and gender and in the table by
    gender) is a share: a number between 0 and 1, or NaN where the total
    is zero, and never an infinity. *)
Theorem run_shares df_all gender age d :
  Forall (λ r, 0 ≤ Count r) df_all →
  run df_all gender age = Ok d →
  Forall (λ x, is_share (cPercentage x)) (pie d)
  ∧ Forall (λ x, is_share (ygPercentage x)) (by_year_gender d)
  ∧ Forall (λ x, is_share (gPercentage x)) (by_gender d).
Proof.
  intros Hnn (latest & options & ages & Hl & _ & _ & ->)%run_Ok. simpl.
  apply (df_latest_Forall _ _ _ Hl) in Hnn as Hlatest.
  split_and!.
  - unfold pie_order. rewrite sort_values_perm.
    by apply df_chart_shares, latest_gender_age_Forall.
  - by apply df_year_gender_shares.
  - by apply df_gender_shares.
Qed.

(** C14 (functional): the chart by age group and the age selector agree on
    the order of the age groups.  When no two age labels of the file have
    the same lower bound, the labels of the table by age group, in the
    order of the table, are picked in that order from the options of the
    selector. *)
Theorem run_age_order df_all gender age d :
  (∀ a b, a ∈ Age <$> df_all → b ∈ Age <$> df_all →
          extract_lower_bound a = extract_lower_bound b → a = b) →
  run df_all gender age = Ok d →
  (by_age d).*1 `sublist_of` age_choices d.
Proof.
  intros Hinj (latest & options & ages & Hl & Ho & Ha & ->)%run_Ok. simpl.
  unfold age_options in Ho. apply bind_Ok in Ho as (groups & Hg & [= <-]).
  pose proof (agegroups_labels _ _ Hg) as Hlabels.
  destruct (df_age_labels _ _ Ha) as [Hnd Hin].
  apply sublist_cons, (sorted_sublist bound_le);
    [|done|by eapply df_age_sorted|by eapply agegroups_sorted|].
  - intros x y Hx Hy (bx & by' & Hbx & Hby & ?) (by'' & bx' & Hby' & Hbx' & ?).
    rewrite Hlabels, unique_elem_of in Hx, Hy. apply Hinj; [done..|].
    rewrite Hbx in Hbx'. rewrite Hby in Hby'. simplify_eq.
    rewrite Hbx, Hby. f_equal. lia.
  - intros a Ha'%Hin. rewrite Hlabels, unique_elem_of.
    apply list_elem_of_fmap in Ha' as (r & -> & Hr). apply list_elem_of_fmap_2.
    assert (Forall (λ r, r ∈ df_all) latest) as Hsub
      by (apply (df_latest_Forall _ _ _ Hl), Forall_forall; auto).
    by eapply Forall_forall in Hsub.
Qed.

(** C12 (equivalence): the dashboard does not depend on the order of the
    rows of the file.  Two tables with the same rows give runs that both
    raise or both end, with the same table behind every chart; only the
    order of the age choices may differ. *)
Theorem run_Permutation df_all df_all' gender age :
  df_all ≡ₚ df_all' →
  result_rel same_dashboard (run df_all gender age) (run df_all' gender age).
Proof.
  intros Hp. unfold run.
  eapply result_rel_bind; [by apply df_latest_Permutation|intros latest latest' Hl].
  eapply result_rel_bind; [by apply age_options_Permutation|intros options options' Ho].
  rewrite (df_age_Permutation _ _ Hl). destruct (df_age latest'); simpl; [|done].
  unfold same_dashboard; simpl. by rewrite Hp, Hl.
Qed.

End script_properties.

(** * Runs on the table of the examples *)

Example run_sample :
  (λ d, (age_choices d, by_year d, by_age d, by_type d,
         (λ x, (cName x, cCount x)) <$> pie d))
  <$> run (H:=merge_sorter) sample_rows "All" "40 - 44"
  = Ok (["All"; "0 - 4"; "40 - 44"; "85+"],
        [(2019, 7); (2020, 18)],
        [("0 - 4", 3); ("40 - 44", 15)],
        [("Lung", 15); ("Skin", 3); ("Other", 0)],
        [("Lung", 15); ("Other", 0)]).
Proof. vm_compute. reflexivity. Qed.

(** The age selector offers the labels of all years, the pie shows the
    latest year: a label of earlier years only gives a pie with the one
    slice "Other", of count 0 and share 0/0. *)
Example run_old_label :
  (λ d, (λ x, (cName x, cCount x, cPercentage x)) <$> pie d)
  <$> run (H:=merge_sorter) sample_rows "All" "85+"
  = Ok [("Other", 0, NaN)].
Proof. vm_compute. reflexivity. Qed.

(** Two labels with the same bound: the selector lists them in the order of
    the rows, the chart by age group in the order of [groupby]. *)
Example run_age_order_tie :
  (λ d, (age_choices d, (by_age d).*1))
  <$> run (H:=merge_sorter)
        [Row 2020 "Male" "85+" "Lung" 1; Row 2020 "Male" "85 - 89" "Lung" 1]
        "All" "All"
  = Ok (["All"; "85+"; "85 - 89"], ["85 - 89"; "85+"]).
Proof. vm_compute. reflexivity. Qed.

Lemma run_age_order_witness :
  ∃ d, run (H:=merge_sorter) sample_rows "All" "All" = Ok d
    ∧ (by_age d).*1 `sublist_of` age_choices d.
Proof.
  destruct (run (H:=merge_sorter) sample_rows "All" "All") as [d|e] eqn:Hd;
    [|by vm_compute in Hd].
  exists d. split; [done|]. apply (run_age_order sample_rows "All" "All"); [|done].
  assert (Forall (λ a, Forall (λ b, extract_lower_bound a = extract_lower_bound b → a = b)
                         (Age <$> sample_rows)) (Age <$> sample_rows)) as Hall
    by (apply (bool_decide_unpack _); by vm_compute).
  intros a b Ha Hb. eapply Forall_forall in Hall; [|exact Ha].
  eapply Forall_forall in Hall; [|exact Hb]. exact Hall.
Defined.

Lemma run_shares_witness :
  ∃ d, run (H:=merge_sorter) sample_rows "Male" "All" = Ok d
    ∧ Forall (λ x, is_share (cPercentage x)) (pie d)
    ∧ Forall (λ x, is_share (gPercentage x)) (by_gender d).
Proof.
  destruct (run (H:=merge_sorter) sample_rows "Male" "All") as [d|e] eqn:Hd;
    [|by vm_compute in Hd].
  destruct (run_shares sample_rows "Male" "All" d) as (Hp & _ & Hg); [|done|].
  - repeat constructor; vm_compute; discriminate.
  - by exists d.
Defined.

Lemma run_Permutation_witness :
  result_rel same_dashboard
    (run (H:=merge_sorter) sample_rows "All" "40 - 44")
    (run (H:=merge_sorter) (reverse sample_rows) "All" "40 - 44").
Proof. apply run_Permutation. symmetry. apply reverse_Permutation. Defined.

Lemma run_Ok_iff_witness : is_Ok (run (H:=merge_sorter) sample_rows "Male" "All").
Proof.
  apply run_Ok_iff. split; [done|]. repeat constructor; by eexists.
Defined.

Lemma run_raises_witness :
  run (H:=merge_sorter) [] "All" "All"
  = raise ValueError("max() arg is an empty sequence")
  ∧ run (H:=merge_sorter) [Row 2020 "Male" "40-44" "Lung" 10] "All" "All"
    = raise ValueError("invalid literal for int() with base 10").
Proof.
  split.
  - by apply (proj1 (run_raises [] "All" "All")).
  - apply (proj2 (run_raises [Row 2020 "Male" "40-44" "Lung" 10] "All" "All"));
      [done|].
    intros [[z Hz] _]%Forall_cons. vm_compute in Hz. discriminate.
Defined.

Lemma run_totals_witness :
  ∃ d latest, run (H:=merge_sorter) sample_rows "Female" "40 - 44" = Ok d
    ∧ df_latest sample_rows = Ok latest
    ∧ zsum (gCount <$> by_gender d) = zsum (Count <$> latest)
    ∧ zsum (by_age d).*2 = zsum (Count <$> latest)
    ∧ zsum (by_type d).*2 = zsum (Count <$> latest)
    ∧ zsum (cCount <$> pie d)
      = zsum (Count <$> latest_gender_age latest "Female" "40 - 44").
Proof.
  destruct (run (H:=merge_sorter) sample_rows "Female" "40 - 44") as [d|e] eqn:Hd;
    [|by vm_compute in Hd].
  destruct (run_totals _ _ _ _ Hd) as (latest & ?). by exists d, latest.
Defined.

Lemma run_selectors_witness :
  ∃ d d', run (H:=merge_sorter) sample_rows "Female" "40 - 44" = Ok d
    ∧ run (H:=merge_sorter) sample_rows "All" "All" = Ok d'
    ∧ by_type d = by_type d' ∧ by_age d = by_age d'.
Proof.
  destruct (run (H:=merge_sorter) sample_rows "Female" "40 - 44") as [d|e] eqn:Hd;
    [|by vm_compute in Hd].
  destruct (run (H:=merge_sorter) sample_rows "All" "All") as [d'|e] eqn:Hd';
    [|by vm_compute in Hd'].
  exists d, d'.
  by destruct (run_selectors _ _ _ _ _ _ _ Hd Hd') as (_ & _ & _ & _ & ? & ?).
Defined.

Lemma run_pie_bounds_witness :
  ∃ d, run (H:=merge_sorter) sample_rows "Male" "All" = Ok d
    ∧ 0 ≤ zsum (cCount <$> pie d) ≤ zsum (gCount <$> by_gender d).
Proof.
  destruct (run (H:=merge_sorter) sample_rows "Male" "All") as [d|e] eqn:Hd;
    [|by vm_compute in Hd].
  exists d. split; [done|]. apply (run_pie_bounds sample_rows "Male" d); [|done].
  repeat constructor; vm_compute; discriminate.
Defined.
