(* ===== verification/Spec.v ===== *)
(** * Spec: the contracts of the specification, and how the script meets them

    The specification of the tabulation engine (spec.md, section 4.1) names
    three operations that the script implements inline: [lowerBound],
    [topNWithOther] and [filterLatestYear].  They are written here from the
    words of the specification, not from the code, and each is compared with
    the definition that models the code:

      - [lowerBound]        against [AgeGroup.extract_lower_bound];
      - [topNWithOther]     against [TopN.chart_base] (n = 9) and
                            [TopN.type_sorted] (n = 20);
      - [filterLatestYear]  against [TopN.latest_gender_age].

    None of the three is met exactly; each theorem states the contract the
    code does meet, which is the contract of the specification on the inputs
    where the two agree and names what the code does on the others. *)

From S2P Require Import Prelude PyStr Frame AgeGroup TopN.

#[local] Open Scope string_scope.
#[local] Open Scope list_scope.
#[local] Open Scope Z_scope.

(** * Definitions *)

(** Specification 4.1.1: a label "L - U" has bound L; every other label,
    malformed ones included, has the bound 85. *)
Definition lowerBound (ageLabel : string) : Z :=
  if str_contains " - " ageLabel then
    match split_go " - " 0 ageLabel with
    | l :: _ => match py_int l with Ok z => z | Raise _ => 85 end
    | [] => 85
    end
  else 85.

(** Specification 4.1.3: the two filters compose as a conjunction. *)
Definition filterLatestYear (table : list row) (gender age : string) : list row :=
  filter (λ r, (gender = "All" ∨ Gender r = gender)
               ∧ (age = "All" ∨ Age r = age)) table.

Section contracts.
Context `{Sorter}.

(** Specification 4.1.2: the [n] largest groups, then one row "Other" with
    the sum of the remaining groups; by the end-to-end scenario of section 8
    there is no such row when no group remains. *)
Definition topNWithOther (n : nat) (table : list row) : list (string * Z) :=
  let groups := sort_values snd false (groupby_sum Name Count table) in
  take n groups
  ++ match drop n groups with
     | [] => []
     | rest => [("Other", zsum rest.*2)]
     end.

End contracts.

(** * Lemmas *)

Lemma str_contains_dash s :
  str_contains " - " s = true → str_contains "-" s = true.
Proof.
  intros (l & r & ->)%str_contains_spec. by apply str_contains_app.
Qed.

Section contracts_lemmas.
Context `{Sorter}.
Implicit Types (df : list row).

(** Folding the groups after the [n]-th: nothing to fold exactly when there
    are at most [n] groups. *)
Lemma topNWithOther_app n df :
  take n (sort_values snd false (groupby_sum Name Count df))
  ++ [("Other", zsum (drop n (sort_values snd false (groupby_sum Name Count df))).*2)]
  = topNWithOther n df
    ++ if decide (length (unique (Name <$> df)) ≤ n)%nat
       then [("Other", 0)] else [].
Proof.
  unfold topNWithOther.
  set (s := sort_values snd false (groupby_sum Name Count df)).
  assert (length s = length (unique (Name <$> df))) as <-
    by (unfold s; by rewrite sort_values_length, groupby_sum_length).
  case_decide as Hn.
  - by rewrite (drop_ge s n Hn), app_nil_r.
  - destruct (drop n s) as [|p rest] eqn:Hd; [|by rewrite app_nil_r].
    apply (f_equal length) in Hd. rewrite length_drop in Hd. simpl in Hd. lia.
Qed.

End contracts_lemmas.

(** * Properties *)

Section contracts_properties.
Context `{Sorter}.
Implicit Types (df : list row) (gender age : string).

(** C17 (refinement): the table of the pie before its Sort column is the
    output of [topNWithOther] with n = 9 when more than nine groups exist;
    with nine groups or fewer the code appends a row "Other" of count 0 that
    the specification does not have. *)
Theorem chart_base_topNWithOther df :
  chart_base df
  = topNWithOther 9 df
    ++ if decide (length (unique (Name <$> df)) ≤ 9)%nat
       then [("Other", 0)] else [].
Proof. apply (topNWithOther_app 9). Qed.

(** C25 (refinement): the table of the bar chart by type, as sorted at line
    132, holds the rows of [topNWithOther] with n = 20, and a row "Other" of
    count 0 besides when there are twenty groups or fewer. *)
Theorem type_sorted_topNWithOther df :
  type_sorted df
  ≡ₚ topNWithOther 20 df
     ++ if decide (length (unique (Name <$> df)) ≤ 20)%nat
        then [("Other", 0)] else [].
Proof.
  rewrite type_sorted_perm, type_other_count_groups, top_types_complement.
  unfold top_types. by rewrite (topNWithOther_app 20).
Qed.

(** C18 (refinement): the selector filter is [filterLatestYear] with the
    gender replaced by "All" whenever an age group is chosen; so the code
    meets the conjunction of the specification whenever at most one
    selector is set. *)
Theorem latest_gender_age_filterLatestYear df gender age :
  latest_gender_age df gender age
  = filterLatestYear df (if decide (age = "All") then gender else "All") age.
Proof.
  unfold latest_gender_age, filterLatestYear.
  destruct (decide (age = "All")) as [->|Hage],
    (decide (gender = "All")) as [->|Hgender]; repeat case_decide; try done.
  - symmetry. apply filter_all, Forall_forall. by auto.
  - apply list_filter_iff. intros r. intuition.
  - apply list_filter_iff. intros r. intuition.
  - apply list_filter_iff. intros r. intuition.
Qed.

(** C26 (refinement): when [extract_lower_bound] returns, it returns the bound
    of the specification, unless the label has a minus sign without the
    separator " - " and is itself an integer literal (such as "-5"); when it
    raises, the specification asks for 85. *)
Theorem extract_lower_bound_lowerBound s :
  match extract_lower_bound s with
  | Ok z => z = lowerBound s
            ∨ (str_contains " - " s = false ∧ py_int s = Ok z)
  | Raise _ => lowerBound s = 85
  end.
Proof.
  unfold extract_lower_bound, lowerBound.
  destruct (str_contains " - " s) eqn:Hsep.
  - rewrite (str_contains_dash s Hsep), str_split_Ok by done. simpl.
    pose proof (split_go_nonempty " - " 0 s).
    destruct (split_go " - " 0 s) as [|l parts]; [done|].
    destruct (py_int l); [by left|done].
  - destruct (str_contains "-" s); [|by left].
    rewrite str_split_Ok, split_go_absent by done. simpl.
    destruct (py_int s); [by right|done].
Qed.

End contracts_properties.

(** * Examples *)

(** The end-to-end scenario of the specification: the contract gives two
    rows, the code three. *)
Example scenario_topNWithOther :
  topNWithOther (H:=merge_sorter) 9 scenario = [("Lung", 15); ("Skin", 3)]
  ∧ chart_base (H:=merge_sorter) scenario
    = [("Lung", 15); ("Skin", 3); ("Other", 0)].
Proof. split; vm_compute; reflexivity. Qed.

Example lowerBound_examples :
  lowerBound "40 - 44" = 40 ∧ lowerBound "85+" = 85 ∧ lowerBound "0 - 4" = 0
  ∧ lowerBound "40-44" = 85 ∧ lowerBound "-5" = 85.
Proof. repeat split; vm_compute; reflexivity. Qed.

(** Both selectors set: the contract keeps the women of the age group, the
    code keeps everybody of the age group. *)
Example filterLatestYear_example :
  length (filterLatestYear scenario "Female" "40 - 44") = 1%nat
  ∧ length (latest_gender_age scenario "Female" "40 - 44") = 3%nat.
Proof. split; vm_compute; reflexivity. Qed.
