(* ===== verification/Charts.v ===== *)
(** * Charts: the tables handed to Altair and the seven chart specifications

    Each [alt.Chart(df).mark_x(...).encode(...)] expression of [src/main.py]
    is a value of [chart]: the table, the mark, and one [enc] per encoding
    channel, with the shorthand string and the keyword arguments of the
    source kept as they are written.

      - [pie_chart]            lines 57-62;
      - [year_chart]           lines 68-72;
      - [year_gender_chart]    lines 80-85;
      - [year_gender_share_chart]  lines 94-99;
      - [gender_chart]         lines 107-111;
      - [age_chart]            lines 122-126;
      - [type_chart]           lines 136-142.

    A table reaches Altair as a [frame]: named columns with a dtype and rows
    of cells, one [frame_of_...] per table of the script, with the columns
    the table has when its chart is built.  The one chart argument computed
    from a table is the sort list of the chart by age group
    ([df_age['Age'].tolist()], line 123); [age_chart_sort] says what it
    holds. *)

From Stdlib Require Import QArith.
From S2P Require Import Prelude PyStr Frame AgeGroup TopN Views.

#[local] Open Scope string_scope.
#[local] Open Scope list_scope.
#[local] Open Scope Z_scope.

(** * Definitions *)

(** ** Tables as Altair receives them *)

(** The dtypes the tables of the script have. *)
Inductive dtype : Type := Int64 | Object | Float64 | Category.

Inductive cell : Type :=
  | CInt (z : Z)
  | CStr (s : string)
  | CFloat (x : fval)
  | CCat (s : string).

Record frame : Type := Frame {
  columns : list (string * dtype);
  records : list (list cell);
}.

(** [df_chart] (lines 48-55). *)
Definition frame_of_chart (df_chart : list chart_row) : frame :=
  Frame [("Name", Object); ("Count", Int64); ("Sort", Int64); ("Percentage", Float64)]
    ((λ r, [CStr (cName r); CInt (cCount r); CInt (cSort r); CFloat (cPercentage r)])
     <$> df_chart).

(** [df_year] (line 66). *)
Definition frame_of_year (df_year : list (Z * Z)) : frame :=
  Frame [("Year", Int64); ("Count", Int64)]
    ((λ p, [CInt p.1; CInt p.2]) <$> df_year).

(** [df_year_gender] as it is at line 88, before lines 91-92 add columns. *)
Definition frame_of_year_gender_counts (counts : list (Z * string * Z)) : frame :=
  Frame [("Year", Int64); ("Gender", Object); ("Count", Int64)]
    ((λ p, [CInt p.1.1; CStr p.1.2; CInt p.2]) <$> counts).

(** [df_year_gender] after lines 91-92. *)
Definition frame_of_year_gender (df_year_gender : list year_gender_row) : frame :=
  Frame [("Year", Int64); ("Gender", Object); ("Count", Int64);
         ("Total", Int64); ("Percentage", Float64)]
    ((λ r, [CInt (ygYear r); CStr (ygGender r); CInt (ygCount r);
            CInt (ygTotal r); CFloat (ygPercentage r)])
     <$> df_year_gender).

(** [df_gender] (lines 103-104). *)
Definition frame_of_gender (df_gender : list gender_row) : frame :=
  Frame [("Gender", Object); ("Count", Int64); ("Percentage", Float64)]
    ((λ r, [CStr (gGender r); CInt (gCount r); CFloat (gPercentage r)])
     <$> df_gender).

(** [df_age] (lines 115-119); line 118 makes Age categorical. *)
Definition frame_of_age (df_age : list (string * Z)) : frame :=
  Frame [("Age", Category); ("Count", Int64)]
    ((λ p, [CCat p.1; CInt p.2]) <$> df_age).

(** [df_type] (lines 132-133). *)
Definition frame_of_type (df_type : list (string * Z)) : frame :=
  Frame [("Name", Object); ("Count", Int64)]
    ((λ p, [CStr p.1; CInt p.2]) <$> df_type).

(** ** Chart specifications *)

(** A keyword argument as written in the source. *)
#[local] Unset Elimination Schemes.
Inductive arg : Type :=
  | AStr (s : string)
  | AInt (z : Z)
  | ABool (b : bool)
  | ANone
  | AList (items : list string)
  | ACall (callee : string) (kwargs : list (string * arg)).
#[local] Set Elimination Schemes.

Inductive mark_type : Type := Arc | Area | Line | Bar.

Inductive channel : Type := Theta | Color | Order | Tooltip | X | Y.

(** [alt.X('Year:O', title=None, ...)]: the channel class, the shorthand
    and the keyword arguments. *)
Record enc : Type := Enc {
  enc_channel : channel;
  shorthand : string;
  enc_options : list (string * arg);
}.

Record chart : Type := Chart {
  data : frame;
  mark : mark_type;
  mark_options : list (string * arg);
  encoding : list enc;
  config : list (string * arg);
}.

(** Lines 57-62. *)
Definition pie_chart (df_chart : frame) : chart :=
  Chart df_chart Arc [("innerRadius", AInt 60); ("outerRadius", AInt 120)]
    [ Enc Theta "Count:Q" [("stack", ABool true)];
      Enc Color "Name:N"
        [("sort", ACall "EncodingSortField"
                    [("field", AStr "Sort"); ("order", AStr "descending")]);
         ("legend", ACall "Legend" [("labelLimit", AInt 0)])];
      Enc Order "Sort:Q" [("sort", AStr "descending")];
      Enc Tooltip "Name:N" [("title", AStr "Type")];
      Enc Tooltip "Count:Q" [("format", AStr ","); ("title", AStr "Count")];
      Enc Tooltip "Percentage:Q" [("format", AStr ".0%"); ("title", AStr "Percentage")] ]
    [].

(** Lines 68-72. *)
Definition year_chart (df_year : frame) : chart :=
  Chart df_year Area []
    [ Enc X "Year:O" [("title", ANone); ("axis", ACall "Axis" [("labelAngle", AInt 0)])];
      Enc Y "Count:Q" [("title", ANone)];
      Enc Tooltip "Year:O" [("title", AStr "Year")];
      Enc Tooltip "Count:Q" [("format", AStr ","); ("title", AStr "Count")] ]
    [].

(** Lines 80-85. *)
Definition year_gender_chart (df_year_gender : frame) : chart :=
  Chart df_year_gender Line []
    [ Enc X "Year:N" [("title", ANone); ("axis", ACall "Axis" [("labelAngle", AInt 0)])];
      Enc Y "Count:Q" [("aggregate", AStr "sum"); ("title", ANone)];
      Enc Color "Gender:N"
        [("legend", ACall "Legend" [("orient", AStr "bottom"); ("title", AStr " ");
                                    ("padding", AInt (-20))])];
      Enc Tooltip "Year:N" [("title", AStr "Year")];
      Enc Tooltip "Gender:N" [("title", AStr "Gender")];
      Enc Tooltip "Count:Q" [("format", AStr ","); ("title", AStr "Count")] ]
    [].

(** Lines 94-99. *)
Definition year_gender_share_chart (df_year_gender : frame) : chart :=
  Chart df_year_gender Area []
    [ Enc X "Year:N" [("title", ANone); ("axis", ACall "Axis" [("labelAngle", AInt 0)])];
      Enc Y "Count:Q" [("stack", AStr "normalize"); ("title", ANone)];
      Enc Color "Gender:N"
        [("legend", ACall "Legend" [("orient", AStr "bottom"); ("title", AStr " ");
                                    ("padding", AInt (-20))])];
      Enc Tooltip "Year:N" [("title", AStr "Year")];
      Enc Tooltip "Gender:N" [("title", AStr "Gender")];
      Enc Tooltip "Count:Q" [("format", AStr ","); ("title", AStr "Count")];
      Enc Tooltip "Percentage:Q" [("format", AStr ".1%"); ("title", AStr "Percentage")] ]
    [].

(** Lines 107-111. *)
Definition gender_chart (df_gender : frame) : chart :=
  Chart df_gender Arc [("innerRadius", AInt 60); ("outerRadius", AInt 120)]
    [ Enc Theta "Count:Q" [("stack", ABool true)];
      Enc Color "Gender:N" [];
      Enc Tooltip "Gender:N" [("title", AStr "Type")];
      Enc Tooltip "Count:Q" [("format", AStr ","); ("title", AStr "Count")];
      Enc Tooltip "Percentage:Q" [("format", AStr ".0%"); ("title", AStr "Percentage")] ]
    [].

(** The values of a column of strings, in row order: [df[name].tolist()]. *)
Definition column_index (f : frame) (name : string) : option nat :=
  fst <$> list_find (λ col, col.1 = name) (columns f).

Definition cell_text (c : cell) : option string :=
  match c with
  | CStr s | CCat s => Some s
  | CInt _ | CFloat _ => None
  end.

Definition tolist (f : frame) (name : string) : list string :=
  match column_index f name with
  | Some i => omap (λ r, r !! i ≫= cell_text) (records f)
  | None => []
  end.

(** Lines 122-126; the bars are ordered by the Age column as it stands. *)
Definition age_chart (df_age : frame) : chart :=
  Chart df_age Bar []
    [ Enc X "Age:N" [("title", AStr "Age Group"); ("sort", AList (tolist df_age "Age"))];
      Enc Y "Count:Q" [("title", AStr "Count")];
      Enc Tooltip "Age:N" [("title", AStr "Age Group")];
      Enc Tooltip "Count:Q" [("format", AStr ","); ("title", AStr "Count")] ]
    [].

(** Lines 136-142. *)
Definition type_chart (df_type : frame) : chart :=
  Chart df_type Bar []
    [ Enc Y "Name:N" [("sort", ANone); ("title", ANone)];
      Enc X "Count:Q" [("title", ANone)];
      Enc Tooltip "Name:N" [("title", AStr "Type")];
      Enc Tooltip "Count:Q" [("format", AStr ","); ("title", AStr "Count")] ]
    [("axis", ACall "configure_axis" [("labelLimit", AInt 400)])].

(** * Lemmas *)

(** The Age column of the table by age group, read back from the frame. *)
Lemma tolist_age (df_age : list (string * Z)) :
  tolist (frame_of_age df_age) "Age" = df_age.*1.
Proof.
  unfold tolist. change (column_index _ "Age") with (Some 0%nat). simpl.
  induction df_age as [|p t IH]; [done|]. csimpl. by rewrite IH.
Qed.

(** * Properties *)

Section chart_properties.
Context `{Sorter}.

(** C16 (functional): the bars of the chart by age group are listed by
    increasing lower bound.  The sort list handed to the X encoding at line
    123 holds each age label of the rows of the latest year once, and the
    lower bounds of its labels never decrease along it. *)
Theorem age_chart_sort latest ages :
  df_age latest = Ok ages →
  ∃ labels bounds,
    encoding (age_chart (frame_of_age ages)) !! 0%nat
    = Some (Enc X "Age:N" [("title", AStr "Age Group"); ("sort", AList labels)])
    ∧ NoDup labels ∧ (∀ a, a ∈ labels ↔ a ∈ Age <$> latest)
    ∧ Forall2 (λ a b, extract_lower_bound a = Ok b) labels bounds
    ∧ StronglySorted Z.le bounds.
Proof.
  intros Ha. destruct (df_age_bounds _ _ Ha) as (bounds & Hb & Hs).
  destruct (df_age_labels _ _ Ha) as [Hnd Hin].
  exists ages.*1, bounds. simpl. rewrite tolist_age.
  split_and!; [done..|by apply Forall2_fmap_l|done].
Qed.

End chart_properties.

(** * The chart by age group on a table *)

Lemma age_chart_sort_witness :
  ∃ ages labels,
    df_age (H:=merge_sorter) sample_rows = Ok ages
    ∧ encoding (age_chart (frame_of_age ages)) !! 0%nat
      = Some (Enc X "Age:N" [("title", AStr "Age Group"); ("sort", AList labels)])
    ∧ NoDup labels.
Proof.
  destruct (df_age (H:=merge_sorter) sample_rows) as [ages|e] eqn:Ha;
    [|by vm_compute in Ha].
  destruct (age_chart_sort _ _ Ha) as (labels & bounds & He & Hnd & _).
  by exists ages, labels.
Defined.
