(* ===== verification/Page.v ===== *)
(** * Page: the script as the page it draws

    [main] is [src/main.py] from line 17 to its last line (143), statement by
    statement: the Streamlit calls append an [element] to the page, the
    pandas statements are the tables of [TopN] and [Views], the chart
    expressions are the charts of [Charts].  A [script] is a writer over
    [result]: it carries the elements drawn so far and stops at the first
    exception, as Streamlit does (the elements drawn before the exception
    stay on the page).

    The two select boxes return the option the user chose; the choice is an
    input of [main], given as the index of the option (0 is the state of a
    fresh page). *)

From Stdlib Require Import QArith.
From S2P Require Import Prelude PyStr Frame AgeGroup TopN Views Dashboard Charts.

#[local] Open Scope string_scope.
#[local] Open Scope list_scope.
#[local] Open Scope Z_scope.

(** * Definitions *)

(** What a Streamlit call puts on the page. *)
Inductive element : Type :=
  | Title (body : string)
  | Markdown (body : string)
  | Header (body : string)
  | Columns (spec : nat)
  | Selectbox (column : nat) (label : string) (options : list string) (value : string)
  | AltairChart (altair_chart : chart) (use_container_width : bool).

(** The elements drawn, and the value or the exception that ended the
    script. *)
Definition script (A : Type) : Type := list element * result A.

#[global] Instance script_ret : MRet script := λ A a, ([], Ok a).

#[global] Instance script_bind : MBind script := λ A B f m,
  match m.2 with
  | Ok a => (m.1 ++ (f a).1, (f a).2)
  | Raise e => (m.1, Raise e)
  end.

(** A Streamlit call that draws one element. *)
Definition draw (e : element) : script unit := ([e], Ok tt).

(** A statement that draws nothing. *)
Definition lift {A} (r : result A) : script A := ([], r).

(** [column.selectbox(label, options)]: draws the box in its column and
    returns the chosen option; a choice that is not offered falls back to
    the first option. *)
Definition chosen (options : list string) (choice : nat) : string :=
  default (default "" (head options)) (options !! choice).

Definition selectbox (column : nat) (label : string) (options : list string)
    (choice : nat) : script string :=
  let value := chosen options choice in
  ([Selectbox column label options value], Ok value).

Section script.
Context `{Sorter}.

(** Lines 24-63, "Most frequent cancers": the header, the two select boxes
    in their columns, and the pie of the selected rows. *)
Definition most_frequent_cancers (df_all df_latest : list row)
    (gender_choice age_choice : nat) : script unit :=
  draw (Header "Top 10 cancer types by gender and age in 2020");;
  draw (Columns 2);;
  gender ← selectbox 0 "Gender" gender_options gender_choice;
  options ← lift (age_options df_all);
  age ← selectbox 1 "Age Group" options age_choice;
  let df_latest_gender_age := latest_gender_age df_latest gender age in
  let df_chart := df_chart df_latest_gender_age in
  let chart := pie_chart (frame_of_chart df_chart) in
  draw (AltairChart chart true).

(** Lines 65-74, "Data by year": the chart is built before the header is
    drawn. *)
Definition data_by_year (df_all : list row) : script unit :=
  let df_year := df_year df_all in
  let chart := year_chart (frame_of_year df_year) in
  draw (Header "Detected cancer cases by year");;
  draw (AltairChart chart true).

(** Lines 77-100, "Data by year and gender": the line chart is drawn from
    the table as it is at line 88; lines 91-92 then add the columns Total
    and Percentage, and the normalised area chart is drawn from the table
    with them. *)
Definition data_by_year_and_gender (df_all : list row) : script unit :=
  let df_year_gender := year_gender_counts df_all in
  let chart := year_gender_chart (frame_of_year_gender_counts df_year_gender) in
  draw (Header "Detected cancer cases by year and gender");;
  draw (AltairChart chart true);;
  let df_year_gender := Views.df_year_gender df_all in
  let chart := year_gender_share_chart (frame_of_year_gender df_year_gender) in
  draw (AltairChart chart true).

(** Lines 102-112, "Data by gender". *)
Definition data_by_gender (df_latest : list row) : script unit :=
  let df_gender := df_gender df_latest in
  draw (Header "Detected cancer cases by gender in 2020");;
  let chart := gender_chart (frame_of_gender df_gender) in
  draw (AltairChart chart true).

(** Lines 114-127, "Data by age". *)
Definition data_by_age (df_latest : list row) : script unit :=
  df_age ← lift (df_age df_latest);
  draw (Header "Detected cancer cases by age group in 2020");;
  let chart := age_chart (frame_of_age df_age) in
  draw (AltairChart chart true).

(** Lines 129-143, "Data by type". *)
Definition data_by_type (df_latest : list row) : script unit :=
  let df_type := df_type df_latest in
  draw (Header "Detected cancer cases by type in 2020");;
  let chart := type_chart (frame_of_type df_type) in
  draw (AltairChart chart true).

(** Lines 17-143: the title, the data preparation and the six sections. *)
Definition main (df_all : list row) (gender_choice age_choice : nat) : script unit :=
  draw (Title "Cancer in Belgium");;
  draw (Markdown "Data source: [Kankerregister](https://kankerregister.org/)");;
  df_latest ← lift (df_latest df_all);
  most_frequent_cancers df_all df_latest gender_choice age_choice;;
  data_by_year df_all;;
  data_by_year_and_gender df_all;;
  data_by_gender df_latest;;
  data_by_age df_latest;;
  data_by_type df_latest.

End script.

(** The charts of a page, in the order they were drawn. *)
Definition page_charts (page : list element) : list chart :=
  omap (λ e, match e with AltairChart c _ => Some c | _ => None end) page.

(** * Lemmas *)

(** ** The sections *)

Section sections.
Context `{Sorter}.
Implicit Types (df_all df_latest : list row) (page : list element).

Lemma most_frequent_cancers_Ok df_all df_latest gender_choice age_choice options :
  age_options df_all = Ok options →
  most_frequent_cancers df_all df_latest gender_choice age_choice
  = (let gender := chosen gender_options gender_choice in
     let age := chosen options age_choice in
     [Header "Top 10 cancer types by gender and age in 2020"; Columns 2;
      Selectbox 0 "Gender" gender_options gender;
      Selectbox 1 "Age Group" options age;
      AltairChart
        (pie_chart (frame_of_chart (df_chart (latest_gender_age df_latest gender age))))
        true],
     Ok tt).
Proof. unfold most_frequent_cancers. by intros ->. Qed.

Lemma most_frequent_cancers_Raise df_all df_latest gender_choice age_choice e :
  age_options df_all = Raise e →
  most_frequent_cancers df_all df_latest gender_choice age_choice
  = ([Header "Top 10 cancer types by gender and age in 2020"; Columns 2;
      Selectbox 0 "Gender" gender_options (chosen gender_options gender_choice)],
     Raise e).
Proof. unfold most_frequent_cancers. by intros ->. Qed.

Lemma data_by_age_Ok df_latest ages :
  df_age df_latest = Ok ages →
  data_by_age df_latest
  = ([Header "Detected cancer cases by age group in 2020";
      AltairChart (age_chart (frame_of_age ages)) true],
     Ok tt).
Proof. unfold data_by_age. by intros ->. Qed.

End sections.

(** ** The whole script *)

#[local] Arguments most_frequent_cancers : simpl never.
#[local] Arguments data_by_age : simpl never.

Section main_lemmas.
Context `{Sorter}.
Implicit Types (df_all : list row) (page : list element).

(** The page and the outcome of [main], by the results of its three
    fallible statements. *)
Lemma main_Ok df_all gender_choice age_choice latest options ages :
  df_latest df_all = Ok latest → age_options df_all = Ok options →
  df_age latest = Ok ages →
  main df_all gender_choice age_choice
  = ([Title "Cancer in Belgium";
      Markdown "Data source: [Kankerregister](https://kankerregister.org/)"]
     ++ (most_frequent_cancers df_all latest gender_choice age_choice).1
     ++ (data_by_year df_all).1 ++ (data_by_year_and_gender df_all).1
     ++ (data_by_gender latest).1 ++ (data_by_age latest).1
     ++ (data_by_type latest).1,
     Ok tt).
Proof.
  intros Hl Ho Ha. unfold main. rewrite Hl. cbn.
  by rewrite (most_frequent_cancers_Ok _ _ _ _ _ Ho), (data_by_age_Ok _ _ Ha).
Qed.

(** The two ways [main] fails: at line 22 and at line 31. *)
Lemma main_Raise_latest df_all gender_choice age_choice e :
  df_latest df_all = Raise e →
  main df_all gender_choice age_choice
  = ([Title "Cancer in Belgium";
      Markdown "Data source: [Kankerregister](https://kankerregister.org/)"],
     Raise e).
Proof. intros Hl. unfold main. by rewrite Hl. Qed.

Lemma main_Raise_options df_all gender_choice age_choice latest e :
  df_latest df_all = Ok latest → age_options df_all = Raise e →
  main df_all gender_choice age_choice
  = ([Title "Cancer in Belgium";
      Markdown "Data source: [Kankerregister](https://kankerregister.org/)";
      Header "Top 10 cancer types by gender and age in 2020";
      Columns 2;
      Selectbox 0 "Gender" gender_options (chosen gender_options gender_choice)],
     Raise e).
Proof.
  intros Hl Ho. unfold main. rewrite Hl. cbn.
  by rewrite (most_frequent_cancers_Raise _ _ _ _ _ Ho).
Qed.

End main_lemmas.

(** * Properties *)

Section script_properties.
Context `{Sorter}.
Implicit Types (df_all : list row) (page : list element).

(** C8 (liveness): on a table with a row whose age labels all have a bound,
    the script reaches its last line and the page is complete: title and
    source, the header and the two select boxes with the pie, then five
    more headers and six more charts in the order of the script, each
    chart on the table computed for it. *)
Theorem main_completes df_all gender_choice age_choice :
  df_all ≠ [] → Forall (λ r, is_Ok (extract_lower_bound (Age r))) df_all →
  ∃ latest options ages,
    df_latest df_all = Ok latest ∧ age_options df_all = Ok options
    ∧ df_age latest = Ok ages
    ∧ let gender := chosen gender_options gender_choice in
      let age := chosen options age_choice in
      main df_all gender_choice age_choice
      = ([Title "Cancer in Belgium";
          Markdown "Data source: [Kankerregister](https://kankerregister.org/)";
          Header "Top 10 cancer types by gender and age in 2020";
          Columns 2;
          Selectbox 0 "Gender" gender_options gender;
          Selectbox 1 "Age Group" options age;
          AltairChart
            (pie_chart (frame_of_chart (df_chart (latest_gender_age latest gender age))))
            true;
          Header "Detected cancer cases by year";
          AltairChart (year_chart (frame_of_year (df_year df_all))) true;
          Header "Detected cancer cases by year and gender";
          AltairChart
            (year_gender_chart (frame_of_year_gender_counts (year_gender_counts df_all)))
            true;
          AltairChart
            (year_gender_share_chart (frame_of_year_gender (df_year_gender df_all)))
            true;
          Header "Detected cancer cases by gender in 2020";
          AltairChart (gender_chart (frame_of_gender (df_gender latest))) true;
          Header "Detected cancer cases by age group in 2020";
          AltairChart (age_chart (frame_of_age ages)) true;
          Header "Detected cancer cases by type in 2020";
          AltairChart (type_chart (frame_of_type (df_type latest))) true],
         Ok tt).
Proof.
  intros Hne Hall.
  apply (proj1 (df_latest_Ok_iff df_all)) in Hne as [latest Hl].
  apply agegroups_Ok_iff, age_options_is_Ok in Hall as Ho.
  destruct (df_age_after_options _ _ Hl Ho) as [ages Ha].
  destruct Ho as [options Ho]. exists latest, options, ages.
  split_and!; [done..|]. intros gender age.
  rewrite (main_Ok _ _ _ _ _ _ Hl Ho Ha).
  by rewrite (most_frequent_cancers_Ok _ _ _ _ _ Ho), (data_by_age_Ok _ _ Ha).
Qed.

(** C6 (error): the page of a run that fails.  On an empty table the title
    and the source line are drawn and line 22 raises the [ValueError] of
    [max]; on a table with an age label without a bound the header, the
    columns and the gender box are drawn as well and line 31 raises the
    [ValueError] of [int]: the age box and the charts never appear. *)
Theorem main_raises df_all gender_choice age_choice :
  (df_all = [] →
   main df_all gender_choice age_choice
   = ([Title "Cancer in Belgium";
       Markdown "Data source: [Kankerregister](https://kankerregister.org/)"],
      raise ValueError("max() arg is an empty sequence")))
  ∧ (df_all ≠ [] →
     ¬ Forall (λ r, is_Ok (extract_lower_bound (Age r))) df_all →
     main df_all gender_choice age_choice
     = ([Title "Cancer in Belgium";
         Markdown "Data source: [Kankerregister](https://kankerregister.org/)";
         Header "Top 10 cancer types by gender and age in 2020";
         Columns 2;
         Selectbox 0 "Gender" gender_options (chosen gender_options gender_choice)],
        raise ValueError("invalid literal for int() with base 10"))).
Proof.
  split; [by intros ->|]. intros Hne Hbad.
  apply (proj1 (df_latest_Ok_iff df_all)) in Hne as [latest Hl].
  destruct (age_options df_all) as [options|e] eqn:Ho.
  - destruct Hbad. apply agegroups_Ok_iff, age_options_is_Ok. by eexists.
  - apply age_options_Raise in Ho as He. subst e.
    by apply main_Raise_options with latest.
Qed.

(** C13 (functional): the select boxes change the two boxes and the pie, and
    nothing else.  Two runs on the same table with other choices end or
    fail alike, draw as many elements, and draw the same element at every
    position but those of the gender box, the age box and the pie (4, 5
    and 6 from the top of the page). *)
Theorem main_selectors df_all gender_choice age_choice gender_choice' age_choice' :
  (main df_all gender_choice age_choice).2 = (main df_all gender_choice' age_choice').2
  ∧ length (main df_all gender_choice age_choice).1
    = length (main df_all gender_choice' age_choice').1
  ∧ ∀ i : nat, i ∉ [4; 5; 6]%nat →
      (main df_all gender_choice age_choice).1 !! i
      = (main df_all gender_choice' age_choice').1 !! i.
Proof.
  destruct (df_latest df_all) as [latest|e] eqn:Hl;
    [|by rewrite !(main_Raise_latest _ _ _ _ Hl)].
  destruct (age_options df_all) as [options|e] eqn:Ho.
  - destruct (df_age_after_options _ _ Hl (ex_intro _ _ Ho)) as [ages Ha].
    rewrite !(main_Ok _ _ _ _ _ _ Hl Ho Ha), !(most_frequent_cancers_Ok _ _ _ _ _ Ho).
    split_and!; [done..|]. intros i Hi.
    do 7 (destruct i as [|i]; [by first [done|destruct Hi; compute_done]|]). done.
  - rewrite !(main_Raise_options _ _ _ _ _ Hl Ho).
    split_and!; [done..|]. intros i Hi.
    do 5 (destruct i as [|i]; [by first [done|destruct Hi; compute_done]|]). done.
Qed.

End script_properties.

(** * Runs on the table of the examples *)

Example main_sample :
  (main (H:=merge_sorter) sample_rows 0 1).2 = Ok tt
  ∧ length (main (H:=merge_sorter) sample_rows 0 1).1 = 18%nat
  ∧ mark <$> page_charts (main (H:=merge_sorter) sample_rows 0 1).1
    = [Arc; Area; Line; Area; Arc; Bar; Bar].
Proof. repeat split; vm_compute; reflexivity. Qed.

Lemma main_completes_witness :
  ∃ page, main (H:=merge_sorter) sample_rows 2 1 = (page, Ok tt)
    ∧ length page = 18%nat.
Proof.
  destruct (main_completes (H:=merge_sorter) sample_rows 2 1)
    as (latest & options & ages & _ & _ & _ & Hm).
  - done.
  - repeat constructor; by eexists.
  - cbv zeta in Hm. eexists. split; [exact Hm|done].
Defined.
